(** * functorch/csrc/DynamicLayer.cpp: the dynamic layer stack and its two
      boundary handlers, as a shallow embedding.

    The thread-local layer stack, the process-wide liveness registry, the
    thread's local dispatch key set, the two differentiation-mode flags and
    the boxed call stack are the fields of one explicit [World]; every
    function of the file that touches them is a state transformer that also
    reports how it ended (returned, threw, or brought the process down). *)

From Stdlib Require Import ZArith NArith Lia.
From stdpp Require Import base option list gmap strings.

Local Open Scope Z_scope.

(** ** Dispatch keys and dispatch key sets (c10)

    [DispatchKey] is a [uint8_t] enumeration and [DispatchKeySet] a 64-bit
    bit set: key [t] occupies bit [t - 1], [Undefined] (value 0) occupies no
    bit.  Every enumerator is below 64, so no shift leaves the word. *)

Definition DispatchKey := N.
Definition DispatchKeySet := N.

Definition Undefined : DispatchKey := 0%N.

Module DispatchKeySet.
(** [DispatchKeySet(DispatchKey t)] *)
Definition of_key (t : DispatchKey) : DispatchKeySet :=
  if (t =? 0)%N then 0%N else N.shiftl 1 (t - 1).
(** [has(t)]: [repr_ & DispatchKeySet(t).repr_] as a bool *)
Definition has (s : DispatchKeySet) (t : DispatchKey) : bool :=
  negb (N.land s (of_key t) =? 0)%N.
(** [add(t)]: [*this | DispatchKeySet(t)] *)
Definition add (s : DispatchKeySet) (t : DispatchKey) : DispatchKeySet :=
  N.lor s (of_key t).
(** [remove(t)]: [repr_ & ~DispatchKeySet(t).repr_] *)
Definition remove (s : DispatchKeySet) (t : DispatchKey) : DispatchKeySet :=
  N.ldiff s (of_key t).
(** [operator|] and [operator-] *)
Definition union (a b : DispatchKeySet) : DispatchKeySet := N.lor a b.
Definition minus (a b : DispatchKeySet) : DispatchKeySet := N.ldiff a b.
End DispatchKeySet.

(** [c10::impl::LocalDispatchKeySet] *)
Record LocalDispatchKeySet := {
  included_ : DispatchKeySet;
  excluded_ : DispatchKeySet
}.

(** The enumerators and key sets the file names.  Their numeric values are
    fixed by headers outside this file ([c10/core/DispatchKey.h],
    [functorch/csrc/Constants.h]); the development is parametric in them. *)
Class DispatchKeys := {
  Autograd : DispatchKey;
  ADInplaceOrView : DispatchKey;
  kDynamicLayerFrontModeKey : DispatchKey;
  kDynamicLayerBackModeKey : DispatchKey;
  kGradWrapperKey : DispatchKey;
  kBatchedKey : DispatchKey;
  kVmapModeKey : DispatchKey;
  autograd_dispatch_keyset : DispatchKeySet
}.

(** ** Tensors, wrappers and boxed values

    A [LifeHandle] stands for a [std::shared_ptr<bool>]: the index of a cell
    in the world's [flags] arena.  Copies of the pointer are copies of the
    index, so the registry and every wrapper made for a level observe the
    same cell. *)

Definition LifeHandle := nat.

Inductive Tensor :=
| UndefinedTensor
| Plain (data : Z)
| Wrapped (value : Tensor) (level_ : Z) (is_alive_ : LifeHandle).

Record TensorWrapper := {
  value : Tensor;
  wrapper_level_ : Z;
  wrapper_is_alive_ : LifeHandle
}.

Definition defined (t : Tensor) : bool :=
  match t with UndefinedTensor => false | _ => true end.

(** Modelled from the spec: [maybeGetTensorWrapper] (TensorWrapper.cpp is not
    part of the sources): "tryUnwrap(value) -> optional raw-with-level (none
    if value is not a wrapper)". *)
Definition maybeGetTensorWrapper (t : Tensor) : option TensorWrapper :=
  match t with
  | Wrapped v l h =>
      Some {| value := v; wrapper_level_ := l; wrapper_is_alive_ := h |}
  | _ => None
  end.

(** Modelled from the spec: [TensorWrapper::is_alive] (TensorWrapper.h is not
    part of the sources): a wrapper is "alive iff its liveness flag is
    true".  A handle always points into the arena; the [false] default is
    never reached for handles the program made. *)
Definition is_alive (flags : list bool) (w : TensorWrapper) : bool :=
  default false (flags !! wrapper_is_alive_ w).

(** [TensorWrapper::level()] returns an optional level (the file calls
    [.has_value()] and [.value()] on it); when it is absent is decided in
    TensorWrapper.h, outside the sources, so it is a parameter. *)
Class TensorWrapperLevel := {
  wrapper_level : list bool -> TensorWrapper -> option Z
}.

(** [c10::IValue], by the tags [foreachTensorInplace] tells apart.  A list of
    tensors is a list whose elements are tensor values ([isTensorList()] is
    [isList()] together with the element type). *)
#[warnings="-register-all"]
Inductive IValue :=
| IVTensor (t : Tensor)
| IVList (elts : list IValue)
| IVGenericDict
| IVOther (payload : Z).

Definition isTensor (v : IValue) : bool :=
  match v with IVTensor _ => true | _ => false end.

(** ** Schemas (c10::FunctionSchema, as far as the file reads it) *)

(** [c10::AliasInfo]: whether the annotation is a write, and the alias sets it
    names ([a] in [Tensor(a!)]). *)
Record AliasInfo := { isWrite : bool; beforeSets : list string }.
Record Argument := { alias_info : option AliasInfo }.
Record FunctionSchema := {
  operator_name : string;
  arguments : list Argument;
  returns : list Argument
}.

(** [FunctionSchema::is_mutable]: some argument carries a write alias. *)
Definition is_mutable (schema : FunctionSchema) : bool :=
  existsb (fun arg => match alias_info arg with
                      | Some a => isWrite a
                      | None => false
                      end) (arguments schema).

(** ** Layers *)

Definition RandomnessType := Z.

Record DynamicLayer := {
  key_ : DispatchKey;
  layerId_ : Z;
  batchSize_ : option Z;
  randomness_ : option RandomnessType;
  prevGradMode_ : option bool;
  prevFwdGradMode_ : option bool;
  prevLocalDispatchKeySet_ : LocalDispatchKeySet
}.

(** ** The world *)

Record World := {
  dynamicLayerStack : list DynamicLayer;      (* FuncTorchTLS, bottom first *)
  kDynMetaDataSingleton : gmap Z LifeHandle;  (* level -> shared_ptr<bool> *)
  flags : list bool;                          (* the pointed-to bools *)
  tls_local_dispatch_key_set : LocalDispatchKeySet;
  GradMode_enabled : bool;
  FwGradMode_enabled : bool;
  jitStack : list IValue;                     (* the boxed call stack *)
  refreshedMetadata : list TensorWrapper      (* refreshMetadata() calls, oldest first *)
}.

Definition with_dynamicLayerStack (s : list DynamicLayer) (w : World) : World :=
  {| dynamicLayerStack := s;
     kDynMetaDataSingleton := kDynMetaDataSingleton w;
     flags := flags w;
     tls_local_dispatch_key_set := tls_local_dispatch_key_set w;
     GradMode_enabled := GradMode_enabled w;
     FwGradMode_enabled := FwGradMode_enabled w;
     jitStack := jitStack w;
     refreshedMetadata := refreshedMetadata w |}.

Definition with_registry (m : gmap Z LifeHandle) (w : World) : World :=
  {| dynamicLayerStack := dynamicLayerStack w;
     kDynMetaDataSingleton := m;
     flags := flags w;
     tls_local_dispatch_key_set := tls_local_dispatch_key_set w;
     GradMode_enabled := GradMode_enabled w;
     FwGradMode_enabled := FwGradMode_enabled w;
     jitStack := jitStack w;
     refreshedMetadata := refreshedMetadata w |}.

Definition with_flags (f : list bool) (w : World) : World :=
  {| dynamicLayerStack := dynamicLayerStack w;
     kDynMetaDataSingleton := kDynMetaDataSingleton w;
     flags := f;
     tls_local_dispatch_key_set := tls_local_dispatch_key_set w;
     GradMode_enabled := GradMode_enabled w;
     FwGradMode_enabled := FwGradMode_enabled w;
     jitStack := jitStack w;
     refreshedMetadata := refreshedMetadata w |}.

Definition with_tls (k : LocalDispatchKeySet) (w : World) : World :=
  {| dynamicLayerStack := dynamicLayerStack w;
     kDynMetaDataSingleton := kDynMetaDataSingleton w;
     flags := flags w;
     tls_local_dispatch_key_set := k;
     GradMode_enabled := GradMode_enabled w;
     FwGradMode_enabled := FwGradMode_enabled w;
     jitStack := jitStack w;
     refreshedMetadata := refreshedMetadata w |}.

Definition with_GradMode (b : bool) (w : World) : World :=
  {| dynamicLayerStack := dynamicLayerStack w;
     kDynMetaDataSingleton := kDynMetaDataSingleton w;
     flags := flags w;
     tls_local_dispatch_key_set := tls_local_dispatch_key_set w;
     GradMode_enabled := b;
     FwGradMode_enabled := FwGradMode_enabled w;
     jitStack := jitStack w;
     refreshedMetadata := refreshedMetadata w |}.

Definition with_FwGradMode (b : bool) (w : World) : World :=
  {| dynamicLayerStack := dynamicLayerStack w;
     kDynMetaDataSingleton := kDynMetaDataSingleton w;
     flags := flags w;
     tls_local_dispatch_key_set := tls_local_dispatch_key_set w;
     GradMode_enabled := GradMode_enabled w;
     FwGradMode_enabled := b;
     jitStack := jitStack w;
     refreshedMetadata := refreshedMetadata w |}.

Definition with_jitStack (s : list IValue) (w : World) : World :=
  {| dynamicLayerStack := dynamicLayerStack w;
     kDynMetaDataSingleton := kDynMetaDataSingleton w;
     flags := flags w;
     tls_local_dispatch_key_set := tls_local_dispatch_key_set w;
     GradMode_enabled := GradMode_enabled w;
     FwGradMode_enabled := FwGradMode_enabled w;
     jitStack := s;
     refreshedMetadata := refreshedMetadata w |}.

Definition with_refreshedMetadata (r : list TensorWrapper) (w : World) : World :=
  {| dynamicLayerStack := dynamicLayerStack w;
     kDynMetaDataSingleton := kDynMetaDataSingleton w;
     flags := flags w;
     tls_local_dispatch_key_set := tls_local_dispatch_key_set w;
     GradMode_enabled := GradMode_enabled w;
     FwGradMode_enabled := FwGradMode_enabled w;
     jitStack := jitStack w;
     refreshedMetadata := r |}.

(** ** How a call ends, and the state-and-exception monad *)

Inductive Exn :=
| InternalAssert (msg : string)   (* TORCH_INTERNAL_ASSERT *)
| CheckFailed (msg : string)      (* TORCH_CHECK, user facing *)
| bad_optional_access             (* optional::value() on an empty optional *)
| Foreign (code : Z).             (* anything a re-dispatched call raises *)

Inductive Abort :=
| std_terminate                   (* an exception left a destructor *)
| undefined_behaviour.            (* back() of an empty vector, index out of range *)

Inductive Outcome (A : Type) :=
| Returned (a : A)
| Thrown (e : Exn)
| Aborted (why : Abort).
Arguments Returned {A} a.
Arguments Thrown {A} e.
Arguments Aborted {A} why.

Definition M (S A : Type) := S -> Outcome A * S.

Definition ret {S A} (a : A) : M S A := fun s => (Returned a, s).
Definition throw {S A} (e : Exn) : M S A := fun s => (Thrown e, s).
Definition abort {S A} (why : Abort) : M S A := fun s => (Aborted why, s).
Definition bind {S A B} (k : A -> M S B) (m : M S A) : M S B :=
  fun s => match m s with
           | (Returned a, s') => k a s'
           | (Thrown e, s') => (Thrown e, s')
           | (Aborted y, s') => (Aborted y, s')
           end.
Definition get {S} : M S S := fun s => (Returned s, s).
Definition modify {S} (f : S -> S) : M S unit := fun s => (Returned tt, f s).

#[export] Instance M_ret {S} : MRet (M S) := @ret S.
#[export] Instance M_bind {S} : MBind (M S) := @bind S.

(** [TORCH_INTERNAL_ASSERT(cond, msg)] *)
Definition TORCH_INTERNAL_ASSERT {S} (cond : bool) (msg : string) : M S unit :=
  if cond then ret tt else throw (InternalAssert msg).

(** A scope guarded by an object whose destructor is [dtor]: the destructor
    runs on normal exit and during unwinding.  Destructors are implicitly
    [noexcept], so one that throws ends the process. *)
Definition run_dtor {S A} (dtor : M S unit) (o : Outcome A) : M S A :=
  fun s => match dtor s with
           | (Returned _, s') => (o, s')
           | (Thrown _, s') => (Aborted std_terminate, s')
           | (Aborted y, s') => (Aborted y, s')
           end.

Definition scoped {S A} (dtor : M S unit) (body : M S A) : M S A :=
  fun s => match body s with
           | (Returned a, s') => run_dtor dtor (Returned a) s'
           | (Thrown e, s') => run_dtor dtor (Thrown e) s'
           | (Aborted y, s') => (Aborted y, s')
           end.

(** [c10::impl::tls_set_dispatch_key_included] (c10, LocalDispatchKeySet.cpp):
    only the included set is touched, and only when the bit differs. *)
Definition tls_set_dispatch_key_included
    (x : DispatchKey) (desired_state : bool) (tls : LocalDispatchKeySet)
    : LocalDispatchKeySet :=
  let current_state := DispatchKeySet.has (included_ tls) x in
  if Bool.eqb desired_state current_state then tls
  else if desired_state
       then {| included_ := DispatchKeySet.add (included_ tls) x;
               excluded_ := excluded_ tls |}
       else {| included_ := DispatchKeySet.remove (included_ tls) x;
               excluded_ := excluded_ tls |}.

Section LayerStack.
Context `{DispatchKeys}.

Definition setDynamicLayerFrontBackKeysIncluded (included : bool) : M World unit :=
  modify (fun w =>
    with_tls (tls_set_dispatch_key_included kDynamicLayerFrontModeKey included
                (tls_local_dispatch_key_set w)) w);;
  modify (fun w =>
    with_tls (tls_set_dispatch_key_included kDynamicLayerBackModeKey included
                (tls_local_dispatch_key_set w)) w).

(** [DynamicLayer::DynamicLayer]: the constructor snapshots the thread's
    local dispatch key set. *)
Definition DynamicLayer_new
    (key : DispatchKey) (layerId : Z) (batchSize : option Z)
    (randomness : option RandomnessType)
    (prev_grad_mode prev_fwd_grad_mode : option bool) : M World DynamicLayer :=
  w ← get;
  (if N.eqb key Autograd
   then TORCH_INTERNAL_ASSERT
          (bool_decide (is_Some prev_grad_mode) || bool_decide (is_Some prev_fwd_grad_mode))
          "prev_grad_mode.has_value() || prev_fwd_grad_mode.has_value()"
   else mret tt);;
  mret {| key_ := key;
          layerId_ := layerId;
          batchSize_ := batchSize;
          randomness_ := randomness;
          prevGradMode_ := prev_grad_mode;
          prevFwdGradMode_ := prev_fwd_grad_mode;
          prevLocalDispatchKeySet_ := tls_local_dispatch_key_set w |}.

Definition getLifeHandleForLevel (level : Z) : M World LifeHandle :=
  w ← get;
  match kDynMetaDataSingleton w !! level with
  | None => throw (InternalAssert "level should be alive")
  | Some h => mret h
  end.

Definition maybeCurrentDynamicLayer : M World (option DynamicLayer) :=
  w ← get;
  if Nat.eqb (length (dynamicLayerStack w)) 0 then mret None
  else mret (last (dynamicLayerStack w)).

Definition getDynamicLayerStack : M World (list DynamicLayer) :=
  w ← get; mret (dynamicLayerStack w).

Definition setDynamicLayerStack (stack : list DynamicLayer) : M World unit :=
  modify (with_dynamicLayerStack stack).

Definition areTransformsActive : M World bool :=
  w ← get; mret (negb (bool_decide (kDynMetaDataSingleton w = ∅))).

Definition popDynamicLayer : M World DynamicLayer :=
  w ← get;
  TORCH_INTERNAL_ASSERT (0 <? Z.of_nat (length (dynamicLayerStack w)))
    "dynamicLayerStack.size() > 0";;
  match last (dynamicLayerStack w) with
  | None => abort undefined_behaviour
  | Some result =>
      TORCH_INTERNAL_ASSERT (negb (N.eqb (key_ result) Undefined))
        "result.key() != DispatchKey::Undefined";;
      modify (with_dynamicLayerStack (removelast (dynamicLayerStack w)));;
      w' ← get;
      (if Nat.eqb (length (dynamicLayerStack w')) 0
       then setDynamicLayerFrontBackKeysIncluded false
       else mret tt);;
      mret result
  end.

Definition pushDynamicLayer (dynamic_layer : DynamicLayer) : M World Z :=
  w ← get;
  let layerId := 1 + Z.of_nat (length (dynamicLayerStack w)) in
  TORCH_INTERNAL_ASSERT (layerId =? layerId_ dynamic_layer)
    "layerId == dynamic_layer.layerId()";;
  modify (with_dynamicLayerStack (dynamicLayerStack w ++ [dynamic_layer]));;
  (if layerId =? 1
   then setDynamicLayerFrontBackKeysIncluded true
   else mret tt);;
  mret layerId.

Definition initAndPushDynamicLayer
    (key : DispatchKey) (batch_size : option Z)
    (randomness : option RandomnessType)
    (prev_grad_mode prev_fwd_grad_mode : option bool) : M World Z :=
  TORCH_INTERNAL_ASSERT (N.eqb key Autograd || N.eqb key kBatchedKey)
    "key == DispatchKey::Autograd || key == kBatchedKey";;
  w ← get;
  let layerId := 1 + Z.of_nat (length (dynamicLayerStack w)) in
  new_layer ← DynamicLayer_new key layerId batch_size randomness
                prev_grad_mode prev_fwd_grad_mode;
  pushDynamicLayer new_layer;;
  data ← (w' ← get; mret (kDynMetaDataSingleton w'));
  TORCH_INTERNAL_ASSERT (bool_decide (data !! layerId = None))
    "data.find(layerId) == data.end()";;
  (if N.eqb key Autograd
   then TORCH_INTERNAL_ASSERT
          (bool_decide (is_Some prev_grad_mode) || bool_decide (is_Some prev_fwd_grad_mode))
          "prev_grad_mode.has_value() || prev_fwd_grad_mode.has_value()"
   else mret tt);;
  (* data[layerId] = std::make_shared<bool>(true): a new cell, set *)
  modify (fun w' =>
    with_registry (<[layerId := length (flags w')]> (kDynMetaDataSingleton w'))
      (with_flags (flags w' ++ [true]) w'));;
  mret layerId.

Definition popDynamicLayerAndDeleteMetadata : M World DynamicLayer :=
  result ← popDynamicLayer;
  let level := layerId_ result in
  w ← get;
  match kDynMetaDataSingleton w !! level with
  | None => mret result
  | Some it =>
      (* *(it->second) = false; data.erase(level) *)
      modify (with_flags (<[it := false]> (flags w)));;
      modify (fun w' => with_registry (delete level (kDynMetaDataSingleton w')) w');;
      mret result
  end.

End LayerStack.

(** ** Wrapping, unwrapping and the argument walker *)

(** [optional::value()] *)
Definition optional_value {S A} (o : option A) : M S A :=
  match o with
  | Some a => mret a
  | None => throw bad_optional_access
  end.

(** [for (idx = start; idx < start + n; idx++) body(idx)] *)
Fixpoint for_range {S} (n : nat) (idx : Z) (body : Z -> M S unit) : M S unit :=
  match n with
  | O => mret tt
  | S n' => body idx;; for_range n' (idx + 1) body
  end.

(** [v[idx]] on a vector; an index outside the vector has no defined result. *)
Definition at_index {A} (v : list A) (idx : Z) : option A :=
  if idx <? 0 then None else v !! Z.to_nat idx.

Section Handlers.
Context `{DispatchKeys} `{TensorWrapperLevel}.

(** Modelled from the spec: [makeTensorWrapper] (TensorWrapper.cpp is not
    part of the sources): "wrap(raw, level) -> wrapped", the result being "a
    value tagged with the level of the layer that produced it, plus a
    non-owning reference to that level's liveness flag"; the flag is found
    through the registry lookup of this file, which fails when the level has
    no entry. *)
Definition makeTensorWrapper (tensor : Tensor) (level : Z) : M World Tensor :=
  life_handle ← getLifeHandleForLevel level;
  mret (Wrapped tensor level life_handle).

Definition materializeGradWrappers
    (tensor : Tensor) (dynlayerStack : list DynamicLayer) : M World Tensor :=
  if negb (defined tensor) then mret tensor
  else match last dynlayerStack with
  | None => abort undefined_behaviour
  | Some back =>
      if negb (N.eqb (key_ back) Autograd) then mret tensor
      else
        let cur_level := layerId_ back in
        match maybeGetTensorWrapper tensor with
        | None => makeTensorWrapper tensor cur_level
        | Some wrapper =>
            w ← get;
            wrapper_lvl ← optional_value (wrapper_level (flags w) wrapper);
            TORCH_INTERNAL_ASSERT (wrapper_lvl <=? cur_level) "escaped?";;
            if wrapper_lvl =? cur_level
            then TORCH_INTERNAL_ASSERT (defined tensor) "tensor.defined()";;
                 mret tensor
            else makeTensorWrapper tensor cur_level
        end
  end.

Definition unwrapIfDead (tensor : Tensor) : M World Tensor :=
  w ← get;
  match maybeGetTensorWrapper tensor with
  | None => mret tensor
  | Some wrapped =>
      if is_alive (flags w) wrapped then mret tensor
      else mret (value wrapped)
  end.

Definition set_arg (idx : Z) (v : IValue) : M World unit :=
  modify (fun w => with_jitStack (<[Z.to_nat idx := v]> (jitStack w)) w).

(** One turn of the loop of [foreachTensorInplace]; [args] is the boxed call
    stack at every call site.  A list is copied, its tensor elements are
    replaced in the copy, and the copy is stored back when something was
    replaced.  [isTensorList()] holds only of values for which [isList()]
    holds, so after the [continue] of the list branch the tensor-list branch
    is never entered and has no counterpart here. *)
Definition foreachTensorInplace_elt
    (func : Tensor -> M World Tensor) (elt : IValue) : M World IValue :=
  match elt with
  | IVTensor t => r ← func t; mret (IVTensor r)
  | _ => mret elt
  end.

Definition foreachTensorInplace_body
    (func : Tensor -> M World Tensor) (idx : Z) : M World unit :=
  w ← get;
  match at_index (jitStack w) idx with
  | None => abort undefined_behaviour
  | Some ivalue =>
      match ivalue with
      | IVList elts =>
          list ← mapM (foreachTensorInplace_elt func) elts;
          if existsb isTensor elts then set_arg idx (IVList list) else mret tt
      | IVGenericDict =>
          throw (InternalAssert "No operators can accept GenericDict")
      | IVTensor value =>
          replacement ← func value;
          set_arg idx (IVTensor replacement);;
          if defined value
          then TORCH_INTERNAL_ASSERT (defined replacement)
                 "args[idx].toTensor().defined()"
          else mret tt
      | IVOther _ => mret tt
      end
  end.

Definition foreachTensorInplace
    (begin end_ : Z) (func : Tensor -> M World Tensor) : M World unit :=
  TORCH_INTERNAL_ASSERT (0 <=? begin) "begin >= 0";;
  TORCH_INTERNAL_ASSERT (0 <=? end_) "end >= 0";;
  TORCH_INTERNAL_ASSERT (begin <=? end_) "begin <= end";;
  for_range (Z.to_nat (end_ - begin)) begin (foreachTensorInplace_body func).

(** ** The mutation-safety check *)

(** The first argument is read through [arguments().begin()]; a mutable
    schema has an argument, so the empty case is not reached. *)
Definition isInplaceOp (schema : FunctionSchema) : bool :=
  if negb (is_mutable schema) || negb (Nat.eqb (length (returns schema)) 1)
  then false
  else match arguments schema with
  | [] => false
  | first_arg :: others =>
      match alias_info first_arg with
      | None => false
      | Some first_arg_alias_info =>
          if negb (isWrite first_arg_alias_info) then false
          else if existsb (fun it => bool_decide (is_Some (alias_info it))) others
          then false
          else match returns schema with
               | [] => false
               | r :: _ =>
                   match alias_info r with
                   | Some return_alias_info => isWrite return_alias_info
                   | None => false
                   end
               end
      end
  end.

Definition captured_mutation_message (schema : FunctionSchema) : string :=
  "During a grad (vjp, jvp, grad, etc) transform, the function provided " +:+
  "attempted to call in-place operation (" +:+ operator_name schema +:+ ") " +:+
  "that would mutate a captured Tensor. This is not supported; please rewrite " +:+
  "the function being transformed to explicitly accept the mutated Tensor(s) " +:+
  "as inputs.".

(** [IValue::toTensor] *)
Definition toTensor {S} (v : IValue) : M S Tensor :=
  match v with
  | IVTensor t => mret t
  | _ => throw (InternalAssert "Expected Tensor")
  end.

Definition checkForInvalidMutationOnCaptures
    (schema : FunctionSchema) (dynamicLayerStack : list DynamicLayer)
    : M World unit :=
  match last dynamicLayerStack with
  | None => abort undefined_behaviour
  | Some back =>
      if negb (N.eqb (key_ back) Autograd) then mret tt
      else if negb (isInplaceOp schema) then mret tt
      else
        w ← get;
        (* args = torch::jit::last(stack, arguments().size()); args[0] *)
        match at_index (jitStack w)
                (Z.of_nat (length (jitStack w)) - Z.of_nat (length (arguments schema))) with
        | None => abort undefined_behaviour
        | Some arg0 =>
            arg0_tensor ← toTensor arg0;
            mutated_arg ← unwrapIfDead arg0_tensor;
            let cur_level := layerId_ back in
            match maybeGetTensorWrapper mutated_arg with
            | Some wrapper =>
                match wrapper_level (flags w) wrapper with
                | Some l =>
                    if l =? cur_level then mret tt
                    else throw (CheckFailed (captured_mutation_message schema))
                | None => throw (CheckFailed (captured_mutation_message schema))
                end
            | None => throw (CheckFailed (captured_mutation_message schema))
            end
        end
  end.

(** ** Key sets for entering and leaving a layer *)

Definition all_dynlayer_keyset : DispatchKeySet :=
  DispatchKeySet.union
    (DispatchKeySet.add (DispatchKeySet.add (DispatchKeySet.add
       (DispatchKeySet.add (DispatchKeySet.of_key kDynamicLayerFrontModeKey)
          kDynamicLayerBackModeKey) kGradWrapperKey) kBatchedKey) ADInplaceOrView)
    autograd_dispatch_keyset.

Definition keysForEnteringDynamicLayer (key : DispatchKey) : M World DispatchKeySet :=
  if N.eqb key kBatchedKey then mret (DispatchKeySet.of_key kBatchedKey)
  else if N.eqb key Autograd
  then mret (DispatchKeySet.add autograd_dispatch_keyset ADInplaceOrView)
  else throw (InternalAssert "Unsupported key: ").

Definition zeroedOutDynamicLayerKeyset : M World LocalDispatchKeySet :=
  w ← get;
  let keyset := tls_local_dispatch_key_set w in
  mret {| included_ := DispatchKeySet.minus (included_ keyset) all_dynlayer_keyset;
          excluded_ := DispatchKeySet.union (excluded_ keyset) all_dynlayer_keyset |}.

Definition keysetToTurnOnSubsystem (key : DispatchKey) : M World LocalDispatchKeySet :=
  keyset ← zeroedOutDynamicLayerKeyset;
  entering ← keysForEnteringDynamicLayer key;
  mret {| included_ := DispatchKeySet.add (included_ keyset) kDynamicLayerBackModeKey;
          excluded_ := DispatchKeySet.remove
                         (DispatchKeySet.minus (excluded_ keyset) entering)
                         kDynamicLayerBackModeKey |}.

Definition keysetToReturnToDynamicLayerFront : M World LocalDispatchKeySet :=
  w ← get;
  let keyset := tls_local_dispatch_key_set w in
  mret {| included_ := DispatchKeySet.add (included_ keyset) kDynamicLayerFrontModeKey;
          excluded_ := DispatchKeySet.remove (excluded_ keyset) kDynamicLayerFrontModeKey |}.

(** [c10::impl::_force_tls_local_dispatch_key_set] *)
Definition _force_tls_local_dispatch_key_set (key_set : LocalDispatchKeySet)
    : M World unit :=
  modify (with_tls key_set).

(** [c10::impl::ForceDispatchKeyGuard guard(key_set)] around [body] *)
Definition ForceDispatchKeyGuard {A} (key_set : LocalDispatchKeySet)
    (body : M World A) : M World A :=
  w ← get;
  let saved_keyset_ := tls_local_dispatch_key_set w in
  _force_tls_local_dispatch_key_set key_set;;
  scoped (_force_tls_local_dispatch_key_set saved_keyset_) body.

(** [c10::AutoGradMode guard(enabled)] and [c10::AutoFwGradMode guard(enabled)] *)
Definition AutoGradMode {A} (enabled : bool) (body : M World A) : M World A :=
  w ← get;
  let prev_mode := GradMode_enabled w in
  modify (with_GradMode enabled);;
  scoped (modify (with_GradMode prev_mode)) body.

Definition AutoFwGradMode {A} (enabled : bool) (body : M World A) : M World A :=
  w ← get;
  let prev_mode := FwGradMode_enabled w in
  modify (with_FwGradMode enabled);;
  scoped (modify (with_FwGradMode prev_mode)) body.

(** [WithoutTop guard;] around [body]: the constructor pops, the destructor
    pushes the popped layer back. *)
Definition WithoutTop {A} (body : M World A) : M World A :=
  layer_ ← popDynamicLayer;
  scoped (pushDynamicLayer layer_;; mret tt) body.

(** ** The front boundary handler *)

Definition maybeTransformGradWrappers (tensor : Tensor) : M World Tensor :=
  result ← unwrapIfDead tensor;
  stack ← getDynamicLayerStack;
  materializeGradWrappers result stack.

Definition dynamicLayerFrontFallback
    (callBoxed : M World unit) (schema : FunctionSchema) : M World unit :=
  w ← get;
  TORCH_INTERNAL_ASSERT (0 <? Z.of_nat (length (dynamicLayerStack w)))
    "dynamicLayerStack.size() > 0";;
  checkForInvalidMutationOnCaptures schema (dynamicLayerStack w);;
  let num_args := Z.of_nat (length (arguments schema)) in
  let size := Z.of_nat (length (jitStack w)) in
  foreachTensorInplace (size - num_args) size maybeTransformGradWrappers;;
  match last (dynamicLayerStack w) with
  | None => abort undefined_behaviour
  | Some layer =>
      selected_keyset ← keysetToTurnOnSubsystem (key_ layer);
      let selected_keyset :=
        if N.eqb (key_ layer) kBatchedKey
        then {| included_ := DispatchKeySet.add (included_ selected_keyset) kVmapModeKey;
                excluded_ := excluded_ selected_keyset |}
        else selected_keyset in
      ForceDispatchKeyGuard selected_keyset callBoxed
  end.

(** ** The back boundary handler *)

(** The [unwrap] and [wrap] closures of [dynamicLayerBackFallback]. *)
Definition unwrap (cur_level : Z) (tensor : Tensor) : M World Tensor :=
  if negb (defined tensor) then mret tensor
  else match maybeGetTensorWrapper tensor with
  | None => mret tensor
  | Some maybe_tensor_wrapper =>
      w ← get;
      tensor_wrapper_level ←
        optional_value (wrapper_level (flags w) maybe_tensor_wrapper);
      TORCH_INTERNAL_ASSERT (tensor_wrapper_level <=? cur_level)
        "tensor_wrapper_level <= cur_level";;
      if tensor_wrapper_level =? cur_level
      then mret (value maybe_tensor_wrapper)
      else mret tensor
  end.

Definition wrap (cur_level : Z) (tensor : Tensor) : M World Tensor :=
  if negb (defined tensor) then mret tensor
  else makeTensorWrapper tensor cur_level.

(** Steps 1 and 2: copy the arguments onto the call stack, unwrap the copy. *)
Definition back_push_copy (front arg_idx : Z) : M World unit :=
  w ← get;
  match at_index (jitStack w) (front + arg_idx) with
  | None => abort undefined_behaviour
  | Some v => modify (with_jitStack (jitStack w ++ [v]))
  end.

Definition back_copy_and_unwrap_args
    (schema : FunctionSchema) (cur_level : Z) : M World unit :=
  let args_size := length (arguments schema) in
  w ← get;
  let front := Z.of_nat (length (jitStack w)) - Z.of_nat args_size in
  for_range args_size 0 (back_push_copy front);;
  w'' ← get;
  let size := Z.of_nat (length (jitStack w'')) in
  foreachTensorInplace (size - Z.of_nat args_size) size (unwrap cur_level).

(** Modelled from the spec: [TensorWrapper::refreshMetadata]
    (TensorWrapper.cpp is not part of the sources): "refreshMetadata(wrapped)
    - recompute cached shape/stride-like metadata from the current underlying
    value".  Shapes and strides belong to the tensor representation, which the
    specification puts out of scope; of the call the world keeps that it was
    made, on which wrapper, and in which order. *)
Definition refreshMetadata (wrapper : TensorWrapper) : M World unit :=
  modify (fun w => with_refreshedMetadata (refreshedMetadata w ++ [wrapper]) w).

(** One turn of the loop of step 5. *)
Definition back_refresh_arg (args_front arg_idx : Z) : M World unit :=
  w' ← get;
  match at_index (jitStack w') (args_front + arg_idx) with
  | None => abort undefined_behaviour
  | Some ivalue =>
      match ivalue with
      | IVTensor t =>
          match maybeGetTensorWrapper t with
          | None => mret tt
          | Some maybe_tensor_wrapper => refreshMetadata maybe_tensor_wrapper
          end
      | _ => mret tt
      end
  end.

(** Steps 4, 5 and 6: wrap the results, refresh the metadata of the wrapped
    tensors among the original arguments, drop the originals. *)
Definition back_wrap_results_and_drop_args
    (schema : FunctionSchema) (cur_level : Z) : M World unit :=
  let ret_size := length (returns schema) in
  let args_size := length (arguments schema) in
  w ← get;
  let size := Z.of_nat (length (jitStack w)) in
  foreachTensorInplace (size - Z.of_nat ret_size) size (wrap cur_level);;
  let args_front := size - Z.of_nat args_size - Z.of_nat ret_size in
  for_range args_size 0 (back_refresh_arg args_front);;
  w' ← get;
  let n := length (jitStack w') in
  if (n <? args_size + ret_size)%nat then abort undefined_behaviour
  else modify (with_jitStack
         (take (n - (args_size + ret_size)) (jitStack w')
          ++ drop (n - ret_size) (jitStack w'))).

(** The choice of key set for the re-dispatch: a guard that restores when
    the stack is now empty, an unscoped switch otherwise. *)
Definition back_tls_guard {A} (tls_before_entering_functorch : LocalDispatchKeySet)
    (body : M World A) : M World A :=
  w ← get;
  if Nat.eqb (length (dynamicLayerStack w)) 0
  then ForceDispatchKeyGuard tls_before_entering_functorch body
  else local_keyset ← keysetToReturnToDynamicLayerFront;
       _force_tls_local_dispatch_key_set local_keyset;;
       body.

Definition dynamicLayerBackFallback
    (callBoxed : M World unit) (schema : FunctionSchema) : M World unit :=
  w ← get;
  match last (dynamicLayerStack w) with
  | None => abort undefined_behaviour
  | Some back =>
      let cur_level := layerId_ back in
      let cur_key := key_ back in
      let tls_before_entering_functorch := prevLocalDispatchKeySet_ back in
      let prev_grad_mode := prevGradMode_ back in
      let prev_fwd_grad_mode := prevFwdGradMode_ back in
      (if N.eqb cur_key Autograd
       then TORCH_INTERNAL_ASSERT
              (bool_decide (is_Some prev_grad_mode)
               || bool_decide (is_Some prev_fwd_grad_mode))
              "prev_grad_mode.has_value() || prev_fwd_grad_mode.has_value()"
       else mret tt);;
      (if N.eqb cur_key Autograd
       then back_copy_and_unwrap_args schema cur_level
       else mret tt);;
      WithoutTop (
        (if N.eqb cur_key Autograd && bool_decide (prev_grad_mode = Some false)
         then AutoGradMode false else id) (
        (if N.eqb cur_key Autograd && bool_decide (prev_fwd_grad_mode = Some false)
         then AutoFwGradMode false else id) (
        back_tls_guard tls_before_entering_functorch (
        callBoxed;;
        if N.eqb cur_key Autograd
        then back_wrap_results_and_drop_args schema cur_level
        else mret tt))))
  end.

End Handlers.

(** ** Sequences of operations on the layer stack *)

Inductive Op :=
| InitAndPush (key : DispatchKey) (batch_size : option Z)
    (randomness : option RandomnessType)
    (prev_grad_mode prev_fwd_grad_mode : option bool)
| PopAndDelete
| Push (layer : DynamicLayer)
| Pop
| SetStack (stack : list DynamicLayer).

Definition is_push_or_pop (o : Op) : bool :=
  match o with SetStack _ => false | _ => true end.

Definition is_public_push_or_pop (o : Op) : bool :=
  match o with InitAndPush _ _ _ _ _ | PopAndDelete => true | _ => false end.

Section Runs.
Context `{DispatchKeys}.

(** The world an operation leaves behind, whether it returned or threw: the
    caller of a failed operation goes on with the same thread. *)
Definition exec (o : Op) (w : World) : World :=
  match o with
  | InitAndPush key bs r pg pfg => snd (initAndPushDynamicLayer key bs r pg pfg w)
  | PopAndDelete => snd (popDynamicLayerAndDeleteMetadata w)
  | Push layer => snd (pushDynamicLayer layer w)
  | Pop => snd (popDynamicLayer w)
  | SetStack stack => snd (setDynamicLayerStack stack w)
  end.

Definition run (ops : list Op) (w : World) : World :=
  foldl (fun w o => exec o w) w ops.

(** The i-th entry from the bottom (counting from 1) has level i. *)
Definition levels_ok (stack : list DynamicLayer) : Prop :=
  ∀ (i : nat) (layer : DynamicLayer),
    stack !! i = Some layer → layerId_ layer = Z.of_nat i + 1.

Definition front_back_on (w : World) : Prop :=
  DispatchKeySet.has (included_ (tls_local_dispatch_key_set w))
    kDynamicLayerFrontModeKey = true ∧
  DispatchKeySet.has (included_ (tls_local_dispatch_key_set w))
    kDynamicLayerBackModeKey = true.

Definition front_back_off (w : World) : Prop :=
  DispatchKeySet.has (included_ (tls_local_dispatch_key_set w))
    kDynamicLayerFrontModeKey = false ∧
  DispatchKeySet.has (included_ (tls_local_dispatch_key_set w))
    kDynamicLayerBackModeKey = false.

(** Both keys off on an empty stack, both on on a non-empty one. *)
Definition keys_follow_stack (w : World) : Prop :=
  (dynamicLayerStack w = [] ∧ front_back_off w) ∨
  (dynamicLayerStack w ≠ [] ∧ front_back_on w).

(** The world [setDynamicLayerFrontBackKeysIncluded included] leaves. *)
Definition set_front_back (included : bool) (w : World) : World :=
  with_tls
    (tls_set_dispatch_key_included kDynamicLayerBackModeKey included
       (tls_set_dispatch_key_included kDynamicLayerFrontModeKey included
          (tls_local_dispatch_key_set w))) w.

(** Every registered handle points at a cell that holds [true], and no two
    levels share a cell. *)
Definition registry_wf (w : World) : Prop :=
  (∀ (l : Z) (h : LifeHandle),
      kDynMetaDataSingleton w !! l = Some h → flags w !! h = Some true) ∧
  (∀ (l1 l2 : Z) (h : LifeHandle),
      kDynMetaDataSingleton w !! l1 = Some h →
      kDynMetaDataSingleton w !! l2 = Some h → l1 = l2).

(** The registry has an entry exactly for the levels 1 .. depth. *)
Definition registry_matches_depth (w : World) : Prop :=
  ∀ l : Z, is_Some (kDynMetaDataSingleton w !! l) ↔
           1 ≤ l ≤ Z.of_nat (length (dynamicLayerStack w)).

End Runs.

(** ** Notions used to state the properties *)

(** The tensor [unwrapIfDead] returns, as a function of the flag cells. *)
Definition unwrapped_if_dead (flags : list bool) (t : Tensor) : Tensor :=
  match maybeGetTensorWrapper t with
  | None => t
  | Some wrapped => if is_alive flags wrapped then t else value wrapped
  end.

(** [t] is a wrapper and its [level()] is [l]. *)
Definition wrapped_at `{TensorWrapperLevel}
    (flags : list bool) (t : Tensor) (l : Z) : Prop :=
  ∃ wrapper, maybeGetTensorWrapper t = Some wrapper ∧
             wrapper_level flags wrapper = Some l.

(** Two alias annotations name a common alias set. *)
Definition same_alias_set (a b : AliasInfo) : Prop :=
  ∃ set, set ∈ beforeSets a ∧ set ∈ beforeSets b.

(** The classification of an in-place operation in the words of the
    specification: a mutable schema with a single return, whose first
    argument is marked writable-and-aliased, none of whose other arguments is
    aliased, and whose return value aliases that same argument as
    writable. *)
Definition isInplaceOp_spec (schema : FunctionSchema) : Prop :=
  is_mutable schema = true ∧
  length (returns schema) = 1%nat ∧
  ∃ first_arg a,
    head (arguments schema) = Some first_arg ∧
    alias_info first_arg = Some a ∧ isWrite a = true ∧
    Forall (λ arg, alias_info arg = None) (tail (arguments schema)) ∧
    ∃ r ar, head (returns schema) = Some r ∧
            alias_info r = Some ar ∧ isWrite ar = true ∧
            same_alias_set ar a.

(** A schema whose annotated returns each alias an annotated argument: a
    return annotation names an alias set that an argument's annotation
    names. *)
Definition returns_alias_arguments (schema : FunctionSchema) : Prop :=
  ∀ r ar, r ∈ returns schema → alias_info r = Some ar →
          ∃ arg a, arg ∈ arguments schema ∧ alias_info arg = Some a ∧
                   same_alias_set ar a.

(** What one turn of the loop of [foreachTensorInplace] stores in place of
    the boxed value [v] when the closure answers as [g]; [None] when the turn
    does not return (the closure fails, the sanity check on definedness
    fails, or the value is a dictionary). *)
Definition transform_elt (g : Tensor → Outcome Tensor) (elt : IValue) : option IValue :=
  match elt with
  | IVTensor t =>
      match g t with Returned t' => Some (IVTensor t') | _ => None end
  | _ => Some elt
  end.

Definition transform_arg (g : Tensor → Outcome Tensor) (v : IValue) : option IValue :=
  match v with
  | IVTensor t =>
      match g t with
      | Returned t' =>
          if defined t && negb (defined t') then None else Some (IVTensor t')
      | _ => None
      end
  | IVList elts => IVList <$> mapM (transform_elt g) elts
  | IVGenericDict => None
  | IVOther _ => Some v
  end.

(** A closure that reads the world but not the boxed call stack, and changes
    nothing. *)
Definition reads_no_args {A B} (f : A → M World B) : Prop :=
  ∀ a w js, f a (with_jitStack js w) = (fst (f a w), with_jitStack js w).

(** *** The back handler in three parts

    With [top] the layer on top and [w1] the world after steps 1 and 2, the
    back handler re-dispatches in [back_call_world top w1]; when the
    re-dispatched call and steps 4 to 6 have ended in a world, the guards
    restore it by [back_restore] and then push [top] back ([back_exit]). *)

Section BackParts.
Context `{DispatchKeys}.

Definition grad_override (top : DynamicLayer) : bool :=
  N.eqb (key_ top) Autograd && bool_decide (prevGradMode_ top = Some false).

Definition fw_grad_override (top : DynamicLayer) : bool :=
  N.eqb (key_ top) Autograd && bool_decide (prevFwdGradMode_ top = Some false).

(** The world right after [WithoutTop] has popped. *)
Definition back_popped_world (w1 : World) : World :=
  let s := removelast (dynamicLayerStack w1) in
  (if Nat.eqb (length s) 0 then set_front_back false else id)
    (with_dynamicLayerStack s w1).

Definition back_call_world (top : DynamicLayer) (w1 : World) : World :=
  let w2 := back_popped_world w1 in
  let w3 := if grad_override top then with_GradMode false w2 else w2 in
  let w4 := if fw_grad_override top then with_FwGradMode false w3 else w3 in
  with_tls
    (if Nat.eqb (length (dynamicLayerStack w2)) 0
     then prevLocalDispatchKeySet_ top
     else {| included_ := DispatchKeySet.add
                            (included_ (tls_local_dispatch_key_set w4))
                            kDynamicLayerFrontModeKey;
             excluded_ := DispatchKeySet.remove
                            (excluded_ (tls_local_dispatch_key_set w4))
                            kDynamicLayerFrontModeKey |})
    w4.

Definition back_restore (top : DynamicLayer) (w1 w' : World) : World :=
  let w2 := back_popped_world w1 in
  let wa := if Nat.eqb (length (dynamicLayerStack w2)) 0
            then with_tls (tls_local_dispatch_key_set w2) w' else w' in
  let wb := if fw_grad_override top
            then with_FwGradMode (FwGradMode_enabled w1) wa else wa in
  if grad_override top then with_GradMode (GradMode_enabled w1) wb else wb.

Definition back_exit (top : DynamicLayer) (w1 : World)
    (r : Outcome unit * World) : Outcome unit * World :=
  match r with
  | (Aborted y, w') => (Aborted y, w')
  | (o, w') =>
      match pushDynamicLayer top (back_restore top w1 w') with
      | (Returned _, w'') => (o, w'')
      | (Thrown _, w'') => (Aborted std_terminate, w'')
      | (Aborted y, w'') => (Aborted y, w'')
      end
  end.

End BackParts.

(** ** A concrete numbering of the keys and a first world, for examples

    Functionality keys sit below 64 as in c10; the values themselves only
    need to be distinct. *)

Definition example_keys : DispatchKeys :=
  {| Autograd := 62%N;
     ADInplaceOrView := 41%N;
     kDynamicLayerFrontModeKey := 52%N;
     kDynamicLayerBackModeKey := 42%N;
     kGradWrapperKey := 43%N;
     kBatchedKey := 44%N;
     kVmapModeKey := 51%N;
     autograd_dispatch_keyset := N.shiftl 255 32 |}.

(** A [level()] for the examples: the stored level while the flag is set. *)
Definition level_while_alive : TensorWrapperLevel :=
  {| wrapper_level := fun flags w =>
       if is_alive flags w then Some (wrapper_level_ w) else None |}.

Definition initial_world : World :=
  {| dynamicLayerStack := [];
     kDynMetaDataSingleton := ∅;
     flags := [];
     tls_local_dispatch_key_set := {| included_ := 0%N; excluded_ := 0%N |};
     GradMode_enabled := true;
     FwGradMode_enabled := true;
     jitStack := [];
     refreshedMetadata := [] |}.

Definition example_ops : list Op :=
  [ InitAndPush 44%N (Some 3) (Some 0) None None;
    InitAndPush 62%N None None (Some true) (Some true);
    Pop;
    Push {| key_ := 62%N; layerId_ := 2; batchSize_ := None;
            randomness_ := None; prevGradMode_ := Some true;
            prevFwdGradMode_ := None;
            prevLocalDispatchKeySet_ := {| included_ := 0%N; excluded_ := 0%N |} |};
    PopAndDelete ].

(** A world with one Differentiation layer, and one with a Batching layer
    below a Differentiation layer, each with two boxed arguments. *)
Definition grad_world : World :=
  with_jitStack [IVTensor UndefinedTensor; IVTensor (Plain 5)]
    (run (H := example_keys)
       [InitAndPush 62%N None None (Some true) (Some true)] initial_world).

Definition nested_world : World :=
  with_jitStack [IVTensor (Wrapped (Plain 5) 2 1%nat); IVTensor (Plain 6)]
    (run (H := example_keys)
       [InitAndPush 44%N (Some 3) (Some 0) None None;
        InitAndPush 62%N None None (Some false) (Some true)] initial_world).

(** The same registry and flags seen from inside the scope of the upper
    layer's back handler: only the lower layer is on the stack. *)
Definition inner_world : World :=
  with_jitStack [IVTensor (Wrapped (Plain 5) 2 1%nat); IVTensor (Plain 6)]
    (run (H := example_keys)
       [InitAndPush 62%N None None (Some true) (Some true);
        InitAndPush 62%N None None (Some true) (Some true);
        Pop] initial_world).

(** The layer on top of [grad_world] and of [inner_world]. *)
Definition grad_layer : DynamicLayer :=
  {| key_ := 62%N; layerId_ := 1; batchSize_ := None; randomness_ := None;
     prevGradMode_ := Some true; prevFwdGradMode_ := Some true;
     prevLocalDispatchKeySet_ := {| included_ := 0%N; excluded_ := 0%N |} |}.

(** The layer on top of [nested_world]. *)
Definition nested_top : DynamicLayer :=
  {| key_ := 62%N; layerId_ := 2; batchSize_ := None; randomness_ := None;
     prevGradMode_ := Some false; prevFwdGradMode_ := Some true;
     prevLocalDispatchKeySet_ :=
       {| included_ := 2253998836940800%N; excluded_ := 0%N |} |}.

Definition no_alias : Argument := {| alias_info := None |}.
Definition write_alias : Argument :=
  {| alias_info := Some {| isWrite := true; beforeSets := ["a"] |} |}.

Definition mul_schema : FunctionSchema :=
  {| operator_name := "aten::mul"; arguments := [no_alias; no_alias];
     returns := [no_alias] |}.

Definition add__schema : FunctionSchema :=
  {| operator_name := "aten::add_"; arguments := [write_alias; no_alias];
     returns := [write_alias] |}.

(** ** Further functions of the file *)

(** [DynamicLayer::batchSize] and [DynamicLayer::randomness]: the assertion,
    then the dereference of the optional. *)
Definition DynamicLayer_batchSize {S} (layer : DynamicLayer) : M S Z :=
  TORCH_INTERNAL_ASSERT (bool_decide (is_Some (batchSize_ layer))) "batchSize_";;
  match batchSize_ layer with
  | Some b => mret b
  | None => abort undefined_behaviour
  end.

Definition DynamicLayer_randomness {S} (layer : DynamicLayer) : M S RandomnessType :=
  TORCH_INTERNAL_ASSERT (bool_decide (is_Some (randomness_ layer))) "randomness_";;
  match randomness_ layer with
  | Some r => mret r
  | None => abort undefined_behaviour
  end.

(** A [level()] that is the stored level exactly while the wrapper is
    alive. *)
Definition level_tracks_liveness `{TensorWrapperLevel} (flags : list bool) : Prop :=
  ∀ wrapper, wrapper_level flags wrapper =
             if is_alive flags wrapper then Some (wrapper_level_ wrapper) else None.

(** A world with one Batching layer and two boxed arguments, and the layer
    on top of it. *)
Definition vmap_world : World :=
  with_jitStack [IVTensor (Plain 5); IVTensor (Plain 6)]
    (run (H := example_keys)
       [InitAndPush 44%N (Some 3) (Some 0) None None] initial_world).

Definition vmap_layer : DynamicLayer :=
  {| key_ := 44%N; layerId_ := 1; batchSize_ := Some 3; randomness_ := Some 0;
     prevGradMode_ := None; prevFwdGradMode_ := None;
     prevLocalDispatchKeySet_ := {| included_ := 0%N; excluded_ := 0%N |} |}.


(** [FuncTorchTLS::checkSupportsAutogradFunction] *)
Definition autograd_function_message : string :=
  "functorch functions (vmap, grad, vjp, etc.) currently do not support the use of autograd.Function. " +:+
  "Please rewrite your function to not use autograd.Function while we work on fixing this".

Definition checkSupportsAutogradFunction : M World Z :=
  w ← get;
  if (length (dynamicLayerStack w) <=? 1)%nat then mret 0
  else throw (CheckFailed autograd_function_message).

(** The wrappers step 5 of the back handler refreshes: those of the tensors
    among the original arguments that are wrappers, in the order of the
    arguments. *)
Definition refreshed_by (args : list IValue) : list TensorWrapper :=
  omap (λ v, match v with
             | IVTensor t => maybeGetTensorWrapper t
             | _ => None
             end) args.

(** An in-place looking schema whose return names an alias set of its own,
    [f(Tensor(a!) self, Tensor other) -> Tensor(b!)]; and a world whose first
    boxed argument is not a tensor. *)
Definition renamed_return_schema : FunctionSchema :=
  {| operator_name := "f"; arguments := [write_alias; no_alias];
     returns := [{| alias_info :=
                      Some {| isWrite := true; beforeSets := ["b"] |} |}] |}.

Definition scalar_first_world : World :=
  with_jitStack [IVOther 3; IVTensor (Plain 5)] grad_world.

(** A world as the back handler finds it: under the key set the front
    handler dispatches with for the top layer. *)
Definition under_front_key_set (top : DynamicLayer) (w : World) : World :=
  match keysetToTurnOnSubsystem (H := example_keys) (key_ top) w with
  | (Returned selected_keyset, _) => with_tls selected_keyset w
  | _ => w
  end.

Definition dispatched_nested_world : World :=
  under_front_key_set nested_top nested_world.


(** ** Properties *)

Ltac unfold_monad :=
  cbv [mbind mret M_bind M_ret bind ret get modify throw abort
       TORCH_INTERNAL_ASSERT optional_value].

(** *** Bits of a dispatch key set *)

Lemma land_bit_eq0 (s k : N) :
  (N.land s (N.shiftl 1 k) =? 0)%N = negb (N.testbit s k).
Proof.
  destruct (N.testbit s k) eqn:Hk; simpl.
  - apply N.eqb_neq. intros H0.
    assert (N.testbit (N.land s (N.shiftl 1 k)) k = true) as Hb.
    { rewrite N.land_spec, Hk, N.shiftl_1_l, N.pow2_bits_true. done. }
    rewrite H0 in Hb. by rewrite N.bits_0 in Hb.
  - apply N.eqb_eq. apply N.bits_inj. intros n.
    rewrite N.land_spec, N.bits_0, N.shiftl_1_l, N.pow2_bits_eqb.
    destruct (N.eqb_spec k n) as [->|]; [by rewrite Hk|].
    by rewrite andb_false_r.
Qed.

Lemma has_testbit (s : DispatchKeySet) (t : DispatchKey) :
  t ≠ Undefined → DispatchKeySet.has s t = N.testbit s (t - 1).
Proof.
  intros Ht. unfold DispatchKeySet.has, DispatchKeySet.of_key.
  destruct (N.eqb_spec t 0) as [->|_]; [done|].
  by rewrite land_bit_eq0, negb_involutive.
Qed.

Lemma has_add_same s t :
  t ≠ Undefined → DispatchKeySet.has (DispatchKeySet.add s t) t = true.
Proof.
  intros Ht. rewrite has_testbit by done.
  unfold DispatchKeySet.add, DispatchKeySet.of_key.
  destruct (N.eqb_spec t 0) as [->|_]; [done|].
  rewrite N.lor_spec, N.shiftl_1_l, N.pow2_bits_true. apply orb_true_r.
Qed.

Lemma has_remove_same s t :
  DispatchKeySet.has (DispatchKeySet.remove s t) t = false.
Proof.
  unfold DispatchKeySet.has, DispatchKeySet.remove, DispatchKeySet.of_key.
  destruct (N.eqb_spec t 0) as [->|_]; [by rewrite N.land_0_r|].
  rewrite land_bit_eq0, N.ldiff_spec, N.shiftl_1_l, N.pow2_bits_true.
  by rewrite andb_false_r.
Qed.

Lemma has_add_other s t u :
  t ≠ u → DispatchKeySet.has (DispatchKeySet.add s t) u = DispatchKeySet.has s u.
Proof.
  intros Htu. unfold DispatchKeySet.has, DispatchKeySet.add, DispatchKeySet.of_key.
  destruct (N.eqb_spec u 0) as [->|Hu]; [by rewrite !N.land_0_r|].
  destruct (N.eqb_spec t 0) as [->|Ht]; [by rewrite N.lor_0_r|].
  rewrite !land_bit_eq0, N.lor_spec, N.shiftl_1_l, N.pow2_bits_false, orb_false_r;
    [done|lia].
Qed.

Lemma has_remove_other s t u :
  t ≠ u → DispatchKeySet.has (DispatchKeySet.remove s t) u = DispatchKeySet.has s u.
Proof.
  intros Htu. unfold DispatchKeySet.has, DispatchKeySet.remove, DispatchKeySet.of_key.
  destruct (N.eqb_spec u 0) as [->|Hu]; [by rewrite !N.land_0_r|].
  destruct (N.eqb_spec t 0) as [->|Ht]; [by rewrite N.ldiff_0_r|].
  rewrite !land_bit_eq0, N.ldiff_spec, N.shiftl_1_l, N.pow2_bits_false, andb_true_r;
    [done|lia].
Qed.

Lemma tls_set_has_same x b tls :
  x ≠ Undefined →
  DispatchKeySet.has (included_ (tls_set_dispatch_key_included x b tls)) x = b.
Proof.
  intros Hx. unfold tls_set_dispatch_key_included.
  destruct b, (DispatchKeySet.has (included_ tls) x) eqn:Hh; simpl; try done.
  - by apply has_add_same.
  - apply has_remove_same.
Qed.

Lemma tls_set_has_other x y b tls :
  x ≠ y →
  DispatchKeySet.has (included_ (tls_set_dispatch_key_included x b tls)) y =
  DispatchKeySet.has (included_ tls) y.
Proof.
  intros Hxy. unfold tls_set_dispatch_key_included.
  destruct b, (DispatchKeySet.has (included_ tls) x) eqn:Hh; simpl; try done.
  - by apply has_add_other.
  - by apply has_remove_other.
Qed.

Lemma tls_set_excluded x b tls :
  excluded_ (tls_set_dispatch_key_included x b tls) = excluded_ tls.
Proof.
  unfold tls_set_dispatch_key_included.
  by destruct b, (DispatchKeySet.has (included_ tls) x).
Qed.

(** *** What each stack operation does to the world *)

Section StackFacts.
Context `{DispatchKeys}.

Lemma pushDynamicLayer_eq layer w :
  pushDynamicLayer layer w =
  if 1 + Z.of_nat (length (dynamicLayerStack w)) =? layerId_ layer
  then (Returned (1 + Z.of_nat (length (dynamicLayerStack w))),
        (if Nat.eqb (length (dynamicLayerStack w)) 0
         then set_front_back true else id)
          (with_dynamicLayerStack (dynamicLayerStack w ++ [layer]) w))
  else (Thrown (InternalAssert "layerId == dynamic_layer.layerId()"), w).
Proof.
  unfold pushDynamicLayer, setDynamicLayerFrontBackKeysIncluded. unfold_monad.
  destruct (1 + Z.of_nat (length (dynamicLayerStack w)) =? layerId_ layer); [|done].
  destruct (dynamicLayerStack w) as [|x s]; [done|].
  replace (1 + Z.of_nat (length (x :: s)) =? 1) with false; [done|].
  symmetry. apply Z.eqb_neq. simpl. lia.
Qed.

Lemma popDynamicLayer_nil w :
  dynamicLayerStack w = [] →
  popDynamicLayer w =
  (Thrown (InternalAssert "dynamicLayerStack.size() > 0"), w).
Proof. intros Hs. unfold popDynamicLayer. unfold_monad. by rewrite Hs. Qed.

Lemma popDynamicLayer_snoc s top w :
  dynamicLayerStack w = s ++ [top] →
  popDynamicLayer w =
  if N.eqb (key_ top) Undefined
  then (Thrown (InternalAssert "result.key() != DispatchKey::Undefined"), w)
  else (Returned top,
        (if Nat.eqb (length s) 0 then set_front_back false else id)
          (with_dynamicLayerStack s w)).
Proof.
  intros Hs. unfold popDynamicLayer, setDynamicLayerFrontBackKeysIncluded.
  unfold_monad. rewrite Hs, last_snoc, removelast_last, length_app. simpl.
  replace (0 <? Z.of_nat (length s + 1)) with true
    by (symmetry; apply Z.ltb_lt; lia).
  destruct (N.eqb (key_ top) Undefined); [done|]. simpl.
  by destruct (Nat.eqb (length s) 0).
Qed.

(** The layer [initAndPushDynamicLayer] builds in world [w]. *)
Lemma initAndPushDynamicLayer_eq key bs r pg pfg w :
  initAndPushDynamicLayer key bs r pg pfg w =
  let layerId := 1 + Z.of_nat (length (dynamicLayerStack w)) in
  let new_layer :=
    {| key_ := key; layerId_ := layerId; batchSize_ := bs; randomness_ := r;
       prevGradMode_ := pg; prevFwdGradMode_ := pfg;
       prevLocalDispatchKeySet_ := tls_local_dispatch_key_set w |} in
  let pushed :=
    (if Nat.eqb (length (dynamicLayerStack w)) 0
     then set_front_back true else id)
      (with_dynamicLayerStack (dynamicLayerStack w ++ [new_layer]) w) in
  if negb (N.eqb key Autograd || N.eqb key kBatchedKey)
  then (Thrown (InternalAssert
                  "key == DispatchKey::Autograd || key == kBatchedKey"), w)
  else if N.eqb key Autograd
          && negb (bool_decide (is_Some pg) || bool_decide (is_Some pfg))
  then (Thrown (InternalAssert
                  "prev_grad_mode.has_value() || prev_fwd_grad_mode.has_value()"), w)
  else match kDynMetaDataSingleton w !! layerId with
       | Some _ =>
           (Thrown (InternalAssert "data.find(layerId) == data.end()"), pushed)
       | None =>
           (Returned layerId,
            with_registry
              (<[layerId := length (flags w)]> (kDynMetaDataSingleton w))
              (with_flags (flags w ++ [true]) pushed))
       end.
Proof.
  unfold initAndPushDynamicLayer, DynamicLayer_new. unfold_monad.
  destruct (N.eqb key Autograd || N.eqb key kBatchedKey); [|done]. simpl.
  set (ok := bool_decide (is_Some pg) || bool_decide (is_Some pfg)).
  destruct (N.eqb key Autograd) eqn:Hk; simpl;
    [destruct ok eqn:Hok; simpl; [|done]|];
    rewrite pushDynamicLayer_eq; simpl; rewrite Z.eqb_refl;
    (destruct (kDynMetaDataSingleton w
                 !! (1 + Z.of_nat (length (dynamicLayerStack w)))) eqn:Hl;
     destruct (dynamicLayerStack w) as [|x s] eqn:Hs; simpl in *;
     rewrite Hl; case_bool_decide; simplify_eq; simpl; done).
Qed.

Lemma popDynamicLayerAndDeleteMetadata_nil w :
  dynamicLayerStack w = [] →
  popDynamicLayerAndDeleteMetadata w =
  (Thrown (InternalAssert "dynamicLayerStack.size() > 0"), w).
Proof.
  intros Hs. unfold popDynamicLayerAndDeleteMetadata.
  cbv [mbind M_bind bind]. by rewrite popDynamicLayer_nil.
Qed.

Lemma popDynamicLayerAndDeleteMetadata_snoc s top w :
  dynamicLayerStack w = s ++ [top] →
  popDynamicLayerAndDeleteMetadata w =
  let popped :=
    (if Nat.eqb (length s) 0 then set_front_back false else id)
      (with_dynamicLayerStack s w) in
  if N.eqb (key_ top) Undefined
  then (Thrown (InternalAssert "result.key() != DispatchKey::Undefined"), w)
  else match kDynMetaDataSingleton w !! layerId_ top with
       | None => (Returned top, popped)
       | Some it =>
           (Returned top,
            with_registry (delete (layerId_ top) (kDynMetaDataSingleton w))
              (with_flags (<[it := false]> (flags w)) popped))
       end.
Proof.
  intros Hs. unfold popDynamicLayerAndDeleteMetadata.
  cbv [mbind M_bind bind]. rewrite (popDynamicLayer_snoc s top) by done.
  destruct (N.eqb (key_ top) Undefined); [done|]. simpl.
  unfold_monad.
  destruct (Nat.eqb (length s) 0); simpl;
    by destruct (kDynMetaDataSingleton w !! layerId_ top).
Qed.

End StackFacts.

(** *** One step of a push/pop sequence *)

Section StepFacts.
Context `{DispatchKeys}.

Lemma levels_ok_nil : levels_ok [].
Proof. intros i layer Hi. by rewrite lookup_nil in Hi. Qed.

Lemma levels_ok_snoc s layer :
  levels_ok (s ++ [layer]) ↔
  levels_ok s ∧ layerId_ layer = Z.of_nat (length s) + 1.
Proof.
  split.
  - intros Hok. split.
    + intros i l Hi. apply Hok. by apply lookup_app_l_Some.
    + apply Hok. by rewrite lookup_app_r, Nat.sub_diag.
  - intros [Hok Hl] i l Hi.
    apply lookup_app_Some in Hi as [Hi|[Hlen Hi]]; [by apply Hok|].
    apply list_lookup_singleton_Some in Hi as [Hi ->].
    replace i with (length s) by lia. done.
Qed.

Lemma stack_toggle (b c : bool) w :
  dynamicLayerStack ((if b then set_front_back c else id) w) = dynamicLayerStack w.
Proof. by destruct b. Qed.

Lemma registry_toggle (b c : bool) w :
  kDynMetaDataSingleton ((if b then set_front_back c else id) w) =
  kDynMetaDataSingleton w.
Proof. by destruct b. Qed.

Lemma flags_toggle (b c : bool) w :
  flags ((if b then set_front_back c else id) w) = flags w.
Proof. by destruct b. Qed.

Lemma tls_toggle_stack (b c : bool) s w :
  tls_local_dispatch_key_set
    ((if b then set_front_back c else id) (with_dynamicLayerStack s w)) =
  tls_local_dispatch_key_set ((if b then set_front_back c else id) w).
Proof. by destruct b. Qed.

(** A push/pop operation leaves the stack alone, appends one layer whose
    level is the old depth plus one, or removes the last layer; the dispatch
    key set changes only with the first push and the last pop. *)
Lemma exec_push_or_pop o w :
  is_push_or_pop o = true →
  (dynamicLayerStack (exec o w) = dynamicLayerStack w ∧
   tls_local_dispatch_key_set (exec o w) = tls_local_dispatch_key_set w) ∨
  (∃ layer,
     dynamicLayerStack (exec o w) = dynamicLayerStack w ++ [layer] ∧
     layerId_ layer = Z.of_nat (length (dynamicLayerStack w)) + 1 ∧
     tls_local_dispatch_key_set (exec o w) =
     tls_local_dispatch_key_set
       ((if Nat.eqb (length (dynamicLayerStack w)) 0
         then set_front_back true else id) w)) ∨
  (∃ top,
     dynamicLayerStack w = dynamicLayerStack (exec o w) ++ [top] ∧
     tls_local_dispatch_key_set (exec o w) =
     tls_local_dispatch_key_set
       ((if Nat.eqb (length (dynamicLayerStack (exec o w))) 0
         then set_front_back false else id) w)).
Proof.
  intros Ho. destruct o as [key bs r pg pfg| |layer| |stack]; [| | | |done]; simpl.
  - rewrite initAndPushDynamicLayer_eq. cbv zeta.
    destruct (negb _); [by left|]. destruct (_ && _); [by left|].
    right; left. eexists.
    destruct (kDynMetaDataSingleton w !! _); simpl;
      rewrite stack_toggle, tls_toggle_stack; simpl;
      (split; [reflexivity|]; split; [simpl; lia|done]).
  - destruct (dynamicLayerStack w) as [|x s' _] eqn:Hs using rev_ind.
    { rewrite popDynamicLayerAndDeleteMetadata_nil by done. left. simpl. by rewrite ?Hs. }
    rewrite (popDynamicLayerAndDeleteMetadata_snoc s' x) by done.
    cbv zeta. destruct (N.eqb (key_ x) Undefined); [left; simpl; by rewrite ?Hs|].
    right; right. exists x.
    destruct (kDynMetaDataSingleton w !! layerId_ x); simpl;
      by rewrite stack_toggle, tls_toggle_stack.
  - rewrite pushDynamicLayer_eq.
    destruct (Z.eqb_spec (1 + Z.of_nat (length (dynamicLayerStack w)))
                (layerId_ layer)) as [Heq|_]; [|by left].
    right; left. exists layer. simpl.
    rewrite stack_toggle, tls_toggle_stack. simpl. split; [done|]. split; [lia|done].
  - destruct (dynamicLayerStack w) as [|x s' _] eqn:Hs using rev_ind.
    { rewrite popDynamicLayer_nil by done. left. simpl. by rewrite ?Hs. }
    rewrite (popDynamicLayer_snoc s' x) by done.
    destruct (N.eqb (key_ x) Undefined); [left; simpl; by rewrite ?Hs|].
    right; right. exists x. simpl. by rewrite stack_toggle, tls_toggle_stack.
Qed.

Lemma run_snoc ops o w : run (ops ++ [o]) w = exec o (run ops w).
Proof. unfold run. by rewrite foldl_app. Qed.

Lemma exec_levels_ok o w :
  is_push_or_pop o = true →
  levels_ok (dynamicLayerStack w) → levels_ok (dynamicLayerStack (exec o w)).
Proof.
  intros Ho Hok.
  destruct (exec_push_or_pop o w Ho) as [[-> _]|[(l & -> & Hl & _)|(top & Hs & _)]].
  - done.
  - by apply levels_ok_snoc.
  - rewrite Hs in Hok. by apply levels_ok_snoc in Hok as [? _].
Qed.

Lemma run_levels_ok ops w :
  Forall (λ o, is_push_or_pop o = true) ops →
  levels_ok (dynamicLayerStack w) → levels_ok (dynamicLayerStack (run ops w)).
Proof.
  induction ops as [|o ops IH] using rev_ind; intros Hops Hok; [done|].
  apply Forall_app in Hops as [Hops Ho]. rewrite Forall_singleton in Ho.
  rewrite run_snoc. apply exec_levels_ok; [done|]. by apply IH.
Qed.

End StepFacts.

(** *** C1: the stack level invariant *)

Section LevelInvariant.
Context `{DispatchKeys}.

(** C1.  Stack level invariant: along any sequence of pushes and pops
    (internal or public) that starts from a stack whose i-th entry has level
    i, the i-th entry has level i after every prefix of the sequence.  A push
    of a layer whose level is (stack size before) + 1 returns that level and
    appends exactly that layer; with any other level it fails its level
    assertion and leaves the world as it was.  [initAndPushDynamicLayer]
    with an accepted key (and, for Autograd, a previous mode) and no registry
    entry for the new level returns (stack size before) + 1 and appends a
    layer of that level.  A pop of a stack whose top layer has a key other
    than Undefined returns the top layer and removes exactly it; on an empty
    stack it fails and leaves the stack as it was.  Whatever the outcome, a
    push that returns gave the layer the level (stack size before) + 1 and
    appended exactly that layer, and a pop that returns removed exactly the
    last entry. *)
Theorem stack_level_invariant (ops : list Op) (w0 : World) :
  levels_ok (dynamicLayerStack w0) →
  Forall (λ o, is_push_or_pop o = true) ops →
  (∀ k : nat, levels_ok (dynamicLayerStack (run (take k ops) w0))) ∧
  (∀ w layer,
     match pushDynamicLayer layer w with
     | (Returned id, w') =>
         id = Z.of_nat (length (dynamicLayerStack w)) + 1 ∧
         layerId_ layer = id ∧
         dynamicLayerStack w' = dynamicLayerStack w ++ [layer]
     | (_, w') => dynamicLayerStack w' = dynamicLayerStack w
     end) ∧
  (∀ w key bs r pg pfg,
     match initAndPushDynamicLayer key bs r pg pfg w with
     | (Returned id, w') =>
         id = Z.of_nat (length (dynamicLayerStack w)) + 1 ∧
         ∃ layer, layerId_ layer = id ∧ key_ layer = key ∧
                  dynamicLayerStack w' = dynamicLayerStack w ++ [layer]
     | (_, w') =>
         dynamicLayerStack w' = dynamicLayerStack w ∨
         ∃ layer, layerId_ layer = Z.of_nat (length (dynamicLayerStack w)) + 1 ∧
                  dynamicLayerStack w' = dynamicLayerStack w ++ [layer]
     end) ∧
  (∀ w,
     match popDynamicLayer w with
     | (Returned top, w') => dynamicLayerStack w = dynamicLayerStack w' ++ [top]
     | (_, w') => dynamicLayerStack w' = dynamicLayerStack w
     end) ∧
  (∀ w,
     match popDynamicLayerAndDeleteMetadata w with
     | (Returned top, w') => dynamicLayerStack w = dynamicLayerStack w' ++ [top]
     | (_, w') => dynamicLayerStack w' = dynamicLayerStack w
     end) ∧
  (∀ w layer,
     layerId_ layer = Z.of_nat (length (dynamicLayerStack w)) + 1 →
     ∃ w', pushDynamicLayer layer w = (Returned (layerId_ layer), w') ∧
           dynamicLayerStack w' = dynamicLayerStack w ++ [layer]) ∧
  (∀ w layer,
     layerId_ layer ≠ Z.of_nat (length (dynamicLayerStack w)) + 1 →
     pushDynamicLayer layer w =
     (Thrown (InternalAssert "layerId == dynamic_layer.layerId()"), w)) ∧
  (∀ w key bs r pg pfg,
     key = Autograd ∨ key = kBatchedKey →
     (key = Autograd → is_Some pg ∨ is_Some pfg) →
     kDynMetaDataSingleton w !! (Z.of_nat (length (dynamicLayerStack w)) + 1)
       = None →
     ∃ w' layer,
       initAndPushDynamicLayer key bs r pg pfg w =
         (Returned (Z.of_nat (length (dynamicLayerStack w)) + 1), w') ∧
       layerId_ layer = Z.of_nat (length (dynamicLayerStack w)) + 1 ∧
       key_ layer = key ∧
       dynamicLayerStack w' = dynamicLayerStack w ++ [layer]) ∧
  (∀ w s top,
     dynamicLayerStack w = s ++ [top] → key_ top ≠ Undefined →
     (∃ w', popDynamicLayer w = (Returned top, w') ∧ dynamicLayerStack w' = s) ∧
     (∃ w', popDynamicLayerAndDeleteMetadata w = (Returned top, w') ∧
            dynamicLayerStack w' = s)) ∧
  (∀ w,
     dynamicLayerStack w = [] →
     popDynamicLayer w =
       (Thrown (InternalAssert "dynamicLayerStack.size() > 0"), w) ∧
     popDynamicLayerAndDeleteMetadata w =
       (Thrown (InternalAssert "dynamicLayerStack.size() > 0"), w)).
Proof.
  intros Hok Hops.
  split; [|split; [|split; [|split; [|split; [|split; [|split; [|split; [|split]]]]]]]].
  - intros k. apply run_levels_ok; [|done].
    apply Forall_take. done.
  - intros w layer. rewrite pushDynamicLayer_eq.
    destruct (Z.eqb_spec (1 + Z.of_nat (length (dynamicLayerStack w)))
                (layerId_ layer)) as [Heq|_]; [|done].
    rewrite stack_toggle. simpl. split; [lia|]. split; [lia|done].
  - intros w key bs r pg pfg. rewrite initAndPushDynamicLayer_eq. cbv zeta.
    destruct (negb _); [by left|]. destruct (_ && _); [by left|].
    destruct (kDynMetaDataSingleton w !! _); simpl; rewrite stack_toggle; simpl.
    + right. eexists. split; [|reflexivity]. simpl. lia.
    + split; [lia|]. eexists. split; [|split; [|reflexivity]]; simpl; [lia|done].
  - intros w. destruct (dynamicLayerStack w) as [|x s' _] eqn:Hs using rev_ind.
    { rewrite popDynamicLayer_nil by done. by rewrite ?Hs. }
    rewrite (popDynamicLayer_snoc s' x) by done.
    destruct (N.eqb (key_ x) Undefined); [by rewrite ?Hs|].
    by rewrite stack_toggle.
  - intros w. destruct (dynamicLayerStack w) as [|x s' _] eqn:Hs using rev_ind.
    { rewrite popDynamicLayerAndDeleteMetadata_nil by done. by rewrite ?Hs. }
    rewrite (popDynamicLayerAndDeleteMetadata_snoc s' x) by done. cbv zeta.
    destruct (N.eqb (key_ x) Undefined); [by rewrite ?Hs|].
    destruct (kDynMetaDataSingleton w !! layerId_ x); simpl;
      by rewrite stack_toggle.
  - intros w layer Hl. rewrite pushDynamicLayer_eq.
    replace (1 + Z.of_nat (length (dynamicLayerStack w)) =? layerId_ layer)
      with true by (symmetry; apply Z.eqb_eq; lia).
    eexists. split; [f_equal; f_equal; lia|]. by rewrite stack_toggle.
  - intros w layer Hl. rewrite pushDynamicLayer_eq.
    by replace (1 + Z.of_nat (length (dynamicLayerStack w)) =? layerId_ layer)
      with false by (symmetry; apply Z.eqb_neq; lia).
  - intros w key bs r pg pfg Hkey Hmodes Hreg.
    rewrite initAndPushDynamicLayer_eq. cbv zeta.
    replace (N.eqb key Autograd || N.eqb key kBatchedKey) with true
      by (symmetry; apply orb_true_iff;
          destruct Hkey as [->| ->]; [left|right]; apply N.eqb_refl).
    simpl.
    replace (N.eqb key Autograd
             && negb (bool_decide (is_Some pg) || bool_decide (is_Some pfg)))
      with false.
    2:{ symmetry. destruct (N.eqb_spec key Autograd) as [Hk|]; [|done]. simpl.
        apply negb_false_iff, orb_true_iff.
        destruct (Hmodes Hk); [left|right]; by apply bool_decide_eq_true_2. }
    replace (1 + Z.of_nat (length (dynamicLayerStack w)))
      with (Z.of_nat (length (dynamicLayerStack w)) + 1) by lia.
    rewrite Hreg. eexists _, _. split; [reflexivity|]. simpl.
    rewrite stack_toggle. simpl.
    split; [|split; [|reflexivity]]; reflexivity.
  - intros w s top Hs Hk. apply N.eqb_neq in Hk. split.
    + rewrite (popDynamicLayer_snoc s top) by done. rewrite Hk.
      eexists. split; [reflexivity|]. by rewrite stack_toggle.
    + rewrite (popDynamicLayerAndDeleteMetadata_snoc s top) by done. cbv zeta.
      rewrite Hk.
      destruct (kDynMetaDataSingleton w !! layerId_ top); eexists;
        (split; [reflexivity|]); simpl; by rewrite stack_toggle.
  - intros w Hs.
    by rewrite popDynamicLayer_nil, popDynamicLayerAndDeleteMetadata_nil.
Qed.

End LevelInvariant.

Lemma stack_level_invariant_witness :
  levels_ok (dynamicLayerStack initial_world) ∧
  Forall (λ o, is_push_or_pop o = true) example_ops ∧
  levels_ok (dynamicLayerStack
               (run (H := example_keys) (take 4 example_ops) initial_world)) ∧
  (∃ w', pushDynamicLayer (H := example_keys) grad_layer initial_world =
           (Returned 1, w') ∧
         dynamicLayerStack w' = [] ++ [grad_layer]) ∧
  (∃ w' layer,
     initAndPushDynamicLayer (H := example_keys) 44%N (Some 3) None None None
       grad_world = (Returned 2, w') ∧
     layerId_ layer = 2 ∧
     dynamicLayerStack w' = dynamicLayerStack grad_world ++ [layer]) ∧
  (∃ w', popDynamicLayer (H := example_keys) grad_world =
           (Returned grad_layer, w') ∧
         dynamicLayerStack w' = []).
Proof.
  assert (levels_ok (dynamicLayerStack initial_world)) as H0.
  { intros i layer Hi. simpl in Hi. by rewrite lookup_nil in Hi. }
  assert (Forall (λ o, is_push_or_pop o = true) example_ops) as H1.
  { unfold example_ops. repeat constructor. }
  pose proof (stack_level_invariant (H := example_keys)
                example_ops initial_world H0 H1)
    as (Hinv & _ & _ & _ & _ & Hpush & _ & Hinit & Hpop & _).
  split; [exact H0|]. split; [exact H1|]. split; [exact (Hinv 4%nat)|].
  split; [|split].
  - exact (Hpush initial_world grad_layer eq_refl).
  - destruct (Hinit grad_world 44%N (Some 3) None None None)
      as (w' & layer & Heq & Hl & _ & Hs).
    + by right.
    + intros Hk. discriminate Hk.
    + vm_compute. reflexivity.
    + exists w', layer. split; [exact Heq|]. split; [exact Hl|exact Hs].
  - refine (proj1 (Hpop grad_world [] grad_layer _ _)).
    + vm_compute. reflexivity.
    + discriminate.
Defined.

(** *** C6: the two boundary keys follow the emptiness of the stack *)

Section CapabilityToggling.
Context `{DispatchKeys}.

Lemma tls_set_false_has x tls :
  DispatchKeySet.has (included_ (tls_set_dispatch_key_included x false tls)) x
  = false.
Proof.
  unfold tls_set_dispatch_key_included.
  destruct (DispatchKeySet.has (included_ tls) x) eqn:Hh; simpl; [|done].
  apply has_remove_same.
Qed.

Lemma set_front_back_true_on w :
  kDynamicLayerFrontModeKey ≠ Undefined →
  kDynamicLayerBackModeKey ≠ Undefined →
  front_back_on (set_front_back true w).
Proof.
  intros Hf Hb. unfold front_back_on, set_front_back. simpl. split.
  - destruct (decide (kDynamicLayerBackModeKey = kDynamicLayerFrontModeKey))
      as [Heq|Hne].
    + rewrite <- Heq. by apply tls_set_has_same.
    + rewrite tls_set_has_other by done. by apply tls_set_has_same.
  - by apply tls_set_has_same.
Qed.

Lemma set_front_back_false_off w : front_back_off (set_front_back false w).
Proof.
  unfold front_back_off, set_front_back. simpl. split.
  - destruct (decide (kDynamicLayerBackModeKey = kDynamicLayerFrontModeKey))
      as [Heq|Hne].
    + rewrite <- Heq. apply tls_set_false_has.
    + rewrite tls_set_has_other by done. apply tls_set_false_has.
  - apply tls_set_false_has.
Qed.

Lemma front_back_on_tls w w' :
  tls_local_dispatch_key_set w' = tls_local_dispatch_key_set w →
  front_back_on w → front_back_on w'.
Proof. unfold front_back_on. by intros ->. Qed.

Lemma front_back_off_tls w w' :
  tls_local_dispatch_key_set w' = tls_local_dispatch_key_set w →
  front_back_off w → front_back_off w'.
Proof. unfold front_back_off. by intros ->. Qed.

Lemma front_back_on_not_off w : front_back_on w → ¬ front_back_off w.
Proof. intros [Hon _] [Hoff _]. congruence. Qed.

Lemma exec_keys_follow_stack o w :
  kDynamicLayerFrontModeKey ≠ Undefined →
  kDynamicLayerBackModeKey ≠ Undefined →
  is_push_or_pop o = true →
  keys_follow_stack w → keys_follow_stack (exec o w).
Proof.
  intros Hf Hb Ho Hw.
  destruct (exec_push_or_pop o w Ho)
    as [[Hs Ht]|[(l & Hs & _ & Ht)|(top & Hs & Ht)]].
  - destruct Hw as [[Hw Hoff]|[Hw Hon]]; [left|right]; rewrite Hs; split; try done.
    + by apply (front_back_off_tls w).
    + by apply (front_back_on_tls w).
  - right. split; [rewrite Hs; by destruct (dynamicLayerStack w)|].
    destruct Hw as [[Hw Hoff]|[Hw Hon]].
    + rewrite Hw in Ht. simpl in Ht.
      apply (front_back_on_tls (set_front_back true w)); [done|].
      by apply set_front_back_true_on.
    + destruct (dynamicLayerStack w) as [|x s] eqn:Hx; [done|]. simpl in Ht.
      by apply (front_back_on_tls w).
  - destruct Hw as [[Hw Hoff]|[Hw Hon]].
    { rewrite Hw in Hs. by destruct (dynamicLayerStack (exec o w)). }
    destruct (dynamicLayerStack (exec o w)) as [|x s] eqn:Hx; simpl in Ht.
    + left. split; [done|].
      apply (front_back_off_tls (set_front_back false w)); [done|].
      apply set_front_back_false_off.
    + right. split; [by rewrite Hx|]. by apply (front_back_on_tls w).
Qed.

(** C6.  Boundary-capability toggling.  A push onto the empty stack, of a
    layer of level 1, returns and turns the front and back mode keys on; a
    pop of a stack with one layer (whose key is not Undefined) returns and
    turns them off; a push onto a non-empty stack and a pop that leaves a
    layer behind return and leave the thread's dispatch key set untouched,
    and so does every failed push or pop.  So along any sequence of pushes
    and pops that starts from an empty stack with both keys off, the keys are
    on iff the stack is non-empty (and off iff it is empty). *)
Theorem boundary_keys_toggle (ops : list Op) (w0 : World) :
  kDynamicLayerFrontModeKey ≠ Undefined →
  kDynamicLayerBackModeKey ≠ Undefined →
  dynamicLayerStack w0 = [] →
  front_back_off w0 →
  Forall (λ o, is_push_or_pop o = true) ops →
  ((front_back_on (run ops w0) ↔ dynamicLayerStack (run ops w0) ≠ []) ∧
   (front_back_off (run ops w0) ↔ dynamicLayerStack (run ops w0) = [])) ∧
  (∀ w layer,
     match pushDynamicLayer layer w with
     | (Returned _, w') =>
         if Nat.eqb (length (dynamicLayerStack w)) 0
         then front_back_on w' ∧
              tls_local_dispatch_key_set w' =
              tls_local_dispatch_key_set (set_front_back true w)
         else tls_local_dispatch_key_set w' = tls_local_dispatch_key_set w
     | (_, w') => tls_local_dispatch_key_set w' = tls_local_dispatch_key_set w
     end) ∧
  (∀ w,
     match popDynamicLayer w with
     | (Returned _, w') =>
         if Nat.eqb (length (dynamicLayerStack w)) 1
         then front_back_off w' ∧
              tls_local_dispatch_key_set w' =
              tls_local_dispatch_key_set (set_front_back false w)
         else tls_local_dispatch_key_set w' = tls_local_dispatch_key_set w
     | (_, w') => tls_local_dispatch_key_set w' = tls_local_dispatch_key_set w
     end) ∧
  (∀ w layer,
     dynamicLayerStack w = [] → layerId_ layer = 1 →
     ∃ w', pushDynamicLayer layer w = (Returned 1, w') ∧
           dynamicLayerStack w' = [layer] ∧
           front_back_on w' ∧
           tls_local_dispatch_key_set w' =
           tls_local_dispatch_key_set (set_front_back true w)) ∧
  (∀ w top,
     dynamicLayerStack w = [top] → key_ top ≠ Undefined →
     ∃ w', popDynamicLayer w = (Returned top, w') ∧
           dynamicLayerStack w' = [] ∧
           front_back_off w' ∧
           tls_local_dispatch_key_set w' =
           tls_local_dispatch_key_set (set_front_back false w)) ∧
  (∀ w layer,
     dynamicLayerStack w ≠ [] →
     layerId_ layer = Z.of_nat (length (dynamicLayerStack w)) + 1 →
     ∃ w', pushDynamicLayer layer w = (Returned (layerId_ layer), w') ∧
           dynamicLayerStack w' = dynamicLayerStack w ++ [layer] ∧
           tls_local_dispatch_key_set w' = tls_local_dispatch_key_set w) ∧
  (∀ w s below top,
     dynamicLayerStack w = s ++ [below; top] → key_ top ≠ Undefined →
     ∃ w', popDynamicLayer w = (Returned top, w') ∧
           dynamicLayerStack w' = s ++ [below] ∧
           tls_local_dispatch_key_set w' = tls_local_dispatch_key_set w).
Proof.
  intros Hf Hb Hs0 Hoff0 Hops.
  split; [|split; [|split; [|split; [|split; [|split]]]]].
  - assert (keys_follow_stack (run ops w0)) as Hinv.
    { clear -Hf Hb Hs0 Hoff0 Hops.
      induction ops as [|o ops IH] using rev_ind; [by left|].
      apply Forall_app in Hops as [Hops Ho]. rewrite Forall_singleton in Ho.
      rewrite run_snoc. apply exec_keys_follow_stack; [done..|]. by apply IH. }
    destruct Hinv as [[Hs Hoff]|[Hs Hon]]; split; split; try done.
    + intros Hon. by apply front_back_on_not_off in Hon.
    + intros Hoff. by apply front_back_on_not_off in Hon.
  - intros w layer. rewrite pushDynamicLayer_eq.
    destruct (Z.eqb_spec (1 + Z.of_nat (length (dynamicLayerStack w)))
                (layerId_ layer)) as [Heq|_]; [|done].
    destruct (Nat.eqb (length (dynamicLayerStack w)) 0); [|done].
    split; [|done].
    apply (front_back_on_tls (set_front_back true w)); [done|].
    by apply set_front_back_true_on.
  - intros w. destruct (dynamicLayerStack w) as [|x s' _] eqn:Hs using rev_ind.
    { by rewrite popDynamicLayer_nil. }
    rewrite (popDynamicLayer_snoc s' x) by done.
    destruct (N.eqb (key_ x) Undefined); [done|].
    rewrite length_app. simpl.
    replace (Nat.eqb (length s' + 1) 1) with (Nat.eqb (length s') 0)
      by (destruct (length s'); simpl; [done|]; symmetry; apply Nat.eqb_neq; lia).
    destruct (Nat.eqb (length s') 0); [|done].
    split; [|done].
    apply (front_back_off_tls (set_front_back false w)); [done|].
    apply set_front_back_false_off.
  - intros w layer Hs Hl. rewrite pushDynamicLayer_eq, Hs, Hl. simpl.
    eexists. split; [reflexivity|]. split; [done|]. split; [|done].
    apply (front_back_on_tls (set_front_back true w)); [done|].
    by apply set_front_back_true_on.
  - intros w top Hs Hk. apply N.eqb_neq in Hk.
    rewrite (popDynamicLayer_snoc [] top) by done. rewrite Hk. simpl.
    eexists. split; [reflexivity|]. split; [done|]. split; [|done].
    apply (front_back_off_tls (set_front_back false w)); [done|].
    apply set_front_back_false_off.
  - intros w layer Hne Hl. rewrite pushDynamicLayer_eq.
    replace (1 + Z.of_nat (length (dynamicLayerStack w)) =? layerId_ layer)
      with true by (symmetry; apply Z.eqb_eq; lia).
    eexists. split; [f_equal; f_equal; lia|].
    rewrite stack_toggle. split; [done|].
    by destruct (dynamicLayerStack w).
  - intros w s below top Hs Hk. apply N.eqb_neq in Hk.
    rewrite (popDynamicLayer_snoc (s ++ [below]) top)
      by (by rewrite Hs, <- (assoc_L (++))).
    rewrite Hk. eexists. split; [reflexivity|].
    rewrite stack_toggle. split; [done|].
    rewrite length_app, Nat.add_comm. done.
Qed.

End CapabilityToggling.

Lemma boundary_keys_toggle_witness :
  @kDynamicLayerFrontModeKey example_keys ≠ Undefined ∧
  @kDynamicLayerBackModeKey example_keys ≠ Undefined ∧
  dynamicLayerStack initial_world = [] ∧
  front_back_off (H := example_keys) initial_world ∧
  Forall (λ o, is_push_or_pop o = true) example_ops ∧
  (front_back_on (H := example_keys) (run (H := example_keys) example_ops initial_world)
   ↔ dynamicLayerStack (run (H := example_keys) example_ops initial_world) ≠ []) ∧
  (∃ w', pushDynamicLayer (H := example_keys) grad_layer initial_world =
           (Returned 1, w') ∧
         dynamicLayerStack w' = [grad_layer] ∧
         front_back_on (H := example_keys) w') ∧
  front_back_on (H := example_keys) grad_world ∧
  (∃ w', popDynamicLayer (H := example_keys) grad_world =
           (Returned grad_layer, w') ∧
         dynamicLayerStack w' = [] ∧
         front_back_off (H := example_keys) w').
Proof.
  assert (@kDynamicLayerFrontModeKey example_keys ≠ Undefined) as H1 by done.
  assert (@kDynamicLayerBackModeKey example_keys ≠ Undefined) as H2 by done.
  assert (dynamicLayerStack initial_world = []) as H3 by reflexivity.
  assert (front_back_off (H := example_keys) initial_world) as H4
    by (split; reflexivity).
  assert (Forall (λ o, is_push_or_pop o = true) example_ops) as H5
    by (unfold example_ops; repeat constructor).
  pose proof (boundary_keys_toggle (H := example_keys)
                example_ops initial_world H1 H2 H3 H4 H5)
    as (Hinv & _ & _ & Hpush & Hpop & _).
  repeat (split; [assumption|]).
  split; [exact (proj1 Hinv)|]. split; [|split].
  - destruct (Hpush initial_world grad_layer eq_refl eq_refl)
      as (w' & Heq & Hs & Hon & _).
    exists w'. split; [exact Heq|]. split; [exact Hs|exact Hon].
  - split; vm_compute; reflexivity.
  - destruct (Hpop grad_world grad_layer) as (w' & Heq & Hs & Hoff & _).
    + vm_compute. reflexivity.
    + discriminate.
    + exists w'. split; [exact Heq|]. split; [exact Hs|exact Hoff].
Defined.

(** *** Setting and clearing the boundary keys, bit by bit *)

Section KeyBits.
Context `{DispatchKeys}.

Lemma tls_set_testbit x b tls n :
  N.testbit (included_ (tls_set_dispatch_key_included x b tls)) n =
  if decide (x ≠ Undefined ∧ n = (x - 1)%N) then b
  else N.testbit (included_ tls) n.
Proof.
  unfold tls_set_dispatch_key_included.
  destruct (decide (x = Undefined)) as [->|Hx].
  { rewrite decide_False by (by intros [? _]).
    unfold DispatchKeySet.has, DispatchKeySet.add, DispatchKeySet.of_key.
    simpl. rewrite N.land_0_r. simpl.
    destruct b; simpl; [|done]. by rewrite N.lor_0_r. }
  pose proof (has_testbit (included_ tls) x Hx) as Hhas.
  destruct (decide (x ≠ Undefined ∧ n = (x - 1)%N)) as [[_ ->]|Hn].
  - destruct b, (DispatchKeySet.has (included_ tls) x) eqn:Hh; simpl; try done.
    + rewrite <- has_testbit by done. by apply has_add_same.
    + rewrite <- has_testbit by done. apply has_remove_same.
  - assert (n ≠ (x - 1)%N) as Hne by (intros ->; by apply Hn).
    unfold DispatchKeySet.add, DispatchKeySet.remove, DispatchKeySet.of_key.
    apply N.eqb_neq in Hx as Hx'. unfold Undefined in Hx'.
    destruct b, (DispatchKeySet.has (included_ tls) x); simpl; try done;
      rewrite Hx'.
    + rewrite N.lor_spec, N.shiftl_1_l, N.pow2_bits_false by done.
      apply orb_false_r.
    + rewrite N.ldiff_spec, N.shiftl_1_l, N.pow2_bits_false by done.
      apply andb_true_r.
Qed.

Lemma tls_ext (t1 t2 : LocalDispatchKeySet) :
  excluded_ t1 = excluded_ t2 →
  (∀ n, N.testbit (included_ t1) n = N.testbit (included_ t2) n) →
  t1 = t2.
Proof.
  destruct t1, t2. simpl. intros -> Hbits. f_equal. by apply N.bits_inj.
Qed.

(** Setting both keys and clearing them again gives back a key set in which
    they were off; clearing and setting gives back one in which they were
    on. *)
Lemma set_clear_front_back w :
  front_back_off w →
  tls_local_dispatch_key_set (set_front_back false (set_front_back true w)) =
  tls_local_dispatch_key_set w.
Proof.
  intros [Hf Hb]. unfold set_front_back. simpl. apply tls_ext.
  - by rewrite !tls_set_excluded.
  - intros n. rewrite !tls_set_testbit.
    repeat case_decide; try done;
      match goal with Hx : _ ∧ n = _ |- _ => destruct Hx as [? ->] end;
      by rewrite <- has_testbit.
Qed.

Lemma clear_set_front_back w :
  front_back_on w →
  tls_local_dispatch_key_set (set_front_back true (set_front_back false w)) =
  tls_local_dispatch_key_set w.
Proof.
  intros [Hf Hb]. unfold set_front_back. simpl. apply tls_ext.
  - by rewrite !tls_set_excluded.
  - intros n. rewrite !tls_set_testbit.
    repeat case_decide; try done;
      match goal with Hx : _ ∧ n = _ |- _ => destruct Hx as [? ->] end;
      by rewrite <- has_testbit.
Qed.

Lemma set_after_clear_front_back w :
  tls_local_dispatch_key_set (set_front_back true (set_front_back false w)) =
  tls_local_dispatch_key_set (set_front_back true w).
Proof.
  unfold set_front_back. simpl. apply tls_ext.
  - by rewrite !tls_set_excluded.
  - intros n. rewrite !tls_set_testbit. by repeat case_decide.
Qed.

End KeyBits.

(** *** C8: the registry and the stack go together *)

Section RegistryCorrespondence.
Context `{DispatchKeys}.

Lemma exec_public_inv o w :
  is_public_push_or_pop o = true →
  levels_ok (dynamicLayerStack w) ∧ registry_matches_depth w →
  levels_ok (dynamicLayerStack (exec o w)) ∧ registry_matches_depth (exec o w).
Proof.
  intros Ho [Hok Hreg]. split.
  { apply exec_levels_ok; [by destruct o|done]. }
  destruct o as [key bs r pg pfg| | | |]; try done; simpl.
  - rewrite initAndPushDynamicLayer_eq. cbv zeta.
    destruct (negb _); [done|]. destruct (_ && _); [done|].
    destruct (kDynMetaDataSingleton w !! _) as [h|] eqn:Hl.
    { assert (is_Some (kDynMetaDataSingleton w
                 !! (1 + Z.of_nat (length (dynamicLayerStack w))))) as Hs by eauto.
      apply Hreg in Hs. lia. }
    intros l. simpl. rewrite ?stack_toggle, ?registry_toggle. simpl.
    rewrite length_app. simpl.
    destruct (decide (l = 1 + Z.of_nat (length (dynamicLayerStack w)))) as [->|Hne].
    + rewrite lookup_insert_eq. split; [lia|eauto].
    + rewrite lookup_insert_ne by done. rewrite (Hreg l). lia.
  - destruct (dynamicLayerStack w) as [|x s' _] eqn:Hs using rev_ind.
    { rewrite popDynamicLayerAndDeleteMetadata_nil by done.
      intros l. simpl. rewrite Hs. specialize (Hreg l). by rewrite Hs in Hreg. }
    rewrite (popDynamicLayerAndDeleteMetadata_snoc s' x) by done. cbv zeta.
    destruct (N.eqb (key_ x) Undefined).
    { intros l. simpl. rewrite Hs. specialize (Hreg l). by rewrite Hs in Hreg. }
    apply levels_ok_snoc in Hok as [_ Hx].
    assert (∀ l, is_Some (kDynMetaDataSingleton w !! l) ↔
                 1 ≤ l ≤ Z.of_nat (length s') + 1) as Hreg'.
    { intros l. rewrite (Hreg l), Hs, length_app. simpl. lia. }
    destruct (kDynMetaDataSingleton w !! layerId_ x) as [it|] eqn:Hl.
    + intros l. simpl. rewrite ?stack_toggle, ?registry_toggle. simpl.
      destruct (decide (l = layerId_ x)) as [->|Hne].
      * rewrite lookup_delete_eq. split; [by intros [? ?]|lia].
      * rewrite lookup_delete_ne by done. rewrite (Hreg' l). lia.
    + assert (is_Some (kDynMetaDataSingleton w !! layerId_ x)) as Hsome
        by (apply Hreg'; lia).
      rewrite Hl in Hsome. by destruct Hsome.
Qed.

Lemma run_public_inv ops w :
  Forall (λ o, is_public_push_or_pop o = true) ops →
  levels_ok (dynamicLayerStack w) ∧ registry_matches_depth w →
  levels_ok (dynamicLayerStack (run ops w)) ∧ registry_matches_depth (run ops w).
Proof.
  induction ops as [|o ops IH] using rev_ind; intros Hops Hw; [done|].
  apply Forall_app in Hops as [Hops Ho]. rewrite Forall_singleton in Ho.
  rewrite run_snoc. apply exec_public_inv; [done|]. by apply IH.
Qed.

Lemma registered_iff_on_stack w :
  levels_ok (dynamicLayerStack w) → registry_matches_depth w →
  ∀ l : Z, is_Some (kDynMetaDataSingleton w !! l) ↔
           ∃ layer, layer ∈ dynamicLayerStack w ∧ layerId_ layer = l.
Proof.
  intros Hok Hreg l. rewrite (Hreg l). split.
  - intros Hl.
    destruct (lookup_lt_is_Some_2 (dynamicLayerStack w) (Z.to_nat (l - 1)))
      as [layer Hlayer]; [lia|].
    exists layer. split; [by eapply list_elem_of_lookup_2|].
    rewrite (Hok _ _ Hlayer). lia.
  - intros (layer & Hin & <-).
    apply list_elem_of_lookup_1 in Hin as [i Hi].
    rewrite (Hok _ _ Hi). apply lookup_lt_Some in Hi. lia.
Qed.

(** C8.  Registry-stack correspondence: after any sequence of the public
    push ([initAndPushDynamicLayer]) and pop-and-invalidate
    ([popDynamicLayerAndDeleteMetadata]) operations, started with an empty
    stack and an empty registry, the registry has an entry for a level iff a
    layer with that level is on the stack, and [areTransformsActive] returns
    true exactly when the stack is non-empty. *)
Theorem registry_stack_correspondence (ops : list Op) (w0 : World) :
  dynamicLayerStack w0 = [] →
  kDynMetaDataSingleton w0 = ∅ →
  Forall (λ o, is_public_push_or_pop o = true) ops →
  (∀ l : Z, is_Some (kDynMetaDataSingleton (run ops w0) !! l) ↔
            ∃ layer, layer ∈ dynamicLayerStack (run ops w0) ∧ layerId_ layer = l) ∧
  areTransformsActive (run ops w0) =
  (Returned (negb (Nat.eqb (length (dynamicLayerStack (run ops w0))) 0)),
   run ops w0).
Proof.
  intros Hs0 Hr0 Hops.
  destruct (run_public_inv ops w0 Hops) as [Hok Hreg].
  { split; [rewrite Hs0; apply levels_ok_nil|].
    intros l. rewrite Hr0, Hs0, lookup_empty. simpl. split; [by intros [? ?]|lia]. }
  split; [by apply registered_iff_on_stack|].
  unfold areTransformsActive. unfold_monad. f_equal. f_equal. f_equal.
  destruct (dynamicLayerStack (run ops w0)) as [|x s] eqn:Hs; simpl.
  - apply bool_decide_eq_true_2. apply map_empty. intros l.
    apply eq_None_not_Some. rewrite (Hreg l), Hs. simpl. lia.
  - apply bool_decide_eq_false_2. intros Hempty.
    assert (is_Some (kDynMetaDataSingleton (run ops w0) !! 1)) as Hone
      by (apply Hreg; rewrite Hs; simpl; lia).
    rewrite Hempty, lookup_empty in Hone. by destruct Hone.
Qed.

End RegistryCorrespondence.

Lemma registry_stack_correspondence_witness :
  dynamicLayerStack initial_world = [] ∧
  kDynMetaDataSingleton initial_world = ∅ ∧
  Forall (λ o, is_public_push_or_pop o = true) (take 2 example_ops) ∧
  areTransformsActive (run (H := example_keys) (take 2 example_ops) initial_world) =
  (Returned true, run (H := example_keys) (take 2 example_ops) initial_world).
Proof.
  assert (dynamicLayerStack initial_world = []) as H1 by reflexivity.
  assert (kDynMetaDataSingleton initial_world = ∅) as H2 by reflexivity.
  assert (Forall (λ o, is_public_push_or_pop o = true) (take 2 example_ops)) as H3
    by (simpl; repeat constructor).
  repeat (split; [assumption|]).
  exact (proj2 (registry_stack_correspondence (H := example_keys)
                  (take 2 example_ops) initial_world H1 H2 H3)).
Defined.

(** *** C9: liveness flags only ever go from true to false *)

Section Liveness.
Context `{DispatchKeys}.

Lemma unwrapIfDead_dead v lvl h w :
  flags w !! h = Some false → unwrapIfDead (Wrapped v lvl h) w = (Returned v, w).
Proof.
  intros Hh. unfold unwrapIfDead, is_alive. unfold_monad. simpl. by rewrite Hh.
Qed.

(** No operation writes [true] into an existing cell. *)
Lemma exec_flag_stays_false o w h :
  flags w !! h = Some false → flags (exec o w) !! h = Some false.
Proof.
  intros Hh. destruct o as [key bs r pg pfg| |layer| |stack]; simpl.
  - rewrite initAndPushDynamicLayer_eq. cbv zeta.
    destruct (negb _); [done|]. destruct (_ && _); [done|].
    destruct (kDynMetaDataSingleton w !! _); simpl; rewrite ?flags_toggle; simpl;
      [done|by apply lookup_app_l_Some].
  - destruct (dynamicLayerStack w) as [|x s' _] eqn:Hs using rev_ind.
    { by rewrite popDynamicLayerAndDeleteMetadata_nil. }
    rewrite (popDynamicLayerAndDeleteMetadata_snoc s' x) by done. cbv zeta.
    destruct (N.eqb (key_ x) Undefined); [done|].
    destruct (kDynMetaDataSingleton w !! layerId_ x) as [it|]; simpl;
      rewrite ?flags_toggle; simpl; [|done].
    destruct (decide (it = h)) as [->|Hne].
    + apply list_lookup_insert_eq. by eapply lookup_lt_Some.
    + by rewrite list_lookup_insert_ne.
  - rewrite pushDynamicLayer_eq. destruct (_ =? _); [|done].
    simpl. by rewrite flags_toggle.
  - destruct (dynamicLayerStack w) as [|x s' _] eqn:Hs using rev_ind.
    { by rewrite popDynamicLayer_nil. }
    rewrite (popDynamicLayer_snoc s' x) by done.
    destruct (N.eqb (key_ x) Undefined); [done|]. simpl. by rewrite flags_toggle.
  - done.
Qed.

Lemma run_flag_stays_false ops w h :
  flags w !! h = Some false → flags (run ops w) !! h = Some false.
Proof.
  induction ops as [|o ops IH] using rev_ind; intros Hh; [done|].
  rewrite run_snoc. by apply exec_flag_stays_false, IH.
Qed.

Lemma exec_registry_wf o w : registry_wf w → registry_wf (exec o w).
Proof.
  intros [Htrue Hinj]. destruct o as [key bs r pg pfg| |layer| |stack]; simpl.
  - rewrite initAndPushDynamicLayer_eq. cbv zeta.
    destruct (negb _); [done|]. destruct (_ && _); [done|].
    destruct (kDynMetaDataSingleton w !! _) eqn:Hl; simpl.
    { split; intros *; simpl; rewrite ?registry_toggle, ?flags_toggle; simpl; eauto. }
    split; intros *; simpl; rewrite ?flags_toggle; simpl.
    + intros [[_ <-]|[_ Hlk]]%lookup_insert_Some.
      * by rewrite lookup_app_r, Nat.sub_diag.
      * apply lookup_app_l_Some. eauto.
    + intros [[<- <-]|[Hn1 H1]]%lookup_insert_Some
             [[<- Hh]|[Hn2 H2]]%lookup_insert_Some; try done.
      * apply Htrue, lookup_lt_Some in H2. lia.
      * apply Htrue, lookup_lt_Some in H1. lia.
      * eauto.
  - destruct (dynamicLayerStack w) as [|x s' _] eqn:Hs using rev_ind.
    { by rewrite popDynamicLayerAndDeleteMetadata_nil. }
    rewrite (popDynamicLayerAndDeleteMetadata_snoc s' x) by done. cbv zeta.
    destruct (N.eqb (key_ x) Undefined); [done|].
    destruct (kDynMetaDataSingleton w !! layerId_ x) as [it|] eqn:Hl; simpl.
    + split; intros *; simpl; rewrite ?flags_toggle; simpl.
      * intros [Hne Hlk]%lookup_delete_Some.
        rewrite list_lookup_insert_ne; [eauto|].
        intros ->. apply Hne. eauto.
      * intros [_ H1]%lookup_delete_Some [_ H2]%lookup_delete_Some. eauto.
    + split; intros *; simpl; rewrite ?registry_toggle, ?flags_toggle; simpl; eauto.
  - rewrite pushDynamicLayer_eq. destruct (_ =? _); [|done].
    split; intros *; simpl; rewrite ?registry_toggle, ?flags_toggle; simpl; eauto.
  - destruct (dynamicLayerStack w) as [|x s' _] eqn:Hs using rev_ind.
    { by rewrite popDynamicLayer_nil. }
    rewrite (popDynamicLayer_snoc s' x) by done.
    destruct (N.eqb (key_ x) Undefined); [done|].
    split; intros *; simpl; rewrite ?registry_toggle, ?flags_toggle; simpl; eauto.
  - done.
Qed.

Lemma run_registry_wf ops w : registry_wf w → registry_wf (run ops w).
Proof.
  induction ops as [|o ops IH] using rev_ind; intros Hw; [done|].
  rewrite run_snoc. by apply exec_registry_wf, IH.
Qed.

(** C9.  Liveness monotonicity.  Along any sequence of operations (pushes,
    pops, public or internal, and stack replacements) from a world whose
    registered flags are set and pairwise distinct (the empty registry of a
    fresh process is one): a layer creation registers a fresh cell holding
    true; a pop-and-invalidate that finds the entry of the popped level
    flips that cell from true to false and erases the entry; and once a cell
    holds false it holds false after every further sequence of operations,
    it is never registered again, and [unwrapIfDead] replaces every wrapper
    that observes it by its underlying value. *)
Theorem liveness_monotone (ops : list Op) (w0 : World) :
  registry_wf w0 →
  (∀ key bs r pg pfg id w',
     initAndPushDynamicLayer key bs r pg pfg (run ops w0) = (Returned id, w') →
     ∃ h, kDynMetaDataSingleton w' !! id = Some h ∧
          flags w' !! h = Some true ∧
          flags (run ops w0) !! h = None) ∧
  (∀ top w' h,
     popDynamicLayerAndDeleteMetadata (run ops w0) = (Returned top, w') →
     kDynMetaDataSingleton (run ops w0) !! layerId_ top = Some h →
     flags (run ops w0) !! h = Some true ∧
     flags w' !! h = Some false ∧
     kDynMetaDataSingleton w' !! layerId_ top = None) ∧
  (∀ h more,
     flags (run ops w0) !! h = Some false →
     flags (run more (run ops w0)) !! h = Some false ∧
     (∀ l, kDynMetaDataSingleton (run more (run ops w0)) !! l ≠ Some h) ∧
     (∀ v lvl, unwrapIfDead (Wrapped v lvl h) (run more (run ops w0)) =
               (Returned v, run more (run ops w0)))).
Proof.
  intros Hwf0. pose proof (run_registry_wf ops w0 Hwf0) as Hwf.
  set (w := run ops w0) in *. split; [|split].
  - intros key bs r pg pfg id w'. rewrite initAndPushDynamicLayer_eq. cbv zeta.
    destruct (negb _); [done|]. destruct (_ && _); [done|].
    destruct (kDynMetaDataSingleton w !! _); [done|].
    intros [= <- <-]. exists (length (flags w)). simpl.
    rewrite lookup_insert_eq, ?flags_toggle. simpl.
    split; [done|]. split.
    + by rewrite lookup_app_r, Nat.sub_diag.
    + by apply lookup_ge_None.
  - intros top w' h.
    destruct (dynamicLayerStack w) as [|x s' _] eqn:Hs using rev_ind.
    { by rewrite popDynamicLayerAndDeleteMetadata_nil. }
    rewrite (popDynamicLayerAndDeleteMetadata_snoc s' x) by done. cbv zeta.
    destruct (N.eqb (key_ x) Undefined); [done|].
    destruct (kDynMetaDataSingleton w !! layerId_ x) as [it|] eqn:Hl;
      intros [= <- <-] Hh; [|congruence].
    assert (it = h) as -> by congruence.
    destruct Hwf as [Htrue _]. pose proof (Htrue _ _ Hl) as Ht.
    split; [done|]. simpl. rewrite ?flags_toggle. simpl.
    split; [|apply lookup_delete_eq].
    apply list_lookup_insert_eq. by eapply lookup_lt_Some.
  - intros h more Hh.
    pose proof (run_flag_stays_false more w h Hh) as Hfalse.
    split; [done|]. split.
    + intros l Hl. destruct (run_registry_wf more w Hwf) as [Htrue _].
      apply Htrue in Hl.
      assert (Some true = Some false) as Habs
        by (etrans; [symmetry; exact Hl|exact Hfalse]).
      done.
    + intros v lvl. by apply unwrapIfDead_dead.
Qed.

End Liveness.

Lemma liveness_monotone_witness :
  registry_wf initial_world ∧
  unwrapIfDead (Wrapped (Plain 7) 2 1%nat)
    (run (H := example_keys) [SetStack []; InitAndPush 44%N None None None None]
       (run (H := example_keys) example_ops initial_world)) =
  (Returned (Plain 7),
   run (H := example_keys) [SetStack []; InitAndPush 44%N None None None None]
     (run (H := example_keys) example_ops initial_world)).
Proof.
  assert (registry_wf initial_world) as H0.
  { split; intros *; simpl; by rewrite lookup_empty. }
  split; [exact H0|].
  refine (proj2 (proj2 (proj2 (proj2 (liveness_monotone (H := example_keys)
            example_ops initial_world H0)) 1%nat
            [SetStack []; InitAndPush 44%N None None None None] _)) (Plain 7) 2).
  vm_compute. reflexivity.
Defined.

(** *** C10: replacing the stack wholesale touches nothing else *)

(** C10.  For every stack value [s], [setDynamicLayerStack s] returns, makes
    [s] the thread's stack, and leaves the liveness registry, the flag cells
    and the thread's dispatch key set (hence the two boundary keys) exactly
    as they were, whether or not the replacement changes the stack between
    empty and non-empty. *)
Theorem setDynamicLayerStack_frame `{DispatchKeys} (s : list DynamicLayer) (w : World) :
  fst (setDynamicLayerStack s w) = Returned tt ∧
  dynamicLayerStack (snd (setDynamicLayerStack s w)) = s ∧
  kDynMetaDataSingleton (snd (setDynamicLayerStack s w)) = kDynMetaDataSingleton w ∧
  flags (snd (setDynamicLayerStack s w)) = flags w ∧
  tls_local_dispatch_key_set (snd (setDynamicLayerStack s w)) =
    tls_local_dispatch_key_set w ∧
  (front_back_on (snd (setDynamicLayerStack s w)) ↔ front_back_on w) ∧
  (front_back_off (snd (setDynamicLayerStack s w)) ↔ front_back_off w) ∧
  fst (areTransformsActive (snd (setDynamicLayerStack s w))) =
    fst (areTransformsActive w).
Proof.
  split; [reflexivity|]. split; [reflexivity|]. split; [reflexivity|].
  split; [reflexivity|]. split; [reflexivity|].
  split; [split; intros Hon; exact Hon|].
  split; [split; intros Hoff; exact Hoff|]. reflexivity.
Qed.

(** *** C3: the mutation-safety check *)

Section MutationCheck.
Context `{DispatchKeys} `{TensorWrapperLevel}.

Lemma unwrapIfDead_eq t w :
  unwrapIfDead t w = (Returned (unwrapped_if_dead (flags w) t), w).
Proof.
  unfold unwrapIfDead, unwrapped_if_dead. unfold_monad.
  destruct (maybeGetTensorWrapper t) as [wrapped|]; [|done].
  by destruct (is_alive (flags w) wrapped).
Qed.

Lemma no_alias_others (others : list Argument) :
  existsb (λ it, bool_decide (is_Some (alias_info it))) others = false ↔
  Forall (λ arg, alias_info arg = None) others.
Proof.
  induction others as [|arg others IH]; simpl; [by split|].
  rewrite orb_false_iff, Forall_cons, IH, bool_decide_eq_false.
  split; intros [Harg ?]; (split; [|done]).
  - destruct (alias_info arg); [|done]. destruct Harg. eauto.
  - rewrite Harg. by intros [? ?].
Qed.

Lemma isInplaceOp_spec_code schema :
  isInplaceOp_spec schema → isInplaceOp schema = true.
Proof.
  unfold isInplaceOp, isInplaceOp_spec.
  destruct schema as [name args rets]; simpl.
  intros (Hmut & Hlen & fa & a & Hhead & Ha & Hw & Hall
          & r & ar & Hr & Har & Hwr & _).
  rewrite Hmut, Hlen. simpl.
  destruct args as [|first_arg others]; [done|]. simpl in *.
  injection Hhead as ->. rewrite Ha, Hw. simpl.
  apply no_alias_others in Hall. rewrite Hall.
  destruct rets as [|r0 rets]; [done|]. simpl in *.
  injection Hr as ->. by rewrite Har.
Qed.

Lemma isInplaceOp_code_spec schema :
  returns_alias_arguments schema →
  isInplaceOp schema = true → isInplaceOp_spec schema.
Proof.
  unfold isInplaceOp, isInplaceOp_spec, returns_alias_arguments.
  destruct schema as [name args rets]; simpl. intros Hwf.
  destruct (is_mutable _) eqn:Hmut; simpl; [|done].
  destruct (Nat.eqb_spec (length rets) 1) as [Hlen|]; simpl; [|done].
  destruct args as [|first_arg others]; [done|].
  destruct (alias_info first_arg) as [a1|] eqn:Ha1; [|done].
  destruct (isWrite a1) eqn:Hw1; simpl; [|done].
  destruct (existsb _ others) eqn:Hex; [done|].
  destruct rets as [|r rets]; [done|].
  destruct (alias_info r) as [ar|] eqn:Har; [|done].
  intros Hwr. apply no_alias_others in Hex.
  split; [done|]. split; [done|]. exists first_arg, a1.
  split; [done|]. split; [done|]. split; [done|]. split; [done|].
  exists r, ar. split; [done|]. split; [done|]. split; [done|].
  destruct (Hwf r ar) as (arg & a & Hin & Ha & Hsame); [by left|done|].
  apply elem_of_cons in Hin as [->|Hin]; [congruence|].
  rewrite Forall_forall in Hex. by rewrite (Hex arg Hin) in Ha.
Qed.

(** C3.  Mutation-safety check, as amended.  With a top layer on the stack,
    for a schema whose annotated returns alias annotated arguments:
    [isInplaceOp] classifies the schema as in-place exactly per the
    specification's definition.  When the call's first argument is a tensor,
    the check throws the user-facing captured-mutation error iff the top
    layer is Differentiation-kind, the schema is in-place, and the first
    argument, after a dead wrapper has been replaced by its underlying
    value, is not wrapped at exactly the current top level; in every other
    case the check returns, in particular when that argument is wrapped at
    exactly the top level; and when the check throws, the front handler
    throws that error without re-dispatching.  When the first argument of an
    in-place operation under a Differentiation-kind layer is not a tensor,
    the check and the front handler fail with the internal assertion
    "Expected Tensor" instead. *)
Theorem captured_mutation_check
    (schema : FunctionSchema) (w : World) (top : DynamicLayer) (arg0 : IValue) :
  last (dynamicLayerStack w) = Some top →
  at_index (jitStack w)
    (Z.of_nat (length (jitStack w)) - Z.of_nat (length (arguments schema)))
    = Some arg0 →
  returns_alias_arguments schema →
  (isInplaceOp schema = true ↔ isInplaceOp_spec schema) ∧
  (∀ t, arg0 = IVTensor t →
     (checkForInvalidMutationOnCaptures schema (dynamicLayerStack w) w =
        (Thrown (CheckFailed (captured_mutation_message schema)), w)
      ↔ key_ top = Autograd ∧ isInplaceOp_spec schema ∧
        ¬ wrapped_at (flags w) (unwrapped_if_dead (flags w) t) (layerId_ top)) ∧
     (¬ (key_ top = Autograd ∧ isInplaceOp_spec schema ∧
         ¬ wrapped_at (flags w) (unwrapped_if_dead (flags w) t) (layerId_ top)) →
      checkForInvalidMutationOnCaptures schema (dynamicLayerStack w) w =
        (Returned tt, w)) ∧
     (wrapped_at (flags w) (unwrapped_if_dead (flags w) t) (layerId_ top) →
      checkForInvalidMutationOnCaptures schema (dynamicLayerStack w) w =
        (Returned tt, w)) ∧
     (key_ top = Autograd ∧ isInplaceOp_spec schema ∧
      ¬ wrapped_at (flags w) (unwrapped_if_dead (flags w) t) (layerId_ top) →
      ∀ callBoxed,
        dynamicLayerFrontFallback callBoxed schema w =
        (Thrown (CheckFailed (captured_mutation_message schema)), w))) ∧
  (isTensor arg0 = false → key_ top = Autograd → isInplaceOp_spec schema →
   checkForInvalidMutationOnCaptures schema (dynamicLayerStack w) w =
     (Thrown (InternalAssert "Expected Tensor"), w) ∧
   ∀ callBoxed,
     dynamicLayerFrontFallback callBoxed schema w =
     (Thrown (InternalAssert "Expected Tensor"), w)).
Proof.
  intros Htop Harg Hwf.
  assert (isInplaceOp schema = true ↔ isInplaceOp_spec schema) as Hin
    by (split; [by apply isInplaceOp_code_spec|apply isInplaceOp_spec_code]).
  assert (∀ (o : Outcome unit) callBoxed,
            (∀ u, o ≠ Returned u) →
            checkForInvalidMutationOnCaptures schema (dynamicLayerStack w) w
              = (o, w) →
            dynamicLayerFrontFallback callBoxed schema w = (o, w)) as Hfront.
  { intros o callBoxed Ho Hcheck.
    unfold dynamicLayerFrontFallback. cbv [mbind M_bind bind get].
    destruct (last_Some (dynamicLayerStack w) top) as [[s Hs] _]; [done|].
    rewrite Hs at 1. rewrite length_app. simpl.
    replace (0 <? Z.of_nat (length s + 1)) with true
      by (symmetry; apply Z.ltb_lt; lia).
    simpl. rewrite Hcheck. destruct o as [u|e|y]; [by destruct (Ho u)|done..]. }
  split; [exact Hin|]. split.
  - intros t ->.
    set (arg := unwrapped_if_dead (flags w) t).
    assert (checkForInvalidMutationOnCaptures schema (dynamicLayerStack w) w =
            if decide (key_ top = Autograd)
            then if isInplaceOp schema
                 then match maybeGetTensorWrapper arg with
                      | Some wrapper =>
                          match wrapper_level (flags w) wrapper with
                          | Some l =>
                              if l =? layerId_ top then (Returned tt, w)
                              else (Thrown (CheckFailed
                                      (captured_mutation_message schema)), w)
                          | None => (Thrown (CheckFailed
                                      (captured_mutation_message schema)), w)
                          end
                      | None => (Thrown (CheckFailed
                                   (captured_mutation_message schema)), w)
                      end
                 else (Returned tt, w)
            else (Returned tt, w)) as Hcheck.
    { unfold checkForInvalidMutationOnCaptures. rewrite Htop.
      destruct (decide (key_ top = Autograd)) as [->|Hk].
      - rewrite N.eqb_refl. simpl. destruct (isInplaceOp schema); [|done]. simpl.
        cbv [mbind M_bind bind get]. rewrite Harg. simpl.
        cbv [mret M_ret ret]. rewrite unwrapIfDead_eq. fold arg.
        destruct (maybeGetTensorWrapper arg) as [wrapper|]; [|done].
        destruct (wrapper_level (flags w) wrapper) as [l|]; [|done].
        by destruct (l =? layerId_ top).
      - apply N.eqb_neq in Hk. by rewrite Hk. }
    assert (wrapped_at (flags w) arg (layerId_ top) →
            checkForInvalidMutationOnCaptures schema (dynamicLayerStack w) w =
            (Returned tt, w)) as Hpass.
    { intros (wrapper & Hw & Hl). rewrite Hcheck, Hw, Hl, Z.eqb_refl.
      destruct (decide _); [|done]. by destruct (isInplaceOp schema). }
    assert (checkForInvalidMutationOnCaptures schema (dynamicLayerStack w) w =
              (Thrown (CheckFailed (captured_mutation_message schema)), w)
            ↔ key_ top = Autograd ∧ isInplaceOp_spec schema ∧
              ¬ wrapped_at (flags w) arg (layerId_ top)) as Hiff.
    { rewrite <- Hin. split.
      - intros Hthrow. split; [|split].
        + rewrite Hcheck in Hthrow. by destruct (decide _).
        + rewrite Hcheck in Hthrow. destruct (decide _); [|done].
          by destruct (isInplaceOp schema).
        + intros Hwr. rewrite (Hpass Hwr) in Hthrow. done.
      - intros (Hk & Hin' & Hnot). rewrite Hcheck, Hin'.
        destruct (decide _); [|done].
        destruct (maybeGetTensorWrapper arg) as [wrapper|] eqn:Hw; [|done].
        destruct (wrapper_level (flags w) wrapper) as [l|] eqn:Hl; [|done].
        destruct (Z.eqb_spec l (layerId_ top)) as [->|]; [|done].
        destruct Hnot. by exists wrapper. }
    split; [exact Hiff|]. split; [|split; [exact Hpass|]].
    + intros Hnot. rewrite Hcheck.
      destruct (decide (key_ top = Autograd)) as [Hk|]; [|done].
      destruct (isInplaceOp schema) eqn:Hin'; [|done].
      destruct (maybeGetTensorWrapper arg) as [wrapper|] eqn:Hw.
      * destruct (wrapper_level (flags w) wrapper) as [l|] eqn:Hl.
        -- destruct (Z.eqb_spec l (layerId_ top)) as [->|Hne]; [done|].
           destruct Hnot. split; [done|]. split; [by apply Hin|].
           intros (wr & Hwr & Hlr). congruence.
        -- destruct Hnot. split; [done|]. split; [by apply Hin|].
           intros (wr & Hwr & Hlr). congruence.
      * destruct Hnot. split; [done|]. split; [by apply Hin|].
        intros (wr & Hwr & Hlr). congruence.
    + intros Hcond callBoxed. apply Hiff in Hcond. by apply Hfront.
  - intros Hnt Hk Hspec. apply Hin in Hspec.
    assert (checkForInvalidMutationOnCaptures schema (dynamicLayerStack w) w =
            (Thrown (InternalAssert "Expected Tensor"), w)) as Hcheck.
    { unfold checkForInvalidMutationOnCaptures.
      rewrite Htop, Hk, N.eqb_refl, Hspec. simpl.
      cbv [mbind M_bind bind get]. rewrite Harg.
      by destruct arg0. }
    split; [exact Hcheck|]. intros callBoxed. by apply Hfront.
Qed.

End MutationCheck.

(** *** The argument walker *)

Section Walker.
Context `{DispatchKeys} `{TensorWrapperLevel}.

Lemma with_jitStack_id w : with_jitStack (jitStack w) w = w.
Proof. by destruct w. Qed.

Lemma at_index_of_nat {A} (v : list A) (i : nat) :
  at_index v (Z.of_nat i) = v !! i.
Proof.
  unfold at_index. replace (Z.of_nat i <? 0) with false
    by (symmetry; apply Z.ltb_ge; lia).
  by rewrite Nat2Z.id.
Qed.

Lemma makeTensorWrapper_eq t l w :
  makeTensorWrapper t l w =
  match kDynMetaDataSingleton w !! l with
  | Some h => (Returned (Wrapped t l h), w)
  | None => (Thrown (InternalAssert "level should be alive"), w)
  end.
Proof.
  unfold makeTensorWrapper, getLifeHandleForLevel. unfold_monad.
  by destruct (kDynMetaDataSingleton w !! l).
Qed.

Lemma M_mapM_cons {A B} (f : A → M World B) x l w :
  mapM f (x :: l) w =
  match f x w with
  | (Returned y, w1) =>
      match mapM f l w1 with
      | (Returned k, w2) => (Returned (y :: k), w2)
      | (Thrown e, w2) => (Thrown e, w2)
      | (Aborted a, w2) => (Aborted a, w2)
      end
  | (Thrown e, w1) => (Thrown e, w1)
  | (Aborted a, w1) => (Aborted a, w1)
  end.
Proof.
  simpl. unfold_monad. destruct (f x w) as [[y|e|a] w1]; [|done..].
  by destruct (mapM f l w1) as [[k|e|a] w2].
Qed.

Lemma mapM_elts (f : Tensor → M World Tensor) w0 js elts :
  reads_no_args f →
  match mapM (transform_elt (λ t, fst (f t w0))) elts with
  | Some elts' =>
      mapM (foreachTensorInplace_elt f) elts (with_jitStack js w0)
      = (Returned elts', with_jitStack js w0)
  | None =>
      (∀ l, fst (mapM (foreachTensorInplace_elt f) elts (with_jitStack js w0))
            ≠ Returned l) ∧
      snd (mapM (foreachTensorInplace_elt f) elts (with_jitStack js w0))
      = with_jitStack js w0
  end.
Proof.
  intros Hf. induction elts as [|elt elts IH]; [done|].
  rewrite M_mapM_cons.
  assert (foreachTensorInplace_elt f elt (with_jitStack js w0) =
          match transform_elt (λ t, fst (f t w0)) elt with
          | Some elt' => (Returned elt', with_jitStack js w0)
          | None => (match elt with
                     | IVTensor t => match fst (f t w0) with
                                     | Returned r => Returned (IVTensor r)
                                     | Thrown e => Thrown e
                                     | Aborted a => Aborted a
                                     end
                     | _ => Returned elt
                     end, with_jitStack js w0)
          end) as Helt.
  { destruct elt as [t| | |]; try done. simpl. unfold_monad. rewrite Hf.
    by destruct (fst (f t w0)). }
  rewrite Helt. clear Helt.
  change (mapM (transform_elt (λ t, fst (f t w0))) (elt :: elts)) with
    (elt' ← transform_elt (λ t, fst (f t w0)) elt;
     k ← mapM (transform_elt (λ t, fst (f t w0))) elts; mret (elt' :: k)).
  destruct (transform_elt _ elt) as [elt'|] eqn:Ht; simpl.
  - destruct (mapM (transform_elt _) elts) as [elts'|]; simpl.
    + by rewrite IH.
    + destruct IH as [IH1 IH2].
      destruct (mapM (foreachTensorInplace_elt f) elts (with_jitStack js w0))
        as [[l|e|y] w']; simpl in *; [by destruct (IH1 l)|subst; done..].
  - destruct elt as [t| | |]; try done. simpl in Ht.
    by destruct (fst (f t w0)).
Qed.

Lemma mapM_no_tensor g elts :
  existsb isTensor elts = false → mapM (transform_elt g) elts = Some elts.
Proof.
  induction elts as [|elt elts IH]; [done|]. simpl.
  intros [Helt Helts]%orb_false_iff. rewrite (IH Helts).
  by destruct elt.
Qed.

Lemma body_spec (f : Tensor → M World Tensor) w0 js (idx : nat) v :
  reads_no_args f → js !! idx = Some v →
  match transform_arg (λ t, fst (f t w0)) v with
  | Some v' =>
      foreachTensorInplace_body f (Z.of_nat idx) (with_jitStack js w0) =
      (Returned tt, with_jitStack (<[idx := v']> js) w0)
  | None =>
      fst (foreachTensorInplace_body f (Z.of_nat idx) (with_jitStack js w0))
        ≠ Returned tt ∧
      ∃ js', snd (foreachTensorInplace_body f (Z.of_nat idx)
                    (with_jitStack js w0)) = with_jitStack js' w0
  end.
Proof.
  intros Hf Hv. unfold foreachTensorInplace_body. cbv [mbind M_bind bind get].
  change (jitStack (with_jitStack js w0)) with js.
  rewrite at_index_of_nat, Hv.
  destruct v as [t|elts| |z].
  - simpl. rewrite Hf.
    destruct (fst (f t w0)) as [t'|e|a]; simpl; [|split; eauto..].
    unfold set_arg. unfold_monad. simpl. rewrite Nat2Z.id.
    destruct (defined t); simpl; [|done].
    destruct (defined t'); simpl; [done|]. split; eauto.
  - change (transform_arg (λ t, (f t w0).1) (IVList elts)) with
      (IVList <$> mapM (transform_elt (λ t, (f t w0).1)) elts).
    pose proof (mapM_elts f w0 js elts Hf) as Hm.
    cbv [mbind M_bind bind get] in Hm.
    destruct (mapM (transform_elt _) elts) as [elts'|] eqn:He;
      cbn [fmap option_fmap option_map].
    + rewrite Hm. destruct (existsb isTensor elts) eqn:Hex.
      * unfold set_arg. unfold_monad. simpl. by rewrite Nat2Z.id.
      * rewrite (mapM_no_tensor _ _ Hex) in He. injection He as <-.
        unfold_monad. by rewrite list_insert_id.
    + destruct Hm as [Hm1 Hm2].
      destruct (mapM (foreachTensorInplace_elt f) elts (with_jitStack js w0))
        as [[l|e|y] w']; simpl in *; [by destruct (Hm1 l)|subst; split; eauto..].
  - simpl. split; eauto.
  - simpl. unfold_monad. by rewrite list_insert_id.
Qed.

Lemma loop_spec (f : Tensor → M World Tensor) w0 :
  reads_no_args f →
  ∀ mid pre post,
  match mapM (transform_arg (λ t, fst (f t w0))) mid with
  | Some mid' =>
      for_range (length mid) (Z.of_nat (length pre))
        (foreachTensorInplace_body f) (with_jitStack (pre ++ mid ++ post) w0) =
      (Returned tt, with_jitStack (pre ++ mid' ++ post) w0)
  | None =>
      fst (for_range (length mid) (Z.of_nat (length pre))
             (foreachTensorInplace_body f)
             (with_jitStack (pre ++ mid ++ post) w0)) ≠ Returned tt ∧
      ∃ js', snd (for_range (length mid) (Z.of_nat (length pre))
                    (foreachTensorInplace_body f)
                    (with_jitStack (pre ++ mid ++ post) w0))
             = with_jitStack js' w0
  end.
Proof.
  intros Hf. induction mid as [|v mid IH]; intros pre post; [done|].
  change (mapM (transform_arg (λ t, fst (f t w0))) (v :: mid)) with
    (v' ← transform_arg (λ t, fst (f t w0)) v;
     k ← mapM (transform_arg (λ t, fst (f t w0))) mid; mret (v' :: k)).
  simpl length. simpl for_range. cbv [mbind M_bind bind].
  pose proof (body_spec f w0 (pre ++ v :: mid ++ post) (length pre) v Hf) as Hb.
  rewrite list_lookup_middle in Hb by done. specialize (Hb eq_refl).
  destruct (transform_arg _ v) as [v'|]; simpl.
  - simpl in Hb. rewrite Hb.
    rewrite (insert_app_r_alt pre (v :: mid ++ post)), Nat.sub_diag by done.
    simpl insert.
    replace (Z.of_nat (length pre) + 1) with (Z.of_nat (length (pre ++ [v'])))
      by (rewrite length_app; simpl; lia).
    specialize (IH (pre ++ [v']) post).
    rewrite <- !(assoc_L (++)) in IH. simpl in IH.
    destruct (mapM (transform_arg _) mid) as [mid'|]; simpl.
    + rewrite IH. by rewrite <- (assoc_L (++)).
    + done.
  - destruct Hb as [Hb1 Hb2].
    destruct (foreachTensorInplace_body f (Z.of_nat (length pre))
                (with_jitStack (pre ++ v :: mid ++ post) w0))
      as [[[]|e|a] w']; simpl in *; [done|split; eauto..].
Qed.

Lemma foreachTensorInplace_spec (f : Tensor → M World Tensor) w0 pre mid post :
  reads_no_args f →
  match mapM (transform_arg (λ t, fst (f t w0))) mid with
  | Some mid' =>
      foreachTensorInplace (Z.of_nat (length pre))
        (Z.of_nat (length pre) + Z.of_nat (length mid)) f
        (with_jitStack (pre ++ mid ++ post) w0) =
      (Returned tt, with_jitStack (pre ++ mid' ++ post) w0)
  | None =>
      fst (foreachTensorInplace (Z.of_nat (length pre))
             (Z.of_nat (length pre) + Z.of_nat (length mid)) f
             (with_jitStack (pre ++ mid ++ post) w0)) ≠ Returned tt ∧
      ∃ js', snd (foreachTensorInplace (Z.of_nat (length pre))
                    (Z.of_nat (length pre) + Z.of_nat (length mid)) f
                    (with_jitStack (pre ++ mid ++ post) w0))
             = with_jitStack js' w0
  end.
Proof.
  intros Hf. unfold foreachTensorInplace. unfold_monad.
  replace (0 <=? Z.of_nat (length pre)) with true
    by (symmetry; apply Z.leb_le; lia).
  replace (0 <=? Z.of_nat (length pre) + Z.of_nat (length mid)) with true
    by (symmetry; apply Z.leb_le; lia).
  replace (Z.of_nat (length pre) <=? Z.of_nat (length pre) + Z.of_nat (length mid))
    with true by (symmetry; apply Z.leb_le; lia).
  replace (Z.to_nat (Z.of_nat (length pre) + Z.of_nat (length mid)
                     - Z.of_nat (length pre))) with (length mid) by lia.
  apply loop_spec. done.
Qed.

End Walker.

(** *** The closures of the two handlers, tensor by tensor *)

Section Closures.
Context `{DispatchKeys} `{TensorWrapperLevel}.

Lemma materializeGradWrappers_closed r st w :
  materializeGradWrappers r st w =
  if negb (defined r) then (Returned r, w)
  else match last st with
  | None => (Aborted undefined_behaviour, w)
  | Some back =>
      if negb (N.eqb (key_ back) Autograd) then (Returned r, w)
      else match maybeGetTensorWrapper r with
      | None => makeTensorWrapper r (layerId_ back) w
      | Some wrapper =>
          match wrapper_level (flags w) wrapper with
          | None => (Thrown bad_optional_access, w)
          | Some l =>
              if l <=? layerId_ back
              then if l =? layerId_ back then (Returned r, w)
                   else makeTensorWrapper r (layerId_ back) w
              else (Thrown (InternalAssert "escaped?"), w)
          end
      end
  end.
Proof.
  unfold materializeGradWrappers. unfold_monad.
  destruct (defined r) eqn:Hd; simpl; [|done].
  destruct (last st) as [back|]; [|done].
  destruct (negb _); [done|].
  destruct (maybeGetTensorWrapper r) as [wrapper|]; [|done].
  destruct (wrapper_level (flags w) wrapper) as [l|]; [|done].
  destruct (l <=? layerId_ back); simpl; [|done].
  by destruct (l =? layerId_ back).
Qed.

Lemma maybeTransformGradWrappers_closed t w :
  maybeTransformGradWrappers t w =
  materializeGradWrappers (unwrapped_if_dead (flags w) t) (dynamicLayerStack w) w.
Proof.
  unfold maybeTransformGradWrappers. cbv [mbind M_bind bind].
  by rewrite unwrapIfDead_eq.
Qed.

Lemma unwrap_eq cur_level t w :
  unwrap cur_level t w =
  match maybeGetTensorWrapper t with
  | None => (Returned t, w)
  | Some wrapper =>
      match wrapper_level (flags w) wrapper with
      | None => (Thrown bad_optional_access, w)
      | Some l =>
          if l <=? cur_level
          then if l =? cur_level then (Returned (value wrapper), w)
               else (Returned t, w)
          else (Thrown (InternalAssert "tensor_wrapper_level <= cur_level"), w)
      end
  end.
Proof.
  unfold unwrap. unfold_monad. destruct t as [|d|v l h]; simpl; try done.
  destruct (wrapper_level (flags w) _) as [lv|]; [|done].
  destruct (lv <=? cur_level); simpl; [|done].
  by destruct (lv =? cur_level).
Qed.

Lemma wrap_eq cur_level t w :
  wrap cur_level t w =
  if negb (defined t) then (Returned t, w) else makeTensorWrapper t cur_level w.
Proof. unfold wrap. by destruct (negb (defined t)). Qed.

Lemma maybeTransformGradWrappers_reads_no_args :
  reads_no_args maybeTransformGradWrappers.
Proof.
  intros t w js. rewrite !maybeTransformGradWrappers_closed.
  rewrite !materializeGradWrappers_closed. simpl.
  repeat (case_match; simpl; rewrite ?makeTensorWrapper_eq; simpl; try done).
Qed.

Lemma unwrap_reads_no_args cur_level : reads_no_args (unwrap cur_level).
Proof.
  intros t w js. rewrite !unwrap_eq. simpl.
  repeat (case_match; simpl; try done).
Qed.

Lemma wrap_reads_no_args cur_level : reads_no_args (wrap cur_level).
Proof.
  intros t w js. rewrite !wrap_eq. simpl.
  repeat (case_match; simpl; rewrite ?makeTensorWrapper_eq; simpl; try done).
Qed.

Lemma maybeTransformGradWrappers_eq t w top :
  last (dynamicLayerStack w) = Some top →
  key_ top = Autograd →
  maybeTransformGradWrappers t w =
  let r := unwrapped_if_dead (flags w) t in
  if negb (defined r) then (Returned r, w)
  else match maybeGetTensorWrapper r with
       | None => makeTensorWrapper r (layerId_ top) w
       | Some wrapper =>
           match wrapper_level (flags w) wrapper with
           | None => (Thrown bad_optional_access, w)
           | Some l =>
               if l <=? layerId_ top
               then if l =? layerId_ top then (Returned r, w)
                    else makeTensorWrapper r (layerId_ top) w
               else (Thrown (InternalAssert "escaped?"), w)
           end
       end.
Proof.
  intros Htop Hk. rewrite maybeTransformGradWrappers_closed.
  rewrite materializeGradWrappers_closed, Htop, Hk, N.eqb_refl. done.
Qed.

End Closures.

(** *** C2: the front handler wraps its tensor arguments *)

Section FrontWrapping.
Context `{DispatchKeys} `{TensorWrapperLevel}.

Lemma ForceDispatchKeyGuard_eq {A} key_set (body : M World A) w :
  ForceDispatchKeyGuard key_set body w =
  match body (with_tls key_set w) with
  | (Aborted y, w') => (Aborted y, w')
  | (o, w') => (o, with_tls (tls_local_dispatch_key_set w) w')
  end.
Proof.
  unfold ForceDispatchKeyGuard, _force_tls_local_dispatch_key_set, scoped, run_dtor.
  unfold_monad. by destruct (body (with_tls key_set w)) as [[a|e|y] w'].
Qed.

(** Past the mutation check, the front handler of a Differentiation layer
    walks the arguments and, when the walk returns, re-dispatches on the
    walked arguments under a key set of its choosing. *)
Lemma front_after_check schema w top pre args :
  last (dynamicLayerStack w) = Some top →
  key_ top = Autograd →
  jitStack w = pre ++ args →
  length args = length (arguments schema) →
  checkForInvalidMutationOnCaptures schema (dynamicLayerStack w) w
    = (Returned tt, w) →
  match mapM (transform_arg (λ t, fst (maybeTransformGradWrappers t w))) args with
  | Some args' =>
      ∃ selected_keyset, ∀ callBoxed,
        dynamicLayerFrontFallback callBoxed schema w =
        ForceDispatchKeyGuard selected_keyset callBoxed
          (with_jitStack (pre ++ args') w)
  | None =>
      ∀ callBoxed,
        fst (dynamicLayerFrontFallback callBoxed schema w) ≠ Returned tt ∧
        dynamicLayerFrontFallback callBoxed schema w =
        dynamicLayerFrontFallback (mret tt) schema w
  end.
Proof.
  intros Htop Hk Hjs Hlen Hcheck.
  pose proof (foreachTensorInplace_spec maybeTransformGradWrappers w pre args []
                maybeTransformGradWrappers_reads_no_args) as Hwalk.
  rewrite app_nil_r, <- Hjs, with_jitStack_id in Hwalk.
  assert (Z.of_nat (length (jitStack w)) - Z.of_nat (length (arguments schema))
          = Z.of_nat (length pre)) as Hbegin
    by (rewrite Hjs, length_app; lia).
  assert (Z.of_nat (length (jitStack w))
          = Z.of_nat (length pre) + Z.of_nat (length args)) as Hend
    by (rewrite Hjs, length_app; lia).
  assert (∀ cb, dynamicLayerFrontFallback cb schema w =
    match foreachTensorInplace (Z.of_nat (length pre))
            (Z.of_nat (length pre) + Z.of_nat (length args))
            maybeTransformGradWrappers w with
    | (Returned _, w1) =>
        (selected_keyset ← keysetToTurnOnSubsystem (key_ top);
         ForceDispatchKeyGuard
           (if N.eqb (key_ top) kBatchedKey
            then {| included_ := DispatchKeySet.add (included_ selected_keyset)
                                   kVmapModeKey;
                    excluded_ := excluded_ selected_keyset |}
            else selected_keyset) cb) w1
    | (Thrown e, w1) => (Thrown e, w1)
    | (Aborted y, w1) => (Aborted y, w1)
    end) as Hfront.
  { intros cb. unfold dynamicLayerFrontFallback. cbv [mbind M_bind bind get].
    destruct (last_Some (dynamicLayerStack w) top) as [[s Hs] _]; [done|].
    replace (0 <? Z.of_nat (length (dynamicLayerStack w))) with true
      by (symmetry; apply Z.ltb_lt; rewrite Hs, length_app; simpl; lia).
    simpl. rewrite Hcheck, Hbegin, Hend, Htop.
    by destruct (foreachTensorInplace _ _ _ w) as [[[]|e|y] w1]. }
  destruct (mapM _ args) as [args'|].
  - rewrite app_nil_r in Hwalk. rewrite Hwalk in Hfront.
    assert (∃ sel, keysetToTurnOnSubsystem (key_ top)
                     (with_jitStack (pre ++ args') w)
                   = (Returned sel, with_jitStack (pre ++ args') w)) as [sel Hsel].
    { unfold keysetToTurnOnSubsystem, zeroedOutDynamicLayerKeyset,
        keysForEnteringDynamicLayer. unfold_monad.
      rewrite Hk, N.eqb_refl. destruct (N.eqb Autograd kBatchedKey); eauto. }
    eexists. intros cb. rewrite Hfront. cbv [mbind M_bind bind]. rewrite Hsel.
    reflexivity.
  - destruct Hwalk as [Hw1 Hw2]. intros cb. rewrite !Hfront.
    destruct (foreachTensorInplace _ _ _ w) as [[[]|e|y] w1]; simpl in *; done.
Qed.

(** C2 (amended).  Front handler wrapping, with a non-empty stack whose top
    layer is Differentiation-kind.  Let r be a tensor argument after a dead
    wrapper has been replaced by its underlying value.  If r is wrapped at a
    level strictly below the top level it is wrapped anew by
    [makeTensorWrapper] at the top level; if r is wrapped at exactly the top
    level it is returned unchanged; if r is a defined unwrapped tensor it is
    wrapped by [makeTensorWrapper] at the top level; if r is wrapped at a
    level strictly above the top level the internal assertion fails; and if
    r is an undefined tensor it is returned unchanged, not wrapped.
    [makeTensorWrapper] yields the wrapper at the top level when the registry
    has that level.  The handler does this for every tensor argument of the
    call: past the mutation check it either re-dispatches on the argument
    range transformed in this way, or fails without re-dispatching. *)
Theorem front_wrapping (w : World) (top : DynamicLayer) (t : Tensor) :
  last (dynamicLayerStack w) = Some top →
  key_ top = Autograd →
  (∀ l, wrapped_at (flags w) (unwrapped_if_dead (flags w) t) l →
        l < layerId_ top →
        maybeTransformGradWrappers t w =
        makeTensorWrapper (unwrapped_if_dead (flags w) t) (layerId_ top) w) ∧
  (wrapped_at (flags w) (unwrapped_if_dead (flags w) t) (layerId_ top) →
   maybeTransformGradWrappers t w =
   (Returned (unwrapped_if_dead (flags w) t), w)) ∧
  (maybeGetTensorWrapper (unwrapped_if_dead (flags w) t) = None →
   defined (unwrapped_if_dead (flags w) t) = true →
   maybeTransformGradWrappers t w =
   makeTensorWrapper (unwrapped_if_dead (flags w) t) (layerId_ top) w) ∧
  (∀ l, wrapped_at (flags w) (unwrapped_if_dead (flags w) t) l →
        layerId_ top < l →
        maybeTransformGradWrappers t w =
        (Thrown (InternalAssert "escaped?"), w)) ∧
  (defined (unwrapped_if_dead (flags w) t) = false →
   maybeTransformGradWrappers t w =
   (Returned (unwrapped_if_dead (flags w) t), w)) ∧
  (∀ h, kDynMetaDataSingleton w !! layerId_ top = Some h →
        makeTensorWrapper (unwrapped_if_dead (flags w) t) (layerId_ top) w =
        (Returned (Wrapped (unwrapped_if_dead (flags w) t) (layerId_ top) h), w)) ∧
  (∀ schema pre args,
     jitStack w = pre ++ args →
     length args = length (arguments schema) →
     checkForInvalidMutationOnCaptures schema (dynamicLayerStack w) w
       = (Returned tt, w) →
     match mapM (transform_arg (λ t, fst (maybeTransformGradWrappers t w))) args with
     | Some args' =>
         ∃ w_in,
           jitStack w_in = pre ++ args' ∧
           dynamicLayerStack w_in = dynamicLayerStack w ∧
           ∀ callBoxed y w',
             callBoxed w_in = (Aborted y, w') →
             dynamicLayerFrontFallback callBoxed schema w = (Aborted y, w')
     | None =>
         ∀ callBoxed,
           fst (dynamicLayerFrontFallback callBoxed schema w) ≠ Returned tt ∧
           dynamicLayerFrontFallback callBoxed schema w =
           dynamicLayerFrontFallback (mret tt) schema w
     end).
Proof.
  intros Htop Hk.
  pose proof (maybeTransformGradWrappers_eq t w top Htop Hk) as Heq.
  cbv zeta in Heq. set (r := unwrapped_if_dead (flags w) t) in *.
  split; [|split; [|split; [|split; [|split; [|split]]]]].
  - intros l (wrapper & Hw & Hl) Hlt. rewrite Heq, Hw, Hl.
    assert (defined r = true) as -> by (by destruct r).
    simpl. replace (l <=? layerId_ top) with true by (symmetry; apply Z.leb_le; lia).
    by replace (l =? layerId_ top) with false by (symmetry; apply Z.eqb_neq; lia).
  - intros (wrapper & Hw & Hl). rewrite Heq, Hw, Hl.
    assert (defined r = true) as -> by (by destruct r).
    simpl. by rewrite Z.leb_refl, Z.eqb_refl.
  - intros Hw Hd. by rewrite Heq, Hw, Hd.
  - intros l (wrapper & Hw & Hl) Hlt. rewrite Heq, Hw, Hl.
    assert (defined r = true) as -> by (by destruct r).
    simpl. by replace (l <=? layerId_ top) with false
      by (symmetry; apply Z.leb_gt; lia).
  - intros Hd. by rewrite Heq, Hd.
  - intros h Hh. by rewrite makeTensorWrapper_eq, Hh.
  - intros schema pre args Hjs Hlen Hcheck.
    pose proof (front_after_check schema w top pre args
                  Htop Hk Hjs Hlen Hcheck) as Hfront.
    destruct (mapM _ args) as [args'|]; [|done].
    destruct Hfront as [sel Hsel].
    exists (with_tls sel (with_jitStack (pre ++ args') w)).
    split; [done|]. split; [done|].
    intros callBoxed y w' Hcall.
    by rewrite Hsel, ForceDispatchKeyGuard_eq, Hcall.
Qed.

End FrontWrapping.

Lemma front_wrapping_witness :
  last (dynamicLayerStack grad_world) = Some grad_layer ∧
  key_ grad_layer = @Autograd example_keys ∧
  maybeTransformGradWrappers (H := example_keys) (H0 := level_while_alive)
    (Plain 5) grad_world =
  (Returned (Wrapped (Plain 5) 1 0%nat), grad_world).
Proof.
  assert (last (dynamicLayerStack grad_world) = Some grad_layer) as H1
    by (vm_compute; reflexivity).
  assert (key_ grad_layer = @Autograd example_keys) as H2 by reflexivity.
  split; [exact H1|]. split; [exact H2|].
  pose proof (front_wrapping (H := example_keys) (H0 := level_while_alive)
                grad_world grad_layer (Plain 5) H1 H2)
    as (_ & _ & Hraw & _ & _ & Hmake & _).
  rewrite (Hraw eq_refl eq_refl). apply (Hmake 0%nat). vm_compute. reflexivity.
Defined.

(** C2 as the specification words it, "an unwrapped argument is freshly
    wrapped at the current top level", fails for the undefined tensor: it is
    a tensor argument of the call, it is not a wrapper, and the front handler
    of a Differentiation layer passes it on as it is. *)
Lemma front_wrapping_counterexample :
  last (dynamicLayerStack grad_world) = Some grad_layer ∧
  key_ grad_layer = @Autograd example_keys ∧
  jitStack grad_world !! 0%nat = Some (IVTensor UndefinedTensor) ∧
  maybeGetTensorWrapper (unwrapped_if_dead (flags grad_world) UndefinedTensor)
    = None ∧
  maybeTransformGradWrappers (H := example_keys) (H0 := level_while_alive)
    UndefinedTensor grad_world = (Returned UndefinedTensor, grad_world) ∧
  ¬ (∃ l, wrapped_at (H := level_while_alive)
            (flags grad_world) UndefinedTensor l) ∧
  jitStack (snd (dynamicLayerFrontFallback (H := example_keys)
                   (H0 := level_while_alive) (mret tt) mul_schema grad_world))
  = [IVTensor UndefinedTensor; IVTensor (Wrapped (Plain 5) 1 0%nat)].
Proof.
  split; [vm_compute; reflexivity|]. split; [reflexivity|].
  split; [reflexivity|]. split; [reflexivity|].
  split; [vm_compute; reflexivity|].
  split; [|vm_compute; reflexivity].
  intros (l & wrapper & Hw & _). discriminate Hw.
Qed.

Lemma captured_mutation_check_witness :
  last (dynamicLayerStack grad_world) = Some grad_layer ∧
  at_index (jitStack grad_world)
    (Z.of_nat (length (jitStack grad_world))
     - Z.of_nat (length (arguments add__schema)))
    = Some (IVTensor UndefinedTensor) ∧
  returns_alias_arguments add__schema ∧
  isInplaceOp_spec add__schema ∧
  dynamicLayerFrontFallback (H := example_keys) (H0 := level_while_alive)
    (mret tt) add__schema grad_world =
  (Thrown (CheckFailed (captured_mutation_message add__schema)), grad_world).
Proof.
  assert (last (dynamicLayerStack grad_world) = Some grad_layer) as H1
    by (vm_compute; reflexivity).
  assert (at_index (jitStack grad_world)
            (Z.of_nat (length (jitStack grad_world))
             - Z.of_nat (length (arguments add__schema)))
          = Some (IVTensor UndefinedTensor)) as H2 by reflexivity.
  assert (returns_alias_arguments add__schema) as H3.
  { intros r ar Hr Har. apply list_elem_of_singleton in Hr as ->.
    injection Har as <-. exists write_alias, {| isWrite := true; beforeSets := ["a"] |}.
    split; [by left|]. split; [done|]. exists "a". by split; left. }
  pose proof (captured_mutation_check (H := example_keys)
                (H0 := level_while_alive) add__schema grad_world grad_layer
                (IVTensor UndefinedTensor) H1 H2 H3) as (Hin & Htensor & _).
  assert (isInplaceOp_spec add__schema) as H4 by (by apply Hin).
  split; [exact H1|]. split; [exact H2|]. split; [exact H3|]. split; [exact H4|].
  apply (proj2 (proj2 (proj2 (Htensor UndefinedTensor eq_refl)))).
  split; [reflexivity|]. split; [exact H4|].
  intros (wrapper & Hw & _). discriminate Hw.
Defined.

(** C3 as the specification words it fails in two ways.  Under a
    Differentiation layer, the in-place operation [add_] called with a first
    argument that is not a tensor, hence not wrapped at the top level, does
    not raise the captured-mutation error: the front handler fails with the
    internal assertion "Expected Tensor".  And the schema
    [f(Tensor(a!) self, Tensor other) -> Tensor(b!)], whose return does not
    alias the first argument and which the specification's definition
    therefore does not classify as in-place, is classified as in-place by
    [isInplaceOp], and the front handler raises the captured-mutation error
    for it. *)
Lemma captured_mutation_check_counterexample :
  (last (dynamicLayerStack scalar_first_world) = Some grad_layer ∧
   key_ grad_layer = @Autograd example_keys ∧
   isInplaceOp_spec add__schema ∧
   at_index (jitStack scalar_first_world)
     (Z.of_nat (length (jitStack scalar_first_world))
      - Z.of_nat (length (arguments add__schema))) = Some (IVOther 3) ∧
   dynamicLayerFrontFallback (H := example_keys) (H0 := level_while_alive)
     (mret tt) add__schema scalar_first_world =
   (Thrown (InternalAssert "Expected Tensor"), scalar_first_world)) ∧
  (last (dynamicLayerStack grad_world) = Some grad_layer ∧
   ¬ isInplaceOp_spec renamed_return_schema ∧
   isInplaceOp renamed_return_schema = true ∧
   dynamicLayerFrontFallback (H := example_keys) (H0 := level_while_alive)
     (mret tt) renamed_return_schema grad_world =
   (Thrown (CheckFailed (captured_mutation_message renamed_return_schema)),
    grad_world)).
Proof.
  split.
  - split; [vm_compute; reflexivity|]. split; [reflexivity|]. split.
    + split; [reflexivity|]. split; [reflexivity|].
      exists write_alias, {| isWrite := true; beforeSets := ["a"] |}.
      split; [reflexivity|]. split; [reflexivity|]. split; [reflexivity|].
      split; [by repeat constructor|].
      exists write_alias, {| isWrite := true; beforeSets := ["a"] |}.
      split; [reflexivity|]. split; [reflexivity|]. split; [reflexivity|].
      exists "a". by split; left.
    + split; [reflexivity|]. vm_compute. reflexivity.
  - split; [vm_compute; reflexivity|]. split; [|split; [reflexivity|]].
    + intros (_ & _ & fa & a & Hfa & Ha & _ & _ & r & ar & Hr & Har & _ & Hsame).
      simpl in Hfa, Hr. injection Hfa as <-. injection Hr as <-.
      simpl in Ha, Har. injection Ha as <-. injection Har as <-.
      destruct Hsame as (set & Hb & Ha). simpl in Hb, Ha.
      apply list_elem_of_singleton in Hb, Ha. congruence.
    + vm_compute. reflexivity.
Qed.

(** *** The back handler, taken apart *)

Section BackHandler.
Context `{DispatchKeys} `{TensorWrapperLevel}.

Lemma bind_eq {A B} (m : M World A) (k : A → M World B) w :
  (m ≫= k) w =
  match m w with
  | (Returned a, w') => k a w'
  | (Thrown e, w') => (Thrown e, w')
  | (Aborted y, w') => (Aborted y, w')
  end.
Proof. reflexivity. Qed.

Lemma get_bind {B} (k : World → M World B) w : (get ≫= k) w = k w w.
Proof. reflexivity. Qed.

Lemma AutoGradMode_eq {A} enabled (body : M World A) w :
  AutoGradMode enabled body w =
  match body (with_GradMode enabled w) with
  | (Aborted y, w') => (Aborted y, w')
  | (o, w') => (o, with_GradMode (GradMode_enabled w) w')
  end.
Proof.
  unfold AutoGradMode, scoped, run_dtor. unfold_monad.
  by destruct (body (with_GradMode enabled w)) as [[a|e|y] w'].
Qed.

Lemma AutoFwGradMode_eq {A} enabled (body : M World A) w :
  AutoFwGradMode enabled body w =
  match body (with_FwGradMode enabled w) with
  | (Aborted y, w') => (Aborted y, w')
  | (o, w') => (o, with_FwGradMode (FwGradMode_enabled w) w')
  end.
Proof.
  unfold AutoFwGradMode, scoped, run_dtor. unfold_monad.
  by destruct (body (with_FwGradMode enabled w)) as [[a|e|y] w'].
Qed.

Lemma back_tls_guard_eq {A} tls_before (body : M World A) w :
  back_tls_guard tls_before body w =
  if Nat.eqb (length (dynamicLayerStack w)) 0
  then match body (with_tls tls_before w) with
       | (Aborted y, w') => (Aborted y, w')
       | (o, w') => (o, with_tls (tls_local_dispatch_key_set w) w')
       end
  else body (with_tls
               {| included_ := DispatchKeySet.add
                                 (included_ (tls_local_dispatch_key_set w))
                                 kDynamicLayerFrontModeKey;
                  excluded_ := DispatchKeySet.remove
                                 (excluded_ (tls_local_dispatch_key_set w))
                                 kDynamicLayerFrontModeKey |} w).
Proof.
  unfold back_tls_guard. cbv [mbind M_bind bind get].
  destruct (Nat.eqb (length (dynamicLayerStack w)) 0).
  - apply ForceDispatchKeyGuard_eq.
  - reflexivity.
Qed.

Lemma WithoutTop_eq {A} (body : M World A) w top :
  last (dynamicLayerStack w) = Some top →
  key_ top ≠ Undefined →
  WithoutTop body w =
  match body (back_popped_world w) with
  | (Aborted y, w') => (Aborted y, w')
  | (o, w') =>
      match pushDynamicLayer top w' with
      | (Returned _, w'') => (o, w'')
      | (Thrown _, w'') => (Aborted std_terminate, w'')
      | (Aborted y, w'') => (Aborted y, w'')
      end
  end.
Proof.
  intros [s Hs]%last_Some Hk. unfold WithoutTop. cbv [mbind M_bind bind].
  rewrite (popDynamicLayer_snoc s top) by done.
  apply N.eqb_neq in Hk. rewrite Hk.
  unfold back_popped_world. rewrite Hs, removelast_last.
  unfold scoped, run_dtor. cbv [mbind mret M_bind M_ret bind ret].
  destruct (body _) as [[a|e|y] w']; [| |done];
    by destruct (pushDynamicLayer top w') as [[?|?|?] ?].
Qed.

Lemma GradMode_popped w1 :
  GradMode_enabled (back_popped_world w1) = GradMode_enabled w1.
Proof. unfold back_popped_world. cbv zeta. by destruct (Nat.eqb _ 0). Qed.

Lemma FwGradMode_popped w1 :
  FwGradMode_enabled (back_popped_world w1) = FwGradMode_enabled w1.
Proof. unfold back_popped_world. cbv zeta. by destruct (Nat.eqb _ 0). Qed.

Lemma back_popped_world_eq w1 :
  back_popped_world w1 =
  (if Nat.eqb (length (removelast (dynamicLayerStack w1))) 0
   then set_front_back false else id)
    (with_dynamicLayerStack (removelast (dynamicLayerStack w1)) w1).
Proof. reflexivity. Qed.

Lemma stack_popped w1 :
  dynamicLayerStack (back_popped_world w1) = removelast (dynamicLayerStack w1).
Proof. rewrite back_popped_world_eq. by destruct (Nat.eqb _ 0). Qed.

Lemma jitStack_popped w1 : jitStack (back_popped_world w1) = jitStack w1.
Proof. rewrite back_popped_world_eq. by destruct (Nat.eqb _ 0). Qed.

Lemma jitStack_call_world top w1 :
  jitStack (back_call_world top w1) = jitStack w1.
Proof.
  unfold back_call_world. cbv zeta. simpl.
  destruct (fw_grad_override top), (grad_override top); simpl;
    apply jitStack_popped.
Qed.

Lemma stack_call_world top w1 :
  dynamicLayerStack (back_call_world top w1) = removelast (dynamicLayerStack w1).
Proof.
  unfold back_call_world. cbv zeta. simpl.
  destruct (fw_grad_override top), (grad_override top); simpl;
    apply stack_popped.
Qed.

(** Everything the back handler does around the re-dispatched call. *)
Lemma back_decompose callBoxed schema w top w1 :
  last (dynamicLayerStack w) = Some top →
  key_ top ≠ Undefined →
  (key_ top = Autograd →
   is_Some (prevGradMode_ top) ∨ is_Some (prevFwdGradMode_ top)) →
  (if N.eqb (key_ top) Autograd
   then back_copy_and_unwrap_args schema (layerId_ top)
   else mret tt) w = (Returned tt, w1) →
  dynamicLayerStack w1 = dynamicLayerStack w →
  dynamicLayerBackFallback callBoxed schema w =
  back_exit top w1
    ((callBoxed;;
      if N.eqb (key_ top) Autograd
      then back_wrap_results_and_drop_args schema (layerId_ top)
      else mret tt) (back_call_world top w1)).
Proof.
  intros Htop Hk Hmodes Hsteps Hstack.
  unfold dynamicLayerBackFallback. rewrite get_bind, Htop, bind_eq.
  assert ((if N.eqb (key_ top) Autograd
           then TORCH_INTERNAL_ASSERT
                  (bool_decide (is_Some (prevGradMode_ top))
                   || bool_decide (is_Some (prevFwdGradMode_ top)))
                  "prev_grad_mode.has_value() || prev_fwd_grad_mode.has_value()"
           else mret tt) w = (Returned tt, w)) as ->.
  { destruct (N.eqb_spec (key_ top) Autograd) as [Ha|]; [|done].
    unfold TORCH_INTERNAL_ASSERT.
    destruct (Hmodes Ha) as [Hm|Hm].
    - by rewrite (bool_decide_eq_true_2 _ Hm).
    - rewrite (bool_decide_eq_true_2 _ Hm). by rewrite orb_true_r. }
  rewrite bind_eq, Hsteps.
  rewrite (WithoutTop_eq _ w1 top) by (by rewrite ?Hstack).
  unfold back_exit, back_call_world, back_restore.
  fold (grad_override top). fold (fw_grad_override top). cbv zeta.
  set (body := callBoxed ≫= _).
  rewrite <- (GradMode_popped w1), <- (FwGradMode_popped w1).
  set (w2 := back_popped_world w1).
  destruct (grad_override top), (fw_grad_override top); unfold id;
    rewrite ?AutoGradMode_eq, ?AutoFwGradMode_eq, back_tls_guard_eq; simpl;
    destruct (Nat.eqb (length (dynamicLayerStack w2)) 0);
    by destruct (body _) as [[[]|e|y] w'].
Qed.

End BackHandler.

(** *** C4: the back handler unwraps a copy of the arguments *)

Section BackUnwrapping.
Context `{DispatchKeys} `{TensorWrapperLevel}.

Lemma copy_loop w0 pre args :
  ∀ (n k : nat), (k + n = length args)%nat →
  for_range n (Z.of_nat k) (back_push_copy (Z.of_nat (length pre)))
    (with_jitStack (pre ++ args ++ take k args) w0) =
  (Returned tt, with_jitStack (pre ++ args ++ args) w0).
Proof.
  induction n as [|n IH]; intros k Hk.
  - simpl. unfold_monad. by rewrite take_ge by lia.
  - simpl for_range. rewrite bind_eq. unfold back_push_copy at 1.
    rewrite get_bind.
    change (jitStack (with_jitStack (pre ++ args ++ take k args) w0))
      with (pre ++ args ++ take k args).
    replace (Z.of_nat (length pre) + Z.of_nat k)
      with (Z.of_nat (length pre + k)) by lia.
    rewrite at_index_of_nat, lookup_app_r by lia.
    replace (length pre + k - length pre)%nat with k by lia.
    destruct (lookup_lt_is_Some_2 args k) as [v Hv]; [lia|].
    rewrite lookup_app_l by lia. rewrite Hv.
    unfold modify. cbv beta.
    replace (Z.of_nat k + 1) with (Z.of_nat (S k)) by lia.
    rewrite <- (IH (S k)) by lia.
    rewrite (take_S_r _ _ _ Hv), <- !(assoc_L (++)). done.
Qed.

Lemma back_copy_and_unwrap_args_spec schema cur_level w pre args :
  jitStack w = pre ++ args →
  length args = length (arguments schema) →
  match mapM (transform_arg (λ t, fst (unwrap cur_level t w))) args with
  | Some dup =>
      back_copy_and_unwrap_args schema cur_level w =
      (Returned tt, with_jitStack (pre ++ args ++ dup) w)
  | None =>
      fst (back_copy_and_unwrap_args schema cur_level w) ≠ Returned tt
  end.
Proof.
  intros Hjs Hlen. unfold back_copy_and_unwrap_args.
  rewrite get_bind, bind_eq.
  replace (Z.of_nat (length (jitStack w)) - Z.of_nat (length (arguments schema)))
    with (Z.of_nat (length pre)) by (rewrite Hjs, length_app; lia).
  pose proof (copy_loop w pre args (length args) 0 eq_refl) as Hcopy.
  rewrite take_0, app_nil_r, <- Hjs, with_jitStack_id, Hlen in Hcopy.
  change (Z.of_nat 0) with 0 in Hcopy.
  rewrite Hcopy, get_bind.
  change (jitStack (with_jitStack (pre ++ args ++ args) w))
    with (pre ++ args ++ args).
  pose proof (foreachTensorInplace_spec (unwrap cur_level) w (pre ++ args)
                args [] (unwrap_reads_no_args cur_level)) as Hwalk.
  rewrite app_nil_r, <- (assoc_L (++)) in Hwalk.
  replace (Z.of_nat (length (pre ++ args ++ args))
           - Z.of_nat (length (arguments schema)))
    with (Z.of_nat (length (pre ++ args)))
    by (rewrite !length_app; lia).
  replace (Z.of_nat (length (pre ++ args ++ args)))
    with (Z.of_nat (length (pre ++ args)) + Z.of_nat (length args))
    by (rewrite !length_app; lia).
  destruct (mapM _ args) as [dup|].
  - by rewrite app_nil_r, <- (assoc_L (++)) in Hwalk.
  - by destruct Hwalk.
Qed.

(** Steps 1 and 2, when they return, have changed the boxed call stack only. *)
Lemma back_steps_frame schema top w w1 :
  (length (arguments schema) ≤ length (jitStack w))%nat →
  (if N.eqb (key_ top) Autograd
   then back_copy_and_unwrap_args schema (layerId_ top)
   else mret tt) w = (Returned tt, w1) →
  ∃ js, w1 = with_jitStack js w.
Proof.
  intros Hlen Hsteps. destruct (N.eqb (key_ top) Autograd).
  - pose proof (back_copy_and_unwrap_args_spec schema (layerId_ top) w
                  (take (length (jitStack w) - length (arguments schema))
                     (jitStack w))
                  (drop (length (jitStack w) - length (arguments schema))
                     (jitStack w))) as Hspec.
    rewrite take_drop, length_drop in Hspec.
    specialize (Hspec eq_refl). 
    assert ((length (jitStack w)
             - (length (jitStack w) - length (arguments schema)))%nat
            = length (arguments schema)) as Hn by lia.
    specialize (Hspec Hn).
    destruct (mapM _ _) as [dup|].
    + rewrite Hspec in Hsteps. injection Hsteps as <-. eauto.
    + rewrite Hsteps in Hspec. done.
  - injection Hsteps as <-. exists (jitStack w). by rewrite with_jitStack_id.
Qed.

(** C4 (amended).  Back handler unwrapping, with a Differentiation-kind top
    layer at level L on a call whose arguments are the last entries of the
    boxed call stack.  The [unwrap] closure replaces a wrapper whose level
    equals L by its underlying value, returns an unwrapped tensor (the
    undefined one included) and a wrapper at a level below L unchanged, and
    fails the internal assertion on a wrapper at a level above L.  Steps 1
    and 2 append a copy of the argument range to the call stack and apply
    the closure to the tensors of the copy only: they return with the
    originals in place followed by the transformed copy, or they do not
    return; in the first case the handler re-dispatches on that call stack,
    in the second it fails without re-dispatching. *)
Theorem back_unwrapping
    (schema : FunctionSchema) (w : World) (top : DynamicLayer)
    (pre args : list IValue) :
  last (dynamicLayerStack w) = Some top →
  key_ top = Autograd →
  key_ top ≠ Undefined →
  is_Some (prevGradMode_ top) ∨ is_Some (prevFwdGradMode_ top) →
  jitStack w = pre ++ args →
  length args = length (arguments schema) →
  (∀ t wrapper,
     maybeGetTensorWrapper t = Some wrapper →
     wrapper_level (flags w) wrapper = Some (layerId_ top) →
     unwrap (layerId_ top) t w = (Returned (value wrapper), w)) ∧
  (∀ t, maybeGetTensorWrapper t = None →
        unwrap (layerId_ top) t w = (Returned t, w)) ∧
  (∀ t l, wrapped_at (flags w) t l → l < layerId_ top →
          unwrap (layerId_ top) t w = (Returned t, w)) ∧
  (∀ t l, wrapped_at (flags w) t l → layerId_ top < l →
          unwrap (layerId_ top) t w =
          (Thrown (InternalAssert "tensor_wrapper_level <= cur_level"), w)) ∧
  match mapM (transform_arg (λ t, fst (unwrap (layerId_ top) t w))) args with
  | Some dup =>
      back_copy_and_unwrap_args schema (layerId_ top) w =
        (Returned tt, with_jitStack (pre ++ args ++ dup) w) ∧
      ∃ w_in,
        jitStack w_in = pre ++ args ++ dup ∧
        ∀ callBoxed y w',
          callBoxed w_in = (Aborted y, w') →
          dynamicLayerBackFallback callBoxed schema w = (Aborted y, w')
  | None =>
      fst (back_copy_and_unwrap_args schema (layerId_ top) w) ≠ Returned tt ∧
      ∀ callBoxed,
        fst (dynamicLayerBackFallback callBoxed schema w) ≠ Returned tt ∧
        dynamicLayerBackFallback callBoxed schema w =
        dynamicLayerBackFallback (mret tt) schema w
  end.
Proof.
  intros Htop Hk Hundef Hmodes Hjs Hlen.
  split; [|split; [|split; [|split]]].
  - intros t wrapper Hw Hl. by rewrite unwrap_eq, Hw, Hl, Z.leb_refl, Z.eqb_refl.
  - intros t Hw. by rewrite unwrap_eq, Hw.
  - intros t l (wrapper & Hw & Hl) Hlt. rewrite unwrap_eq, Hw, Hl.
    replace (l <=? layerId_ top) with true by (symmetry; apply Z.leb_le; lia).
    by replace (l =? layerId_ top) with false by (symmetry; apply Z.eqb_neq; lia).
  - intros t l (wrapper & Hw & Hl) Hlt. rewrite unwrap_eq, Hw, Hl.
    by replace (l <=? layerId_ top) with false by (symmetry; apply Z.leb_gt; lia).
  - pose proof (back_copy_and_unwrap_args_spec schema (layerId_ top) w pre args
                  Hjs Hlen) as Hspec.
    destruct (mapM _ args) as [dup|].
    + split; [done|].
      exists (back_call_world top (with_jitStack (pre ++ args ++ dup) w)).
      split; [by rewrite jitStack_call_world|].
      intros callBoxed y w' Hcall.
      rewrite (back_decompose callBoxed schema w top
                 (with_jitStack (pre ++ args ++ dup) w)); try done.
      * by rewrite bind_eq, Hcall.
      * by rewrite Hk, N.eqb_refl.
    + split; [done|]. intros callBoxed.
      assert (∀ cb, dynamicLayerBackFallback cb schema w =
                    back_copy_and_unwrap_args schema (layerId_ top) w) as Hfail.
      { intros cb. unfold dynamicLayerBackFallback.
        rewrite get_bind, Htop, bind_eq, Hk, N.eqb_refl.
        unfold TORCH_INTERNAL_ASSERT.
        assert (bool_decide (is_Some (prevGradMode_ top))
                || bool_decide (is_Some (prevFwdGradMode_ top)) = true) as ->.
        { destruct Hmodes as [Hm|Hm];
            rewrite (bool_decide_eq_true_2 _ Hm); [done|apply orb_true_r]. }
        unfold_monad.
        destruct (back_copy_and_unwrap_args schema (layerId_ top) w)
          as [[[]|e|y] w1]; [done|done..]. }
      by rewrite !Hfail.
Qed.

End BackUnwrapping.

Lemma back_unwrapping_witness :
  last (dynamicLayerStack nested_world) = Some nested_top ∧
  key_ nested_top = @Autograd example_keys ∧
  key_ nested_top ≠ Undefined ∧
  (is_Some (prevGradMode_ nested_top) ∨ is_Some (prevFwdGradMode_ nested_top)) ∧
  jitStack nested_world =
    [] ++ [IVTensor (Wrapped (Plain 5) 2 1%nat); IVTensor (Plain 6)] ∧
  length [IVTensor (Wrapped (Plain 5) 2 1%nat); IVTensor (Plain 6)]
    = length (arguments mul_schema) ∧
  back_copy_and_unwrap_args (H0 := level_while_alive) mul_schema 2 nested_world =
  (Returned tt,
   with_jitStack
     ([] ++ [IVTensor (Wrapped (Plain 5) 2 1%nat); IVTensor (Plain 6)]
         ++ [IVTensor (Plain 5); IVTensor (Plain 6)]) nested_world).
Proof.
  assert (last (dynamicLayerStack nested_world) = Some nested_top) as H1
    by (vm_compute; reflexivity).
  assert (key_ nested_top = @Autograd example_keys) as H2 by reflexivity.
  assert (key_ nested_top ≠ Undefined) as H3 by done.
  assert (is_Some (prevGradMode_ nested_top)
          ∨ is_Some (prevFwdGradMode_ nested_top)) as H4 by (left; eauto).
  assert (jitStack nested_world =
          [] ++ [IVTensor (Wrapped (Plain 5) 2 1%nat); IVTensor (Plain 6)]) as H5
    by reflexivity.
  assert (length [IVTensor (Wrapped (Plain 5) 2 1%nat); IVTensor (Plain 6)]
          = length (arguments mul_schema)) as H6 by reflexivity.
  repeat (split; [assumption|]).
  pose proof (back_unwrapping (H := example_keys) (H0 := level_while_alive)
                mul_schema nested_world nested_top []
                [IVTensor (Wrapped (Plain 5) 2 1%nat); IVTensor (Plain 6)]
                H1 H2 H3 H4 H5 H6) as (_ & _ & _ & _ & Hsteps).
  exact (proj1 Hsteps).
Defined.

(** C4 as the specification words it, "arguments wrapped at other levels
    ... pass through unchanged", fails above the top level: with a
    Differentiation layer at level 1 on top and a live wrapper of level 2 as
    first argument, the closure fails its assertion and so does the
    handler. *)
Lemma back_unwrapping_counterexample :
  last (dynamicLayerStack inner_world) = Some grad_layer ∧
  key_ grad_layer = @Autograd example_keys ∧
  jitStack inner_world !! 0%nat = Some (IVTensor (Wrapped (Plain 5) 2 1%nat)) ∧
  wrapped_at (H := level_while_alive) (flags inner_world)
    (Wrapped (Plain 5) 2 1%nat) 2 ∧
  2 ≠ layerId_ grad_layer ∧
  unwrap (H0 := level_while_alive) (layerId_ grad_layer)
    (Wrapped (Plain 5) 2 1%nat) inner_world =
  (Thrown (InternalAssert "tensor_wrapper_level <= cur_level"), inner_world) ∧
  fst (dynamicLayerBackFallback (H := example_keys) (H0 := level_while_alive)
         (mret tt) mul_schema inner_world) =
  Thrown (InternalAssert "tensor_wrapper_level <= cur_level").
Proof.
  split; [vm_compute; reflexivity|]. split; [reflexivity|].
  split; [reflexivity|].
  split; [eexists; split; [reflexivity|vm_compute; reflexivity]|].
  split; [done|].
  split; vm_compute; reflexivity.
Qed.

(** *** C5: the key set the back handler re-dispatches under *)

Section BackConfiguration.
Context `{DispatchKeys} `{TensorWrapperLevel}.

Lemma tls_call_world top w1 :
  tls_local_dispatch_key_set (back_call_world top w1) =
  if Nat.eqb (length (removelast (dynamicLayerStack w1))) 0
  then prevLocalDispatchKeySet_ top
  else {| included_ := DispatchKeySet.add
                         (included_ (tls_local_dispatch_key_set w1))
                         kDynamicLayerFrontModeKey;
          excluded_ := DispatchKeySet.remove
                         (excluded_ (tls_local_dispatch_key_set w1))
                         kDynamicLayerFrontModeKey |}.
Proof.
  unfold back_call_world. cbv zeta. simpl. rewrite stack_popped.
  destruct (Nat.eqb (length (removelast (dynamicLayerStack w1))) 0) eqn:He;
    [done|].
  rewrite back_popped_world_eq, He.
  by destruct (fw_grad_override top), (grad_override top).
Qed.

(** C5.  Back handler configuration choice and round-trip.  Once steps 1
    and 2 have returned, the back handler re-issues the call in the world
    [back_call_world]: there the top layer is off the stack; if the stack is
    then empty the thread's dispatch key set is exactly the one captured in
    the layer when it was created, so for a layer created by
    [initAndPushDynamicLayer] on an empty stack it is, bit for bit, the key
    set from before that first push; otherwise it is the current key set
    with the front mode key included and not excluded, which sends the next
    dispatch to the front handler. *)
Theorem back_configuration
    (schema : FunctionSchema) (w w1 : World) (top : DynamicLayer) :
  last (dynamicLayerStack w) = Some top →
  key_ top ≠ Undefined →
  (key_ top = Autograd →
   is_Some (prevGradMode_ top) ∨ is_Some (prevFwdGradMode_ top)) →
  (length (arguments schema) ≤ length (jitStack w))%nat →
  (if N.eqb (key_ top) Autograd
   then back_copy_and_unwrap_args schema (layerId_ top)
   else mret tt) w = (Returned tt, w1) →
  (∀ callBoxed y w',
     callBoxed (back_call_world top w1) = (Aborted y, w') →
     dynamicLayerBackFallback callBoxed schema w = (Aborted y, w')) ∧
  (∀ cb1 cb2,
     cb1 (back_call_world top w1) = cb2 (back_call_world top w1) →
     dynamicLayerBackFallback cb1 schema w = dynamicLayerBackFallback cb2 schema w) ∧
  dynamicLayerStack (back_call_world top w1) = removelast (dynamicLayerStack w) ∧
  (removelast (dynamicLayerStack w) = [] →
   tls_local_dispatch_key_set (back_call_world top w1) =
   prevLocalDispatchKeySet_ top) ∧
  (removelast (dynamicLayerStack w) ≠ [] →
   tls_local_dispatch_key_set (back_call_world top w1) =
   {| included_ := DispatchKeySet.add
                     (included_ (tls_local_dispatch_key_set w))
                     kDynamicLayerFrontModeKey;
      excluded_ := DispatchKeySet.remove
                     (excluded_ (tls_local_dispatch_key_set w))
                     kDynamicLayerFrontModeKey |} ∧
   (kDynamicLayerFrontModeKey ≠ Undefined →
    DispatchKeySet.has
      (included_ (tls_local_dispatch_key_set (back_call_world top w1)))
      kDynamicLayerFrontModeKey = true ∧
    DispatchKeySet.has
      (excluded_ (tls_local_dispatch_key_set (back_call_world top w1)))
      kDynamicLayerFrontModeKey = false)) ∧
  (∀ w00 key bs r pg pfg id w01,
     dynamicLayerStack w00 = [] →
     initAndPushDynamicLayer key bs r pg pfg w00 = (Returned id, w01) →
     dynamicLayerStack w = dynamicLayerStack w01 →
     tls_local_dispatch_key_set (back_call_world top w1) =
     tls_local_dispatch_key_set w00).
Proof.
  intros Htop Hk Hmodes Hlen Hsteps.
  destruct (back_steps_frame schema top w w1 Hlen Hsteps) as [js ->].
  assert (∀ cb, dynamicLayerBackFallback cb schema w =
    back_exit top (with_jitStack js w)
      ((cb;;
        if N.eqb (key_ top) Autograd
        then back_wrap_results_and_drop_args schema (layerId_ top)
        else mret tt) (back_call_world top (with_jitStack js w)))) as Hback.
  { intros cb. by apply back_decompose. }
  pose proof (tls_call_world top (with_jitStack js w)) as Htls.
  change (dynamicLayerStack (with_jitStack js w)) with (dynamicLayerStack w) in Htls.
  change (tls_local_dispatch_key_set (with_jitStack js w))
    with (tls_local_dispatch_key_set w) in Htls.
  split; [|split; [|split; [|split; [|split]]]].
  - intros callBoxed y w' Hcall. by rewrite Hback, bind_eq, Hcall.
  - intros cb1 cb2 Hcb. by rewrite !Hback, !bind_eq, Hcb.
  - by rewrite stack_call_world.
  - intros Hempty. by rewrite Htls, Hempty.
  - intros Hne. rewrite Htls.
    destruct (removelast (dynamicLayerStack w)) as [|x s]; [done|]. simpl.
    split; [done|]. intros Hf. split; [by apply has_add_same|apply has_remove_same].
  - intros w00 key bs r pg pfg id w01 Hs00.
    rewrite initAndPushDynamicLayer_eq. cbv zeta.
    destruct (negb _); [done|]. destruct (_ && _); [done|].
    destruct (kDynMetaDataSingleton w00 !! _); [done|].
    intros [= <- <-] Hsw. simpl in Hsw. rewrite stack_toggle in Hsw.
    simpl in Hsw. rewrite Hs00 in Hsw. simpl in Hsw.
    rewrite Hsw in Htop. simpl in Htop. injection Htop as <-.
    by rewrite Htls, Hsw.
Qed.

End BackConfiguration.

Lemma back_configuration_witness :
  last (dynamicLayerStack nested_world) = Some nested_top ∧
  key_ nested_top ≠ Undefined ∧
  (length (arguments mul_schema) ≤ length (jitStack nested_world))%nat ∧
  back_copy_and_unwrap_args (H0 := level_while_alive) mul_schema 2 nested_world =
  (Returned tt,
   with_jitStack
     [IVTensor (Wrapped (Plain 5) 2 1%nat); IVTensor (Plain 6);
      IVTensor (Plain 5); IVTensor (Plain 6)] nested_world) ∧
  DispatchKeySet.has
    (included_ (tls_local_dispatch_key_set
       (back_call_world (H := example_keys) nested_top
          (with_jitStack
             [IVTensor (Wrapped (Plain 5) 2 1%nat); IVTensor (Plain 6);
              IVTensor (Plain 5); IVTensor (Plain 6)] nested_world))))
    (@kDynamicLayerFrontModeKey example_keys) = true.
Proof.
  assert (last (dynamicLayerStack nested_world) = Some nested_top) as H1
    by (vm_compute; reflexivity).
  assert (key_ nested_top ≠ Undefined) as H2 by done.
  assert (key_ nested_top = @Autograd example_keys →
          is_Some (prevGradMode_ nested_top)
          ∨ is_Some (prevFwdGradMode_ nested_top)) as H3 by (left; eauto).
  assert (length (arguments mul_schema) ≤ length (jitStack nested_world))%nat
    as H4 by (vm_compute; lia).
  assert ((if N.eqb (key_ nested_top) (@Autograd example_keys)
           then back_copy_and_unwrap_args (H0 := level_while_alive)
                  mul_schema (layerId_ nested_top)
           else mret tt) nested_world =
          (Returned tt,
           with_jitStack
             [IVTensor (Wrapped (Plain 5) 2 1%nat); IVTensor (Plain 6);
              IVTensor (Plain 5); IVTensor (Plain 6)] nested_world)) as H5
    by (vm_compute; reflexivity).
  split; [exact H1|]. split; [exact H2|]. split; [exact H4|].
  split; [exact H5|].
  pose proof (back_configuration (H := example_keys) (H0 := level_while_alive)
                mul_schema nested_world _ nested_top H1 H2 H3 H4 H5)
    as (_ & _ & _ & _ & Hfront & _).
  apply Hfront; [vm_compute; discriminate|done].
Defined.

(** *** C7: a failing re-dispatch still gets the layer pushed back *)

Section BackExceptionSafety.
Context `{DispatchKeys} `{TensorWrapperLevel}.

Lemma stack_restore top w1 w' :
  dynamicLayerStack (back_restore top w1 w') = dynamicLayerStack w'.
Proof.
  unfold back_restore. cbv zeta.
  by destruct (grad_override top), (fw_grad_override top), (Nat.eqb _ 0).
Qed.

Lemma GradMode_restore top w1 w' :
  grad_override top = true →
  GradMode_enabled (back_restore top w1 w') = GradMode_enabled w1.
Proof. unfold back_restore. cbv zeta. by intros ->. Qed.

Lemma FwGradMode_restore top w1 w' :
  fw_grad_override top = true →
  FwGradMode_enabled (back_restore top w1 w') = FwGradMode_enabled w1.
Proof.
  unfold back_restore. cbv zeta. intros ->. by destruct (grad_override top).
Qed.

Lemma tls_restore_empty top w1 w' :
  removelast (dynamicLayerStack w1) = [] →
  tls_local_dispatch_key_set (back_restore top w1 w') =
  tls_local_dispatch_key_set (set_front_back false w1).
Proof.
  intros Hs. unfold back_restore. cbv zeta. rewrite stack_popped, Hs. simpl.
  rewrite back_popped_world_eq, Hs. simpl.
  by destruct (grad_override top), (fw_grad_override top).
Qed.

Lemma tls_toggle_eq (c b : bool) w w' :
  tls_local_dispatch_key_set w = tls_local_dispatch_key_set w' →
  tls_local_dispatch_key_set ((if c then set_front_back b else id) w) =
  tls_local_dispatch_key_set ((if c then set_front_back b else id) w').
Proof. intros Ht. destruct c; [|done]. unfold set_front_back. simpl. by rewrite Ht. Qed.

Lemma modes_toggle (c b : bool) w :
  GradMode_enabled ((if c then set_front_back b else id) w) = GradMode_enabled w ∧
  FwGradMode_enabled ((if c then set_front_back b else id) w) = FwGradMode_enabled w.
Proof. by destruct c. Qed.

(** C7.  Scoped-pop exception safety, as amended.  Steps 1 and 2 have
    returned and the re-dispatched call, issued with the top layer off the
    stack, throws [e] and leaves the world [w_fail].  Then the guards'
    restorations run ([back_restore]) and the destructor pushes the removed
    layer back.  On a stack that satisfies the level invariant, when the
    inner call left the stack as deep as it found it, the handler throws the
    same [e] with the removed layer on top again, so the stack is as deep as
    on entry (and is the stack on entry when the inner call left the stack it
    found); the differentiation modes that were overridden are back at their
    values on entry.  When the removed layer was the only one, the handler's
    key guard puts back the key set of before the call and the push includes
    the two boundary keys again: the key set is the one on entry with both
    boundary keys included, hence the one on entry if both were on.  With
    layers below there is no guard and the key set stays as the inner call
    left it.  When the inner call left the stack at another depth, the push
    in the destructor fails its level assertion: the process terminates,
    nothing propagates, and the layer is not pushed back.  The handler never
    returns normally. *)
Theorem back_exception_safety
    (callBoxed : M World unit) (schema : FunctionSchema)
    (w w1 w_fail : World) (top : DynamicLayer) (e : Exn) :
  last (dynamicLayerStack w) = Some top →
  key_ top ≠ Undefined →
  (key_ top = Autograd →
   is_Some (prevGradMode_ top) ∨ is_Some (prevFwdGradMode_ top)) →
  (length (arguments schema) ≤ length (jitStack w))%nat →
  (if N.eqb (key_ top) Autograd
   then back_copy_and_unwrap_args schema (layerId_ top)
   else mret tt) w = (Returned tt, w1) →
  callBoxed (back_call_world top w1) = (Thrown e, w_fail) →
  dynamicLayerBackFallback callBoxed schema w =
    (if 1 + Z.of_nat (length (dynamicLayerStack w_fail)) =? layerId_ top
     then (Thrown e,
           (if Nat.eqb (length (dynamicLayerStack w_fail)) 0
            then set_front_back true else id)
             (with_dynamicLayerStack (dynamicLayerStack w_fail ++ [top])
                (back_restore top w1 w_fail)))
     else (Aborted std_terminate, back_restore top w1 w_fail)) ∧
  fst (dynamicLayerBackFallback callBoxed schema w) ≠ Returned tt ∧
  (∀ e' w',
     dynamicLayerBackFallback callBoxed schema w = (Thrown e', w') →
     e' = e ∧
     dynamicLayerStack w' = dynamicLayerStack w_fail ++ [top] ∧
     (grad_override top = true → GradMode_enabled w' = GradMode_enabled w) ∧
     (fw_grad_override top = true →
      FwGradMode_enabled w' = FwGradMode_enabled w) ∧
     (removelast (dynamicLayerStack w) = [] →
      tls_local_dispatch_key_set w' =
      tls_local_dispatch_key_set
        ((if Nat.eqb (length (dynamicLayerStack w_fail)) 0
          then set_front_back true else id) (set_front_back false w))) ∧
     (levels_ok (dynamicLayerStack w) →
      length (dynamicLayerStack w') = length (dynamicLayerStack w)) ∧
     (removelast (dynamicLayerStack w) ≠ [] →
      dynamicLayerStack w_fail ≠ [] →
      tls_local_dispatch_key_set w' = tls_local_dispatch_key_set w_fail) ∧
     (removelast (dynamicLayerStack w) = [] →
      dynamicLayerStack w_fail = [] →
      tls_local_dispatch_key_set w' =
        tls_local_dispatch_key_set (set_front_back true w) ∧
      (front_back_on w →
       tls_local_dispatch_key_set w' = tls_local_dispatch_key_set w))) ∧
  (levels_ok (dynamicLayerStack w) →
   length (dynamicLayerStack w_fail) = length (removelast (dynamicLayerStack w)) →
   fst (dynamicLayerBackFallback callBoxed schema w) = Thrown e) ∧
  (levels_ok (dynamicLayerStack w) →
   dynamicLayerStack w_fail = removelast (dynamicLayerStack w) →
   fst (dynamicLayerBackFallback callBoxed schema w) = Thrown e ∧
   dynamicLayerStack (snd (dynamicLayerBackFallback callBoxed schema w)) =
   dynamicLayerStack w) ∧
  (levels_ok (dynamicLayerStack w) →
   length (dynamicLayerStack w_fail) ≠ length (removelast (dynamicLayerStack w)) →
   fst (dynamicLayerBackFallback callBoxed schema w) = Aborted std_terminate ∧
   dynamicLayerStack (snd (dynamicLayerBackFallback callBoxed schema w)) =
   dynamicLayerStack w_fail).
Proof.
  intros Htop Hk Hmodes Hlen Hsteps Hcall.
  destruct (back_steps_frame schema top w w1 Hlen Hsteps) as [js ->].
  set (w1 := with_jitStack js w) in *.
  assert (dynamicLayerBackFallback callBoxed schema w =
    (if 1 + Z.of_nat (length (dynamicLayerStack w_fail)) =? layerId_ top
     then (Thrown e,
           (if Nat.eqb (length (dynamicLayerStack w_fail)) 0
            then set_front_back true else id)
             (with_dynamicLayerStack (dynamicLayerStack w_fail ++ [top])
                (back_restore top w1 w_fail)))
     else (Aborted std_terminate, back_restore top w1 w_fail))) as Hback.
  { rewrite (back_decompose callBoxed schema w top w1) by done.
    rewrite bind_eq, Hcall. unfold back_exit.
    rewrite pushDynamicLayer_eq, stack_restore.
    by destruct (_ =? _). }
  destruct (last_Some (dynamicLayerStack w) top) as [[s Hs] _]; [done|].
  assert (levels_ok (dynamicLayerStack w) →
          layerId_ top = Z.of_nat (length s) + 1) as Hlevel.
  { rewrite Hs. by intros [_ ?]%levels_ok_snoc. }
  assert (removelast (dynamicLayerStack w) = s) as Hrem
    by (by rewrite Hs, removelast_last).
  split; [exact Hback|]. rewrite Hback.
  split; [by destruct (_ =? _)|]. split; [|split; [|split]].
  - intros e' w'.
    destruct (Z.eqb_spec (1 + Z.of_nat (length (dynamicLayerStack w_fail)))
                (layerId_ top)) as [Heq|]; [|done].
    intros [= <- <-]. split; [done|].
    rewrite stack_toggle.
    destruct (modes_toggle (Nat.eqb (length (dynamicLayerStack w_fail)) 0) true
                (with_dynamicLayerStack (dynamicLayerStack w_fail ++ [top])
                   (back_restore top w1 w_fail))) as [-> ->].
    split; [done|].
    split; [intros Hg; simpl; by rewrite (GradMode_restore _ _ _ Hg)|].
    split; [intros Hg; simpl; by rewrite (FwGradMode_restore _ _ _ Hg)|].
    assert (removelast (dynamicLayerStack w) = [] →
            tls_local_dispatch_key_set
              ((if Nat.eqb (length (dynamicLayerStack w_fail)) 0
                then set_front_back true else id)
                 (with_dynamicLayerStack (dynamicLayerStack w_fail ++ [top])
                    (back_restore top w1 w_fail))) =
            tls_local_dispatch_key_set
              ((if Nat.eqb (length (dynamicLayerStack w_fail)) 0
                then set_front_back true else id) (set_front_back false w)))
      as Hguard.
    { intros Hempty. rewrite tls_toggle_stack. apply tls_toggle_eq.
      by rewrite (tls_restore_empty top w1 w_fail Hempty). }
    split; [exact Hguard|]. split; [|split]; cycle 2.
    + intros Hempty Hnil. rewrite (Hguard Hempty), Hnil. simpl.
      split; [apply set_after_clear_front_back|].
      intros Hon. by apply clear_set_front_back.
    + intros Hok. simpl. rewrite length_app, Hs, length_app. simpl.
      pose proof (Hlevel Hok). lia.
    + intros Hne Hnf. rewrite tls_toggle_stack.
      destruct (dynamicLayerStack w_fail) as [|x sf]; [done|]. simpl.
      unfold back_restore. cbv zeta. rewrite stack_popped.
      replace (removelast (dynamicLayerStack w1)) with s
        by (unfold w1; simpl; by rewrite Hs, removelast_last).
      rewrite Hrem in Hne. destruct s as [|y s]; [done|]. simpl.
      by destruct (grad_override top), (fw_grad_override top).
  - intros Hok Hdepth. rewrite Hrem in Hdepth.
    replace (1 + Z.of_nat (length (dynamicLayerStack w_fail)) =? layerId_ top)
      with true; [done|].
    symmetry. apply Z.eqb_eq. pose proof (Hlevel Hok). lia.
  - intros Hok Hsame. rewrite Hrem in Hsame.
    replace (1 + Z.of_nat (length (dynamicLayerStack w_fail)) =? layerId_ top)
      with true.
    + split; [done|]. simpl. by rewrite stack_toggle, Hsame, Hs.
    + symmetry. apply Z.eqb_eq. pose proof (Hlevel Hok). rewrite Hsame. lia.
  - intros Hok Hdepth. rewrite Hrem in Hdepth.
    replace (1 + Z.of_nat (length (dynamicLayerStack w_fail)) =? layerId_ top)
      with false
      by (symmetry; apply Z.eqb_neq; pose proof (Hlevel Hok); lia).
    split; [done|]. simpl. apply stack_restore.
Qed.

End BackExceptionSafety.

Lemma back_exception_safety_witness :
  last (dynamicLayerStack nested_world) = Some nested_top ∧
  key_ nested_top ≠ Undefined ∧
  (length (arguments mul_schema) ≤ length (jitStack nested_world))%nat ∧
  levels_ok (dynamicLayerStack nested_world) ∧
  fst (dynamicLayerBackFallback (H := example_keys) (H0 := level_while_alive)
         (throw (Foreign 7)) mul_schema nested_world) = Thrown (Foreign 7) ∧
  dynamicLayerStack
    (snd (dynamicLayerBackFallback (H := example_keys) (H0 := level_while_alive)
            (throw (Foreign 7)) mul_schema nested_world)) =
  dynamicLayerStack nested_world.
Proof.
  assert (last (dynamicLayerStack nested_world) = Some nested_top) as H1
    by (vm_compute; reflexivity).
  assert (key_ nested_top ≠ Undefined) as H2 by done.
  assert (key_ nested_top = @Autograd example_keys →
          is_Some (prevGradMode_ nested_top)
          ∨ is_Some (prevFwdGradMode_ nested_top)) as H3 by (left; eauto).
  assert (length (arguments mul_schema) ≤ length (jitStack nested_world))%nat
    as H4 by (vm_compute; lia).
  assert ((if N.eqb (key_ nested_top) (@Autograd example_keys)
           then back_copy_and_unwrap_args (H0 := level_while_alive)
                  mul_schema (layerId_ nested_top)
           else mret tt) nested_world =
          (Returned tt,
           with_jitStack
             [IVTensor (Wrapped (Plain 5) 2 1%nat); IVTensor (Plain 6);
              IVTensor (Plain 5); IVTensor (Plain 6)] nested_world)) as H5
    by (vm_compute; reflexivity).
  assert (levels_ok (dynamicLayerStack nested_world)) as H6.
  { intros i layer Hi. destruct i as [|[|i]]; vm_compute in Hi;
      [injection Hi as <-; reflexivity..|discriminate]. }
  split; [exact H1|]. split; [exact H2|]. split; [exact H4|]. split; [exact H6|].
  refine (proj1 (proj2 (proj2 (proj2 (proj2
            (back_exception_safety (H := example_keys) (H0 := level_while_alive)
               (throw (Foreign 7)) mul_schema nested_world _ _ nested_top
               (Foreign 7) H1 H2 H3 H4 H5 eq_refl))))) H6 _).
  vm_compute. reflexivity.
Defined.

(** C7 as the specification words it fails in two ways.  With a layer below
    the removed one, a failing inner call propagates with the layer back on
    top, but no capability restoration runs: entered under the key set the
    front handler dispatches with, in which the front mode key is not
    included, the handler leaves with the front mode key included.  And an
    inner call that empties the layer stack before it fails makes the push in
    the destructor fail: the process terminates and the stack, two layers
    deep on entry, is left empty. *)
Lemma back_exception_safety_counterexample :
  (last (dynamicLayerStack dispatched_nested_world) = Some nested_top ∧
   removelast (dynamicLayerStack dispatched_nested_world) ≠ [] ∧
   fst (dynamicLayerBackFallback (H := example_keys) (H0 := level_while_alive)
          (throw (Foreign 7)) mul_schema dispatched_nested_world)
     = Thrown (Foreign 7) ∧
   dynamicLayerStack
     (snd (dynamicLayerBackFallback (H := example_keys)
             (H0 := level_while_alive)
             (throw (Foreign 7)) mul_schema dispatched_nested_world))
     = dynamicLayerStack dispatched_nested_world ∧
   DispatchKeySet.has
     (included_ (tls_local_dispatch_key_set dispatched_nested_world))
     (@kDynamicLayerFrontModeKey example_keys) = false ∧
   DispatchKeySet.has
     (included_ (tls_local_dispatch_key_set
        (snd (dynamicLayerBackFallback (H := example_keys)
                (H0 := level_while_alive)
                (throw (Foreign 7)) mul_schema dispatched_nested_world))))
     (@kDynamicLayerFrontModeKey example_keys) = true) ∧
  (length (dynamicLayerStack nested_world) = 2%nat ∧
   fst (dynamicLayerBackFallback (H := example_keys) (H0 := level_while_alive)
          (setDynamicLayerStack [];; throw (Foreign 7))
          mul_schema nested_world) = Aborted std_terminate ∧
   length (dynamicLayerStack
             (snd (dynamicLayerBackFallback (H := example_keys)
                     (H0 := level_while_alive)
                     (setDynamicLayerStack [];;
                      throw (Foreign 7))
                     mul_schema nested_world))) = 0%nat).
Proof.
  split.
  - split; [vm_compute; reflexivity|]. split; [vm_compute; discriminate|].
    repeat split; vm_compute; reflexivity.
  - repeat split; vm_compute; reflexivity.
Qed.

(** *** Beyond the stated properties: pushes, pops and the registry *)

Section PushPop.
Context `{DispatchKeys}.

(** X1.  [initAndPushDynamicLayer] rejects a key that is neither Autograd nor
    the batched key, and an Autograd layer without any previous grad mode,
    and then leaves the world as it was.  When it returns, the level it
    returns is the old depth plus one and [maybeCurrentDynamicLayer] returns
    the new layer: it has the given key, that level, the given optional
    fields, and as saved key set the thread's key set from before the push;
    its [batchSize()] and [randomness()] return the value when one was given
    and fail their assertion otherwise.  On an empty stack
    [maybeCurrentDynamicLayer] returns nothing. *)
Theorem initAndPush_then_current key bs r pg pfg (w : World) :
  (N.eqb key Autograd || N.eqb key kBatchedKey = false →
   initAndPushDynamicLayer key bs r pg pfg w =
   (Thrown (InternalAssert "key == DispatchKey::Autograd || key == kBatchedKey"), w)) ∧
  (key = Autograd → pg = None → pfg = None →
   ∃ msg, initAndPushDynamicLayer key bs r pg pfg w =
          (Thrown (InternalAssert msg), w)) ∧
  (dynamicLayerStack w = [] →
   maybeCurrentDynamicLayer w = (Returned None, w)) ∧
  (∀ id w',
     initAndPushDynamicLayer key bs r pg pfg w = (Returned id, w') →
     id = Z.of_nat (length (dynamicLayerStack w)) + 1 ∧
     ∃ layer,
       maybeCurrentDynamicLayer w' = (Returned (Some layer), w') ∧
       layer = {| key_ := key; layerId_ := id; batchSize_ := bs;
                  randomness_ := r; prevGradMode_ := pg;
                  prevFwdGradMode_ := pfg;
                  prevLocalDispatchKeySet_ := tls_local_dispatch_key_set w |} ∧
       (key = Autograd ∨ key = kBatchedKey) ∧
       (key = Autograd → is_Some pg ∨ is_Some pfg) ∧
       DynamicLayer_batchSize layer w' =
       match bs with
       | Some b => (Returned b, w')
       | None => (Thrown (InternalAssert "batchSize_"), w')
       end ∧
       DynamicLayer_randomness layer w' =
       match r with
       | Some x => (Returned x, w')
       | None => (Thrown (InternalAssert "randomness_"), w')
       end).
Proof.
  split; [|split; [|split]].
  - intros Hkey. rewrite initAndPushDynamicLayer_eq. cbv zeta. by rewrite Hkey.
  - intros -> -> ->. rewrite initAndPushDynamicLayer_eq. cbv zeta.
    rewrite N.eqb_refl. simpl. eauto.
  - intros Hs. unfold maybeCurrentDynamicLayer. unfold_monad. by rewrite Hs.
  - intros id w'. rewrite initAndPushDynamicLayer_eq. cbv zeta.
    destruct (N.eqb key Autograd || N.eqb key kBatchedKey) eqn:Hkey; [|done].
    simpl.
    destruct (N.eqb key Autograd
              && negb (bool_decide (is_Some pg) || bool_decide (is_Some pfg)))
      eqn:Hmodes; [done|].
    destruct (kDynMetaDataSingleton w !! _); [done|].
    intros [= <- <-]. split; [lia|]. eexists. split; [|split; [reflexivity|]].
    + unfold maybeCurrentDynamicLayer. unfold_monad. simpl.
      rewrite stack_toggle. simpl. rewrite length_app, last_snoc. simpl.
      by replace (Nat.eqb (length (dynamicLayerStack w) + 1) 0) with false
        by (symmetry; apply Nat.eqb_neq; lia).
    + split; [|split].
      * apply orb_true_iff in Hkey as [?%N.eqb_eq|?%N.eqb_eq]; eauto.
      * intros ->. rewrite N.eqb_refl in Hmodes. simpl in Hmodes.
        apply negb_false_iff, orb_true_iff in Hmodes
          as [?%bool_decide_eq_true|?%bool_decide_eq_true]; eauto.
      * unfold DynamicLayer_batchSize, DynamicLayer_randomness. unfold_monad.
        simpl. by destruct bs, r.
Qed.

(** X3.  Popping at the edges.  On an empty stack both pops fail the
    size assertion and change nothing; with a top layer whose key is
    Undefined both fail the key assertion and change nothing, the layer stays
    on the stack.  When the registry has no entry for the popped level,
    [popDynamicLayerAndDeleteMetadata] still returns the popped layer and
    leaves registry and flag cells as they were. *)
Theorem pop_edge_cases (w : World) :
  (dynamicLayerStack w = [] →
   popDynamicLayer w =
     (Thrown (InternalAssert "dynamicLayerStack.size() > 0"), w) ∧
   popDynamicLayerAndDeleteMetadata w =
     (Thrown (InternalAssert "dynamicLayerStack.size() > 0"), w)) ∧
  (∀ top, last (dynamicLayerStack w) = Some top → key_ top = Undefined →
     popDynamicLayer w =
       (Thrown (InternalAssert "result.key() != DispatchKey::Undefined"), w) ∧
     popDynamicLayerAndDeleteMetadata w =
       (Thrown (InternalAssert "result.key() != DispatchKey::Undefined"), w)) ∧
  (∀ top, last (dynamicLayerStack w) = Some top → key_ top ≠ Undefined →
     kDynMetaDataSingleton w !! layerId_ top = None →
     ∃ w', popDynamicLayerAndDeleteMetadata w = (Returned top, w') ∧
           dynamicLayerStack w' = removelast (dynamicLayerStack w) ∧
           kDynMetaDataSingleton w' = kDynMetaDataSingleton w ∧
           flags w' = flags w).
Proof.
  split; [|split].
  - intros Hs. by rewrite popDynamicLayer_nil, popDynamicLayerAndDeleteMetadata_nil.
  - intros top [s Hs]%last_Some Hk.
    rewrite (popDynamicLayer_snoc s top), (popDynamicLayerAndDeleteMetadata_snoc s top)
      by done.
    cbv zeta. by rewrite Hk.
  - intros top [s Hs]%last_Some Hk Hreg.
    rewrite (popDynamicLayerAndDeleteMetadata_snoc s top) by done. cbv zeta.
    apply N.eqb_neq in Hk. rewrite Hk, Hreg. eexists. split; [done|].
    rewrite stack_toggle, registry_toggle, flags_toggle. simpl.
    by rewrite Hs, removelast_last.
Qed.

End PushPop.

Section RoundTrips.
Context `{DispatchKeys}.

(** X2.  Push then pop is a round trip.  After an
    [initAndPushDynamicLayer] that returned, with a key other than
    Undefined, [popDynamicLayerAndDeleteMetadata] returns the layer just
    pushed and the world is the one before the push except for one more flag
    cell, which holds false: the same stack, the same registry, the same
    call stack and differentiation modes, and the same dispatch key set when
    the stack was non-empty, or was empty with both boundary keys off. *)
Theorem push_pop_round_trip key bs r pg pfg (w w1 : World) (id : Z) :
  key ≠ Undefined →
  initAndPushDynamicLayer key bs r pg pfg w = (Returned id, w1) →
  ∃ layer w2,
    popDynamicLayerAndDeleteMetadata w1 = (Returned layer, w2) ∧
    layerId_ layer = id ∧ key_ layer = key ∧
    dynamicLayerStack w2 = dynamicLayerStack w ∧
    kDynMetaDataSingleton w2 = kDynMetaDataSingleton w ∧
    flags w2 = flags w ++ [false] ∧
    jitStack w2 = jitStack w ∧
    GradMode_enabled w2 = GradMode_enabled w ∧
    FwGradMode_enabled w2 = FwGradMode_enabled w ∧
    (dynamicLayerStack w ≠ [] ∨ front_back_off w →
     tls_local_dispatch_key_set w2 = tls_local_dispatch_key_set w).
Proof.
  intros Hkey. rewrite initAndPushDynamicLayer_eq. cbv zeta.
  destruct (negb _); [done|]. destruct (_ && _); [done|].
  destruct (kDynMetaDataSingleton w !! _) eqn:Hreg; [done|].
  intros [= <- <-].
  erewrite popDynamicLayerAndDeleteMetadata_snoc
    by (simpl; rewrite stack_toggle; reflexivity).
  cbv zeta. apply N.eqb_neq in Hkey. simpl key_. rewrite Hkey.
  simpl layerId_.
  destruct (Nat.eqb (length (dynamicLayerStack w)) 0) eqn:He; simpl;
    rewrite lookup_insert_eq; eexists _, _; (split; [reflexivity|]); simpl;
    rewrite delete_insert_id by done;
    rewrite insert_app_r_alt, Nat.sub_diag by done; simpl;
    repeat (split; [done|]).
  - intros [Hne|Hoff].
    + apply Nat.eqb_eq, length_zero_iff_nil in He. by destruct Hne.
    + by apply set_clear_front_back.
  - done.
Qed.

(** X16.  Pop then push is a round trip.  On a stack that satisfies the level
    invariant, whose top layer has a key other than Undefined, and with both
    boundary keys on, taking the top layer off and putting it back, as
    [WithoutTop] does around a body that does nothing, gives back the very
    same world.  Around any body that returns or throws and leaves the stack
    it found, the stack after the scope is the stack before it. *)
Theorem WithoutTop_round_trip (w : World) (top : DynamicLayer) :
  last (dynamicLayerStack w) = Some top →
  key_ top ≠ Undefined →
  levels_ok (dynamicLayerStack w) →
  (front_back_on w → WithoutTop (mret tt) w = (Returned tt, w)) ∧
  (∀ (body : M World unit) o w',
     body (snd (popDynamicLayer w)) = (o, w') →
     (∀ y, o ≠ Aborted y) →
     dynamicLayerStack w' = removelast (dynamicLayerStack w) →
     fst (WithoutTop body w) = o ∧
     dynamicLayerStack (snd (WithoutTop body w)) = dynamicLayerStack w).
Proof.
  intros Htop Hk Hok.
  destruct (last_Some (dynamicLayerStack w) top) as [[s Hs] _]; [done|].
  assert (layerId_ top = Z.of_nat (length s) + 1) as Hlevel.
  { rewrite Hs in Hok. by apply levels_ok_snoc in Hok as [_ ?]. }
  assert (popDynamicLayer w =
          (Returned top,
           (if Nat.eqb (length s) 0 then set_front_back false else id)
             (with_dynamicLayerStack s w))) as Hpop.
  { rewrite (popDynamicLayer_snoc s top) by done.
    apply N.eqb_neq in Hk. by rewrite Hk. }
  split.
  - intros Hon. unfold WithoutTop. rewrite bind_eq, Hpop.
    unfold scoped, run_dtor. cbv [mret M_ret ret]. rewrite bind_eq.
    rewrite pushDynamicLayer_eq, stack_toggle. simpl.
    replace (1 + Z.of_nat (length s) =? layerId_ top) with true
      by (symmetry; apply Z.eqb_eq; lia).
    f_equal. destruct w as [st reg fl tls gm fgm js rm]. simpl in *. subst st.
    destruct s as [|x s]; simpl.
    + unfold with_dynamicLayerStack, set_front_back. simpl.
      unfold with_tls. simpl. f_equal.
      apply (clear_set_front_back
               {| dynamicLayerStack := [top]; kDynMetaDataSingleton := reg;
                  flags := fl; tls_local_dispatch_key_set := tls;
                  GradMode_enabled := gm; FwGradMode_enabled := fgm;
                  jitStack := js; refreshedMetadata := rm |} Hon).
    + done.
  - intros body o w' Hbody Hnot Hstack. rewrite Hpop in Hbody. simpl in Hbody.
    unfold WithoutTop. rewrite bind_eq, Hpop. unfold scoped, run_dtor.
    rewrite Hbody. rewrite Hs, removelast_last in Hstack.
    destruct o as [[]|e|y]; [| |by destruct (Hnot y)];
      rewrite bind_eq, pushDynamicLayer_eq, Hstack;
      (replace (1 + Z.of_nat (length s) =? layerId_ top) with true
         by (symmetry; apply Z.eqb_eq; lia));
      simpl; by rewrite stack_toggle, Hs.
Qed.

End RoundTrips.

Lemma push_pop_round_trip_witness :
  (44%N : DispatchKey) ≠ Undefined ∧
  initAndPushDynamicLayer (H := example_keys) 44%N (Some 3) None None None
    grad_world =
  (Returned 2, snd (initAndPushDynamicLayer (H := example_keys)
                      44%N (Some 3) None None None grad_world)) ∧
  ∃ layer w2,
    popDynamicLayerAndDeleteMetadata (H := example_keys)
      (snd (initAndPushDynamicLayer (H := example_keys)
              44%N (Some 3) None None None grad_world)) = (Returned layer, w2) ∧
    dynamicLayerStack w2 = dynamicLayerStack grad_world ∧
    flags w2 = flags grad_world ++ [false].
Proof.
  assert ((44%N : DispatchKey) ≠ Undefined) as H1 by done.
  assert (initAndPushDynamicLayer (H := example_keys) 44%N (Some 3) None None None
            grad_world =
          (Returned 2, snd (initAndPushDynamicLayer (H := example_keys)
                              44%N (Some 3) None None None grad_world))) as H2
    by (vm_compute; reflexivity).
  split; [exact H1|]. split; [exact H2|].
  destruct (push_pop_round_trip (H := example_keys) 44%N (Some 3) None None None
              grad_world _ 2 H1 H2)
    as (layer & w2 & Hpop & _ & _ & Hs & _ & Hf & _).
  exists layer, w2. split; [exact Hpop|]. split; [exact Hs|exact Hf].
Defined.

Lemma WithoutTop_round_trip_witness :
  last (dynamicLayerStack grad_world) = Some grad_layer ∧
  key_ grad_layer ≠ Undefined ∧
  levels_ok (dynamicLayerStack grad_world) ∧
  front_back_on (H := example_keys) grad_world ∧
  WithoutTop (H := example_keys) (mret tt) grad_world = (Returned tt, grad_world).
Proof.
  assert (last (dynamicLayerStack grad_world) = Some grad_layer) as H1
    by (vm_compute; reflexivity).
  assert (key_ grad_layer ≠ Undefined) as H2 by done.
  assert (levels_ok (dynamicLayerStack grad_world)) as H3.
  { intros i layer Hi. destruct i as [|i]; vm_compute in Hi;
      [injection Hi as <-; reflexivity|discriminate]. }
  assert (front_back_on (H := example_keys) grad_world) as H4
    by (split; vm_compute; reflexivity).
  repeat (split; [assumption|]).
  exact (proj1 (WithoutTop_round_trip (H := example_keys)
                  grad_world grad_layer H1 H2 H3) H4).
Defined.

Section LifeHandles.
Context `{DispatchKeys}.

(** X4.  Life handles of the levels in use.  After any sequence of the public
    push and pop-and-invalidate operations, started with an empty stack and
    an empty registry, [getLifeHandleForLevel] returns for every level from 1
    to the depth of the stack a handle whose flag is set and which no other
    level has, and throws "level should be alive" for every other level; in
    both cases it leaves the world as it was. *)
Theorem life_handle_lookup (ops : list Op) (w0 : World) (l : Z) :
  dynamicLayerStack w0 = [] →
  kDynMetaDataSingleton w0 = ∅ →
  Forall (λ o, is_public_push_or_pop o = true) ops →
  (1 ≤ l ≤ Z.of_nat (length (dynamicLayerStack (run ops w0))) →
   ∃ h, getLifeHandleForLevel l (run ops w0) = (Returned h, run ops w0) ∧
        flags (run ops w0) !! h = Some true ∧
        ∀ l', l' ≠ l →
              getLifeHandleForLevel l' (run ops w0) ≠ (Returned h, run ops w0)) ∧
  (¬ 1 ≤ l ≤ Z.of_nat (length (dynamicLayerStack (run ops w0))) →
   getLifeHandleForLevel l (run ops w0) =
   (Thrown (InternalAssert "level should be alive"), run ops w0)).
Proof.
  intros Hs0 Hr0 Hops.
  destruct (run_public_inv ops w0 Hops) as [_ Hreg].
  { split; [rewrite Hs0; apply levels_ok_nil|].
    intros k. rewrite Hr0, Hs0, lookup_empty. simpl. split; [by intros [? ?]|lia]. }
  assert (registry_wf (run ops w0)) as [Htrue Hinj].
  { apply run_registry_wf. split; intros *; by rewrite Hr0, lookup_empty. }
  set (w := run ops w0) in *.
  assert (∀ k, getLifeHandleForLevel k w =
               match kDynMetaDataSingleton w !! k with
               | Some h => (Returned h, w)
               | None => (Thrown (InternalAssert "level should be alive"), w)
               end) as Hget.
  { intros k. unfold getLifeHandleForLevel. unfold_monad.
    by destruct (kDynMetaDataSingleton w !! k). }
  split.
  - intros Hl. apply Hreg in Hl as [h Hh]. exists h. rewrite Hget, Hh.
    split; [done|]. split; [by eapply Htrue|].
    intros l' Hne. rewrite Hget.
    destruct (kDynMetaDataSingleton w !! l') as [h'|] eqn:Hh'; [|done].
    intros [= ->]. by destruct Hne; eapply Hinj.
  - intros Hl. rewrite Hget.
    destruct (kDynMetaDataSingleton w !! l) as [h|] eqn:Hh; [|done].
    destruct Hl. apply Hreg. eauto.
Qed.

(** X5.  A restored snapshot does not revive a layer.  Reading the stack and
    writing it back leaves the world as it was, and a written stack is the
    one read next.  But when a snapshot is taken, the top layer is then
    popped with its registry entry invalidated, and the snapshot is written
    back, the layer is the current layer again while its level is no longer
    alive: [getLifeHandleForLevel] throws for it, its flag stays false, and
    [unwrapIfDead] still unwraps the wrappers that observe the flag. *)
Theorem stack_snapshot_restore (w : World) :
  (∀ s, getDynamicLayerStack (snd (setDynamicLayerStack s w)) =
        (Returned s, snd (setDynamicLayerStack s w))) ∧
  (∃ s, getDynamicLayerStack w = (Returned s, w) ∧
        setDynamicLayerStack s w = (Returned tt, w)) ∧
  (∀ top h w1,
     registry_wf w →
     kDynMetaDataSingleton w !! layerId_ top = Some h →
     popDynamicLayerAndDeleteMetadata w = (Returned top, w1) →
     ∃ w2, setDynamicLayerStack (dynamicLayerStack w) w1 = (Returned tt, w2) ∧
           maybeCurrentDynamicLayer w2 = (Returned (Some top), w2) ∧
           getLifeHandleForLevel (layerId_ top) w2 =
             (Thrown (InternalAssert "level should be alive"), w2) ∧
           flags w2 !! h = Some false ∧
           ∀ v lvl, unwrapIfDead (Wrapped v lvl h) w2 = (Returned v, w2)).
Proof.
  split; [done|]. split.
  { exists (dynamicLayerStack w). split; [done|]. by destruct w. }
  intros top h w1 [Htrue Hinj] Hh.
  destruct (dynamicLayerStack w) as [|x s _] eqn:Hs using rev_ind.
  { by rewrite popDynamicLayerAndDeleteMetadata_nil. }
  rewrite (popDynamicLayerAndDeleteMetadata_snoc s x) by done. cbv zeta.
  destruct (N.eqb (key_ x) Undefined); [done|].
  destruct (kDynMetaDataSingleton w !! layerId_ x) as [it|] eqn:Hit;
    intros [= -> <-]; [|congruence].
  assert (it = h) as -> by congruence.
  eexists. split; [reflexivity|].
  assert (flags (snd (setDynamicLayerStack (s ++ [top])
            (with_registry (delete (layerId_ top) (kDynMetaDataSingleton w))
               (with_flags (<[h:=false]> (flags w))
                  ((if Nat.eqb (length s) 0 then set_front_back false else id)
                     (with_dynamicLayerStack s w)))))) !! h = Some false) as Hf.
  { simpl. apply list_lookup_insert_eq. by eapply lookup_lt_Some, Htrue. }
  split; [|split; [|split; [exact Hf|]]].
  - unfold maybeCurrentDynamicLayer. unfold_monad. simpl.
    rewrite length_app, Nat.add_comm. simpl. by rewrite last_snoc.
  - unfold getLifeHandleForLevel. unfold_monad. simpl.
    rewrite ?registry_toggle. simpl. by rewrite lookup_delete_eq.
  - intros v lvl. by apply unwrapIfDead_dead.
Qed.

End LifeHandles.

Lemma life_handle_lookup_witness :
  dynamicLayerStack initial_world = [] ∧
  kDynMetaDataSingleton initial_world = ∅ ∧
  Forall (λ o, is_public_push_or_pop o = true)
    [InitAndPush 44%N (Some 3) (Some 0) None None;
     InitAndPush 62%N None None (Some true) (Some true)] ∧
  (∃ h, getLifeHandleForLevel 2
          (run (H := example_keys)
             [InitAndPush 44%N (Some 3) (Some 0) None None;
              InitAndPush 62%N None None (Some true) (Some true)] initial_world)
        = (Returned h,
           run (H := example_keys)
             [InitAndPush 44%N (Some 3) (Some 0) None None;
              InitAndPush 62%N None None (Some true) (Some true)] initial_world)) ∧
  getLifeHandleForLevel 3
    (run (H := example_keys)
       [InitAndPush 44%N (Some 3) (Some 0) None None;
        InitAndPush 62%N None None (Some true) (Some true)] initial_world)
  = (Thrown (InternalAssert "level should be alive"),
     run (H := example_keys)
       [InitAndPush 44%N (Some 3) (Some 0) None None;
        InitAndPush 62%N None None (Some true) (Some true)] initial_world).
Proof.
  assert (dynamicLayerStack initial_world = []) as H1 by reflexivity.
  assert (kDynMetaDataSingleton initial_world = ∅) as H2 by reflexivity.
  assert (Forall (λ o, is_public_push_or_pop o = true)
            [InitAndPush 44%N (Some 3) (Some 0) None None;
             InitAndPush 62%N None None (Some true) (Some true)]) as H3
    by (repeat constructor).
  split; [exact H1|]. split; [exact H2|]. split; [exact H3|]. split.
  - destruct (proj1 (life_handle_lookup (H := example_keys) _ initial_world 2
                       H1 H2 H3)) as (h & Hh & _).
    + vm_compute. split; discriminate.
    + by exists h.
  - apply (proj2 (life_handle_lookup (H := example_keys) _ initial_world 3
                    H1 H2 H3)).
    vm_compute. intros [_ Hle]. by apply Hle.
Defined.

(** *** What the walker and the mutation check leave alone *)

Section Frames.
Context `{DispatchKeys} `{TensorWrapperLevel}.

Lemma body_frame (f : Tensor → M World Tensor) w0 js idx :
  reads_no_args f →
  ∃ js', snd (foreachTensorInplace_body f idx (with_jitStack js w0))
         = with_jitStack js' w0.
Proof.
  intros Hf. destruct (at_index js idx) as [v|] eqn:Hv.
  - unfold at_index in Hv. destruct (idx <? 0) eqn:Hneg; [done|].
    apply Z.ltb_ge in Hneg.
    pose proof (body_spec f w0 js (Z.to_nat idx) v Hf Hv) as Hb.
    rewrite Z2Nat.id in Hb by done.
    destruct (transform_arg _ v); [rewrite Hb; eauto|by destruct Hb].
  - unfold foreachTensorInplace_body. cbv [mbind M_bind bind get].
    change (jitStack (with_jitStack js w0)) with js. rewrite Hv. simpl. eauto.
Qed.

Lemma loop_frame (f : Tensor → M World Tensor) w0 :
  reads_no_args f →
  ∀ n idx js,
    ∃ js', snd (for_range n idx (foreachTensorInplace_body f)
                  (with_jitStack js w0)) = with_jitStack js' w0.
Proof.
  intros Hf. induction n as [|n IH]; intros idx js; [by exists js|].
  simpl. rewrite bind_eq.
  destruct (body_frame f w0 js idx Hf) as [js1 H1].
  destruct (foreachTensorInplace_body f idx (with_jitStack js w0))
    as [[[]|e|y] w1]; simpl in H1; subst w1; eauto.
Qed.

Lemma foreachTensorInplace_frame (f : Tensor → M World Tensor) b e w :
  reads_no_args f →
  ∃ js', snd (foreachTensorInplace b e f w) = with_jitStack js' w.
Proof.
  intros Hf. unfold foreachTensorInplace. unfold_monad.
  destruct (0 <=? b); [|exists (jitStack w); by rewrite with_jitStack_id].
  destruct (0 <=? e); [|exists (jitStack w); by rewrite with_jitStack_id].
  destruct (b <=? e); [|exists (jitStack w); by rewrite with_jitStack_id].
  destruct (loop_frame f w Hf (Z.to_nat (e - b)) b (jitStack w)) as [js' Hjs].
  rewrite with_jitStack_id in Hjs. eauto.
Qed.

Lemma checkForInvalidMutationOnCaptures_frame schema st w :
  snd (checkForInvalidMutationOnCaptures schema st w) = w.
Proof.
  unfold checkForInvalidMutationOnCaptures.
  destruct (last st) as [back|]; [|done].
  destruct (negb (N.eqb (key_ back) Autograd)); [done|].
  destruct (negb (isInplaceOp schema)); [done|].
  rewrite get_bind. destruct (at_index _ _) as [arg0|]; [|done].
  destruct arg0 as [t| | |]; try done.
  rewrite bind_eq. simpl. rewrite bind_eq, unwrapIfDead_eq.
  destruct (maybeGetTensorWrapper _) as [wrapper|]; [|done].
  destruct (wrapper_level _ _) as [l|]; [|done].
  by destruct (l =? layerId_ back).
Qed.

End Frames.

Section WalkerRange.
Context `{DispatchKeys} `{TensorWrapperLevel}.


(** X7.  The mutation check only looks.  [checkForInvalidMutationOnCaptures]
    never changes the world, whatever it finds.  It returns at once when the
    top layer is not a Differentiation layer or the operation is not
    in-place; for an in-place operation under a Differentiation layer whose
    first argument is not a tensor it fails with "Expected Tensor"; and with
    a non-empty layer stack and at least as many boxed values as the schema
    has arguments it never reads outside the call stack. *)
Theorem mutation_check_only_reads
    (schema : FunctionSchema) (st : list DynamicLayer) (w : World) :
  snd (checkForInvalidMutationOnCaptures schema st w) = w ∧
  (∀ back, last st = Some back → key_ back ≠ Autograd →
     checkForInvalidMutationOnCaptures schema st w = (Returned tt, w)) ∧
  (∀ back, last st = Some back → isInplaceOp schema = false →
     checkForInvalidMutationOnCaptures schema st w = (Returned tt, w)) ∧
  (∀ back v,
     last st = Some back → key_ back = Autograd → isInplaceOp schema = true →
     at_index (jitStack w)
       (Z.of_nat (length (jitStack w)) - Z.of_nat (length (arguments schema)))
       = Some v →
     isTensor v = false →
     checkForInvalidMutationOnCaptures schema st w =
     (Thrown (InternalAssert "Expected Tensor"), w)) ∧
  (st ≠ [] →
   (length (arguments schema) ≤ length (jitStack w))%nat →
   ∀ y, fst (checkForInvalidMutationOnCaptures schema st w) ≠ Aborted y).
Proof.
  split; [apply checkForInvalidMutationOnCaptures_frame|].
  split; [|split; [|split]].
  - intros back Hb Hk. unfold checkForInvalidMutationOnCaptures. rewrite Hb.
    apply N.eqb_neq in Hk. by rewrite Hk.
  - intros back Hb Hin. unfold checkForInvalidMutationOnCaptures.
    rewrite Hb, Hin. by destruct (negb _).
  - intros back v Hb Hk Hin Hv Ht. unfold checkForInvalidMutationOnCaptures.
    rewrite Hb, Hk, N.eqb_refl, Hin. simpl. rewrite get_bind, Hv.
    by destruct v.
  - intros Hst Hlen y. unfold checkForInvalidMutationOnCaptures.
    destruct (last st) as [back|] eqn:Hb; [|by apply last_None in Hb].
    destruct (negb (N.eqb (key_ back) Autograd)); [done|].
    destruct (negb (isInplaceOp schema)) eqn:Hin; [done|].
    apply negb_false_iff in Hin.
    assert (arguments schema ≠ []) as Hargs.
    { intros Hnil. unfold isInplaceOp in Hin. rewrite Hnil in Hin.
      by destruct (negb (is_mutable schema) || _). }
    rewrite get_bind.
    destruct (at_index _ _) as [arg0|] eqn:Ha.
    + destruct arg0 as [t| | |]; try done.
      rewrite bind_eq. simpl. rewrite bind_eq, unwrapIfDead_eq.
      destruct (maybeGetTensorWrapper _) as [wrapper|]; [|done].
      destruct (wrapper_level _ _) as [l|]; [|done].
      by destruct (l =? layerId_ back).
    + unfold at_index in Ha.
      destruct (_ <? 0) eqn:Hneg; [apply Z.ltb_lt in Hneg; lia|].
      apply lookup_ge_None in Ha.
      destruct (arguments schema); [done|]. simpl in *. lia.
Qed.

End WalkerRange.


(** *** Membership in unions and differences of key sets *)

Lemma has_union a b k :
  k ≠ Undefined →
  DispatchKeySet.has (DispatchKeySet.union a b) k =
  DispatchKeySet.has a k || DispatchKeySet.has b k.
Proof.
  intros Hk. rewrite !has_testbit by done.
  unfold DispatchKeySet.union. apply N.lor_spec.
Qed.

Lemma has_minus a b k :
  k ≠ Undefined →
  DispatchKeySet.has (DispatchKeySet.minus a b) k =
  DispatchKeySet.has a k && negb (DispatchKeySet.has b k).
Proof.
  intros Hk. rewrite !has_testbit by done.
  unfold DispatchKeySet.minus. apply N.ldiff_spec.
Qed.

Lemma has_add s t k :
  k ≠ Undefined →
  DispatchKeySet.has (DispatchKeySet.add s t) k =
  DispatchKeySet.has s k || bool_decide (t = k).
Proof.
  intros Hk. case_bool_decide as Ht.
  - subst t. rewrite has_add_same by done. by rewrite orb_true_r.
  - rewrite has_add_other by done. by rewrite orb_false_r.
Qed.

Lemma has_remove s t k :
  k ≠ Undefined →
  DispatchKeySet.has (DispatchKeySet.remove s t) k =
  DispatchKeySet.has s k && negb (bool_decide (t = k)).
Proof.
  intros Hk. case_bool_decide as Ht.
  - subst t. rewrite has_remove_same. by rewrite andb_false_r.
  - rewrite has_remove_other by done. by rewrite andb_true_r.
Qed.

Lemma has_of_key t k :
  k ≠ Undefined →
  DispatchKeySet.has (DispatchKeySet.of_key t) k = bool_decide (t = k).
Proof.
  intros Hk.
  change (DispatchKeySet.of_key t) with (DispatchKeySet.add 0%N t).
  rewrite has_add by done.
  unfold DispatchKeySet.has. by rewrite N.land_0_l.
Qed.

Section TurnOn.
Context `{DispatchKeys}.

Lemma keysetToTurnOnSubsystem_eq key (w : World) :
  keysetToTurnOnSubsystem key w =
  let zeroed_in :=
    DispatchKeySet.minus (included_ (tls_local_dispatch_key_set w))
      all_dynlayer_keyset in
  let zeroed_ex :=
    DispatchKeySet.union (excluded_ (tls_local_dispatch_key_set w))
      all_dynlayer_keyset in
  match keysForEnteringDynamicLayer key w with
  | (Returned entering, _) =>
      (Returned
         {| included_ := DispatchKeySet.add zeroed_in kDynamicLayerBackModeKey;
            excluded_ := DispatchKeySet.remove
                           (DispatchKeySet.minus zeroed_ex entering)
                           kDynamicLayerBackModeKey |}, w)
  | (Thrown e, _) => (Thrown e, w)
  | (Aborted y, _) => (Aborted y, w)
  end.
Proof.
  unfold keysetToTurnOnSubsystem, zeroedOutDynamicLayerKeyset,
    keysForEnteringDynamicLayer. unfold_monad.
  destruct (N.eqb key kBatchedKey); [done|]. by destruct (N.eqb key Autograd).
Qed.

(** The keys a layer turns on are among the keys that are zeroed out. *)
Lemma entering_in_all key (w : World) entering k :
  k ≠ Undefined →
  keysForEnteringDynamicLayer key w = (Returned entering, w) →
  DispatchKeySet.has entering k = true →
  DispatchKeySet.has all_dynlayer_keyset k = true.
Proof.
  intros Hk. unfold keysForEnteringDynamicLayer, all_dynlayer_keyset.
  unfold_monad.
  destruct (N.eqb key kBatchedKey).
  { intros [= <-]. rewrite has_union, !has_add, !has_of_key by done.
    intros ->. by rewrite !orb_true_r. }
  destruct (N.eqb key Autograd); [|done].
  intros [= <-]. rewrite has_union, !has_add, !has_of_key by done.
  intros [->| ->]%orb_true_iff; by rewrite ?orb_true_r.
Qed.

(** X9.  The key set a layer dispatches with.  [keysetToTurnOnSubsystem]
    fails with "Unsupported key: " for a key that is neither the batched key
    nor Autograd, and changes nothing.  For those two it returns a key set
    in which the back boundary key is included and not excluded; every other
    key of [all_dynlayer_keyset] is not included, and is excluded exactly
    when it is not one of the keys for entering the layer; and every key
    outside [all_dynlayer_keyset] is included and excluded as in the
    thread's key set. *)
Theorem keysetToTurnOnSubsystem_keys (key : DispatchKey) (w : World) :
  (key ≠ kBatchedKey → key ≠ Autograd →
   keysetToTurnOnSubsystem key w =
   (Thrown (InternalAssert "Unsupported key: "), w)) ∧
  (key = kBatchedKey ∨ key = Autograd →
   ∃ ks entering,
     keysetToTurnOnSubsystem key w = (Returned ks, w) ∧
     keysForEnteringDynamicLayer key w = (Returned entering, w) ∧
     (kDynamicLayerBackModeKey ≠ Undefined →
      DispatchKeySet.has (included_ ks) kDynamicLayerBackModeKey = true ∧
      DispatchKeySet.has (excluded_ ks) kDynamicLayerBackModeKey = false) ∧
     (∀ k, k ≠ Undefined → k ≠ kDynamicLayerBackModeKey →
           DispatchKeySet.has all_dynlayer_keyset k = true →
           DispatchKeySet.has (included_ ks) k = false ∧
           DispatchKeySet.has (excluded_ ks) k =
           negb (DispatchKeySet.has entering k)) ∧
     (∀ k, k ≠ Undefined →
           DispatchKeySet.has all_dynlayer_keyset k = false →
           DispatchKeySet.has (included_ ks) k =
           DispatchKeySet.has (included_ (tls_local_dispatch_key_set w)) k ∧
           DispatchKeySet.has (excluded_ ks) k =
           DispatchKeySet.has (excluded_ (tls_local_dispatch_key_set w)) k)).
Proof.
  split.
  - intros Hb Ha. rewrite keysetToTurnOnSubsystem_eq. cbv zeta.
    unfold keysForEnteringDynamicLayer. unfold_monad.
    apply N.eqb_neq in Hb, Ha. by rewrite Hb, Ha.
  - intros Hkey.
    assert (∃ entering,
              keysForEnteringDynamicLayer key w = (Returned entering, w))
      as [entering Hent].
    { unfold keysForEnteringDynamicLayer. unfold_monad.
      destruct (N.eqb key kBatchedKey) eqn:Hb; [eauto|].
      destruct Hkey as [->| ->]; [by rewrite N.eqb_refl in Hb|].
      rewrite N.eqb_refl. eauto. }
    eexists _, entering. rewrite keysetToTurnOnSubsystem_eq. cbv zeta.
    rewrite Hent. split; [reflexivity|]. split; [reflexivity|]. simpl.
    split; [|split].
    + intros Hback. split; [by apply has_add_same|apply has_remove_same].
    + intros k Hk Hne Hall.
      rewrite has_add, has_remove, !has_minus, has_union by done.
      rewrite Hall, bool_decide_eq_false_2 by done.
      rewrite andb_false_r, orb_true_r, andb_true_r. done.
    + intros k Hk Hall.
      assert (k ≠ kDynamicLayerBackModeKey) as Hne.
      { intros ->. unfold all_dynlayer_keyset in Hall.
        rewrite has_union, !has_add in Hall by done.
        rewrite (bool_decide_eq_true_2 (kDynamicLayerBackModeKey
                                        = kDynamicLayerBackModeKey)) in Hall
          by done.
        by rewrite ?orb_true_r in Hall. }
      assert (DispatchKeySet.has entering k = false) as Hout.
      { destruct (DispatchKeySet.has entering k) eqn:Hin; [|done].
        by rewrite (entering_in_all key w entering k Hk Hent Hin) in Hall. }
      rewrite has_add, has_remove, !has_minus, has_union by done.
      rewrite Hall, Hout, bool_decide_eq_false_2 by done.
      by rewrite !andb_true_r, !orb_false_r.
Qed.

End TurnOn.

Section FrontFrame.
Context `{DispatchKeys} `{TensorWrapperLevel}.

(** The front handler stops before the operation is dispatched again, with
    only the call stack changed, or dispatches it once under a key set
    guard. *)
Lemma front_cases (schema : FunctionSchema) (w : World) :
  (∃ o js, o ≠ Returned tt ∧
           ∀ cb, dynamicLayerFrontFallback cb schema w = (o, with_jitStack js w)) ∨
  (∃ ks js, ∀ cb, dynamicLayerFrontFallback cb schema w =
                  ForceDispatchKeyGuard ks cb (with_jitStack js w)).
Proof.
  unfold dynamicLayerFrontFallback.
  destruct (0 <? Z.of_nat (length (dynamicLayerStack w))) eqn:Hsize; cycle 1.
  { left. eexists _, (jitStack w). split; [|intros cb].
    2:{ rewrite get_bind, Hsize, with_jitStack_id. reflexivity. }
    done. }
  pose proof (checkForInvalidMutationOnCaptures_frame
                schema (dynamicLayerStack w) w) as Hcheck.
  destruct (checkForInvalidMutationOnCaptures schema (dynamicLayerStack w) w)
    as [o1 w1] eqn:Hc. simpl in Hcheck. subst w1.
  destruct o1 as [[]|e|y]; cycle 1.
  { left. eexists _, (jitStack w). split; [|intros cb].
    2:{ rewrite get_bind, Hsize. simpl. rewrite bind_eq. simpl.
        rewrite bind_eq, Hc, with_jitStack_id. reflexivity. }
    done. }
  { left. eexists _, (jitStack w). split; [|intros cb].
    2:{ rewrite get_bind, Hsize. simpl. rewrite bind_eq. simpl.
        rewrite bind_eq, Hc, with_jitStack_id. reflexivity. }
    done. }
  destruct (foreachTensorInplace_frame maybeTransformGradWrappers
              (Z.of_nat (length (jitStack w))
               - Z.of_nat (length (arguments schema)))
              (Z.of_nat (length (jitStack w))) w
              maybeTransformGradWrappers_reads_no_args) as [js Hjs].
  destruct (foreachTensorInplace _ _ _ w) as [o2 w2] eqn:Hw. simpl in Hjs.
  subst w2.
  destruct o2 as [[]|e|y]; cycle 1.
  { left. eexists _, js. split; [|intros cb].
    2:{ rewrite get_bind, Hsize. simpl. rewrite bind_eq. simpl.
        rewrite bind_eq, Hc, bind_eq, Hw. reflexivity. }
    done. }
  { left. eexists _, js. split; [|intros cb].
    2:{ rewrite get_bind, Hsize. simpl. rewrite bind_eq. simpl.
        rewrite bind_eq, Hc, bind_eq, Hw. reflexivity. }
    done. }
  destruct (last (dynamicLayerStack w)) as [layer|] eqn:Hlast; cycle 1.
  { left. eexists _, js. split; [|intros cb].
    2:{ rewrite get_bind, Hsize. simpl. rewrite bind_eq. simpl.
        rewrite bind_eq, Hc, bind_eq, Hw, Hlast. reflexivity. }
    done. }
  pose proof (keysetToTurnOnSubsystem_eq (key_ layer) (with_jitStack js w))
    as Hks. cbv zeta in Hks.
  destruct (keysForEnteringDynamicLayer (key_ layer) (with_jitStack js w))
    as [[entering|e|y] w3].
  - right. eexists _, js. intros cb.
    rewrite get_bind, Hsize. simpl. rewrite bind_eq. simpl.
    rewrite bind_eq, Hc, bind_eq, Hw, Hlast, bind_eq, Hks. reflexivity.
  - left. eexists _, js. split; [|intros cb].
    2:{ rewrite get_bind, Hsize. simpl. rewrite bind_eq. simpl.
        rewrite bind_eq, Hc, bind_eq, Hw, Hlast, bind_eq, Hks. reflexivity. }
    done.
  - left. eexists _, js. split; [|intros cb].
    2:{ rewrite get_bind, Hsize. simpl. rewrite bind_eq. simpl.
        rewrite bind_eq, Hc, bind_eq, Hw, Hlast, bind_eq, Hks. reflexivity. }
    done.
Qed.

(** X8.  The front handler gives back the key set it found.  Whatever the
    re-dispatched call does, short of ending the process, the thread's local
    dispatch key set after the front handler is the one before it, on return
    and on throw alike.  Either the handler stopped before the call, the same
    for every call, with nothing but the boxed call stack changed; or the
    call ran once, in the world of the handler's caller with other boxed
    values and another key set, and the handler's outcome is the call's and
    its world the one the call left, with the key set put back. *)
Theorem front_restores_key_set
    (callBoxed : M World unit) (schema : FunctionSchema) (w : World) :
  (∀ y, fst (dynamicLayerFrontFallback callBoxed schema w) ≠ Aborted y) →
  tls_local_dispatch_key_set (snd (dynamicLayerFrontFallback callBoxed schema w))
  = tls_local_dispatch_key_set w ∧
  ((∃ js, snd (dynamicLayerFrontFallback callBoxed schema w) = with_jitStack js w ∧
          fst (dynamicLayerFrontFallback callBoxed schema w) ≠ Returned tt ∧
          ∀ cb, dynamicLayerFrontFallback cb schema w =
                dynamicLayerFrontFallback callBoxed schema w) ∨
   (∃ js ks w_out,
      callBoxed (with_tls ks (with_jitStack js w)) =
        (fst (dynamicLayerFrontFallback callBoxed schema w), w_out) ∧
      snd (dynamicLayerFrontFallback callBoxed schema w) =
        with_tls (tls_local_dispatch_key_set w) w_out)).
Proof.
  intros Hlive.
  destruct (front_cases schema w) as [(o & js & Ho & Hstop)|(ks & js & Hcall)].
  - rewrite Hstop. simpl. split; [done|]. left. exists js.
    split; [done|]. split; [done|]. intros cb. by rewrite Hstop.
  - rewrite Hcall in Hlive |- *. rewrite ForceDispatchKeyGuard_eq in Hlive |- *.
    destruct (callBoxed (with_tls ks (with_jitStack js w))) as [[[]|e|y] w_out]
      eqn:Hcb; simpl in *; [| |by destruct (Hlive y)];
      (split; [done|]); right; exists js, ks, w_out; by rewrite Hcb.
Qed.

(** X10.  The front handler under a layer that is not a Differentiation
    layer.  The mutation check returns, every tensor argument is replaced by
    its underlying value if its wrapper is dead and is otherwise left as it
    is, no wrapper is made, and under a Batching layer the operation is
    dispatched with the vmap mode key included. *)
Theorem front_without_wrapping
    (schema : FunctionSchema) (w : World) (top : DynamicLayer) :
  last (dynamicLayerStack w) = Some top →
  key_ top ≠ Autograd →
  checkForInvalidMutationOnCaptures schema (dynamicLayerStack w) w
    = (Returned tt, w) ∧
  (∀ t, maybeTransformGradWrappers t w =
        (Returned (unwrapped_if_dead (flags w) t), w)) ∧
  (key_ top = kBatchedKey →
   ∀ pre args,
     jitStack w = pre ++ args →
     length args = length (arguments schema) →
     match mapM (transform_arg
                   (λ t, Returned (unwrapped_if_dead (flags w) t))) args with
     | Some args' =>
         ∃ ks, (kVmapModeKey ≠ Undefined →
                DispatchKeySet.has (included_ ks) kVmapModeKey = true) ∧
               ∀ cb, dynamicLayerFrontFallback cb schema w =
                     ForceDispatchKeyGuard ks cb (with_jitStack (pre ++ args') w)
     | None =>
         ∀ cb, fst (dynamicLayerFrontFallback cb schema w) ≠ Returned tt
     end).
Proof.
  intros Htop Hk. apply N.eqb_neq in Hk as Hk'.
  assert (checkForInvalidMutationOnCaptures schema (dynamicLayerStack w) w
          = (Returned tt, w)) as Hcheck.
  { unfold checkForInvalidMutationOnCaptures. by rewrite Htop, Hk'. }
  assert (∀ t, maybeTransformGradWrappers t w =
               (Returned (unwrapped_if_dead (flags w) t), w)) as Hmt.
  { intros t. rewrite maybeTransformGradWrappers_closed,
      materializeGradWrappers_closed, Htop, Hk'.
    by destruct (negb (defined _)). }
  split; [done|]. split; [done|].
  intros Hb pre args Hjs Hlen.
  pose proof (foreachTensorInplace_spec maybeTransformGradWrappers w pre args []
                maybeTransformGradWrappers_reads_no_args) as Hwalk.
  rewrite app_nil_r, <- Hjs, with_jitStack_id in Hwalk.
  assert (mapM (transform_arg (λ t, fst (maybeTransformGradWrappers t w))) args
          = mapM (transform_arg
                    (λ t, Returned (unwrapped_if_dead (flags w) t))) args) as Hm.
  { apply Forall2_mapM_ext, Forall_Forall2_diag, Forall_forall.
    intros v _. destruct v as [t|elts| |z]; simpl; [by rewrite Hmt| |done..].
    f_equal. apply Forall2_mapM_ext, Forall_Forall2_diag, Forall_forall.
    intros elt _. destruct elt as [t| | |]; simpl; [by rewrite Hmt|done..]. }
  rewrite Hm in Hwalk.
  assert (Z.of_nat (length (jitStack w)) - Z.of_nat (length (arguments schema))
          = Z.of_nat (length pre)) as Hbegin
    by (rewrite Hjs, length_app; lia).
  assert (Z.of_nat (length (jitStack w))
          = Z.of_nat (length pre) + Z.of_nat (length args)) as Hend
    by (rewrite Hjs, length_app; lia).
  destruct (last_Some (dynamicLayerStack w) top) as [[s Hs] _]; [done|].
  assert ((0 <? Z.of_nat (length (dynamicLayerStack w))) = true) as Hsize
    by (apply Z.ltb_lt; rewrite Hs, length_app; simpl; lia).
  destruct (mapM _ args) as [args'|].
  - rewrite app_nil_r in Hwalk.
    pose proof (keysetToTurnOnSubsystem_eq (key_ top)
                  (with_jitStack (pre ++ args') w)) as Hks.
    cbv zeta in Hks. unfold keysForEnteringDynamicLayer in Hks.
    rewrite Hb, N.eqb_refl in Hks. simpl in Hks.
    eexists. split; cycle 1.
    + intros cb. unfold dynamicLayerFrontFallback.
      rewrite get_bind, Hsize. simpl. rewrite bind_eq. simpl.
      rewrite bind_eq, Hcheck, bind_eq, Hbegin, Hend, Hwalk, Htop, bind_eq.
      rewrite Hb, Hks, N.eqb_refl. reflexivity.
    + intros Hv. simpl. by apply has_add_same.
  - destruct Hwalk as [Hwalk _]. intros cb. unfold dynamicLayerFrontFallback.
    rewrite get_bind, Hsize. simpl. rewrite bind_eq. simpl.
    rewrite bind_eq, Hcheck, bind_eq, Hbegin, Hend.
    by destruct (foreachTensorInplace _ _ _ w) as [[[]|e|y] w1].
Qed.

End FrontFrame.

Lemma front_restores_key_set_witness :
  (∀ y, fst (dynamicLayerFrontFallback (H := example_keys)
               (H0 := level_while_alive) (throw (Foreign 7)) mul_schema grad_world)
        ≠ Aborted y) ∧
  tls_local_dispatch_key_set
    (snd (dynamicLayerFrontFallback (H := example_keys)
            (H0 := level_while_alive) (throw (Foreign 7)) mul_schema grad_world))
  = tls_local_dispatch_key_set grad_world.
Proof.
  assert (∀ y, fst (dynamicLayerFrontFallback (H := example_keys)
                      (H0 := level_while_alive) (throw (Foreign 7)) mul_schema
                      grad_world) ≠ Aborted y) as H1
    by (intros y; vm_compute; discriminate).
  split; [exact H1|].
  exact (proj1 (front_restores_key_set (H := example_keys)
                  (H0 := level_while_alive) (throw (Foreign 7)) mul_schema
                  grad_world H1)).
Defined.

Lemma front_without_wrapping_witness :
  last (dynamicLayerStack vmap_world) = Some vmap_layer ∧
  key_ vmap_layer ≠ @Autograd example_keys ∧
  maybeTransformGradWrappers (H := example_keys) (H0 := level_while_alive)
    (Wrapped (Plain 7) 3 5%nat) vmap_world = (Returned (Plain 7), vmap_world).
Proof.
  assert (last (dynamicLayerStack vmap_world) = Some vmap_layer) as H1
    by (vm_compute; reflexivity).
  assert (key_ vmap_layer ≠ @Autograd example_keys) as H2 by done.
  split; [exact H1|]. split; [exact H2|].
  exact (proj1 (proj2 (front_without_wrapping (H := example_keys)
                         (H0 := level_while_alive) mul_schema vmap_world
                         vmap_layer H1 H2)) (Wrapped (Plain 7) 3 5%nat)).
Defined.

Section WrapUnwrap.
Context `{DispatchKeys} `{TensorWrapperLevel}.

(** A wrapper made for a registered level comes through the front closure
    unchanged. *)
Lemma wrapper_at_top_stays (w : World) (top : DynamicLayer) r h :
  last (dynamicLayerStack w) = Some top →
  key_ top = Autograd →
  level_tracks_liveness (flags w) →
  flags w !! h = Some true →
  maybeTransformGradWrappers (Wrapped r (layerId_ top) h) w =
  (Returned (Wrapped r (layerId_ top) h), w).
Proof.
  intros Htop Hk Hlvl Hh.
  rewrite (maybeTransformGradWrappers_eq _ w top) by done. cbv zeta.
  assert (unwrapped_if_dead (flags w) (Wrapped r (layerId_ top) h)
          = Wrapped r (layerId_ top) h) as ->.
  { unfold unwrapped_if_dead, is_alive. simpl. by rewrite Hh. }
  simpl. rewrite Hlvl. unfold is_alive. simpl. rewrite Hh. simpl.
  by rewrite Z.leb_refl, Z.eqb_refl.
Qed.

Lemma alive_wrapper_not_unwrapped (fl : list bool) r wrapper l :
  level_tracks_liveness fl →
  maybeGetTensorWrapper r = Some wrapper →
  wrapper_level fl wrapper = Some l →
  unwrapped_if_dead fl r = r ∧ l = wrapper_level_ wrapper.
Proof.
  intros Hlvl Hr. rewrite Hlvl. unfold unwrapped_if_dead. rewrite Hr.
  destruct (is_alive fl wrapper); [|done]. by intros [= <-].
Qed.

(** X11.  The front closure is idempotent.  In a world whose registered
    flags are set, and with a [level()] that is the stored level exactly
    while the wrapper is alive, under a Differentiation layer: when
    [maybeTransformGradWrappers] returns, it has changed nothing of the
    world, its result if defined is a wrapper at the level of the top layer,
    and applying it to its result returns that result again. *)
Theorem front_wrapping_idempotent
    (w w' : World) (top : DynamicLayer) (t t' : Tensor) :
  last (dynamicLayerStack w) = Some top →
  key_ top = Autograd →
  registry_wf w →
  level_tracks_liveness (flags w) →
  maybeTransformGradWrappers t w = (Returned t', w') →
  w' = w ∧
  (defined t' = true → wrapped_at (flags w) t' (layerId_ top)) ∧
  maybeTransformGradWrappers t' w = (Returned t', w).
Proof.
  intros Htop Hk [Htrue _] Hlvl.
  rewrite (maybeTransformGradWrappers_eq t w top) by done. cbv zeta.
  set (r := unwrapped_if_dead (flags w) t).
  assert (∀ h, kDynMetaDataSingleton w !! layerId_ top = Some h →
               wrapped_at (flags w) (Wrapped r (layerId_ top) h) (layerId_ top))
    as Hfresh.
  { intros h Hh. eexists. split; [reflexivity|]. rewrite Hlvl.
    unfold is_alive. simpl. by rewrite (Htrue _ _ Hh). }
  destruct (negb (defined r)) eqn:Hdef.
  { intros [= <- <-]. split; [done|]. split.
    - intros Hd. by rewrite Hd in Hdef.
    - rewrite (maybeTransformGradWrappers_eq r w top) by done. cbv zeta.
      destruct r; try done. }
  destruct (maybeGetTensorWrapper r) as [wrapper|] eqn:Hr.
  - destruct (wrapper_level (flags w) wrapper) as [l|] eqn:Hl; [|done].
    destruct (alive_wrapper_not_unwrapped (flags w) r wrapper l Hlvl Hr Hl)
      as [Hsame _].
    destruct (l <=? layerId_ top) eqn:Hle; [|done].
    destruct (l =? layerId_ top) eqn:Heq.
    + intros [= <- <-]. apply Z.eqb_eq in Heq as ->. split; [done|]. split.
      * intros _. by exists wrapper.
      * rewrite (maybeTransformGradWrappers_eq r w top) by done. cbv zeta.
        rewrite Hsame, Hdef, Hr, Hl. by rewrite Z.leb_refl, Z.eqb_refl.
    + rewrite makeTensorWrapper_eq.
      destruct (kDynMetaDataSingleton w !! layerId_ top) as [h|] eqn:Hh; [|done].
      intros [= <- <-]. split; [done|]. split; [by intros _; apply Hfresh|].
      apply wrapper_at_top_stays; eauto.
  - rewrite makeTensorWrapper_eq.
    destruct (kDynMetaDataSingleton w !! layerId_ top) as [h|] eqn:Hh; [|done].
    intros [= <- <-]. split; [done|]. split; [by intros _; apply Hfresh|].
    apply wrapper_at_top_stays; eauto.
Qed.

(** X12.  Wrapping and unwrapping are inverse at one level.  In a world whose
    registered flags are set, with a [level()] as above: what the back
    handler's [wrap] makes of a tensor at a registered level, its [unwrap]
    at that level turns back into the tensor; and what the front closure
    returns for a tensor under a Differentiation layer, [unwrap] at the
    layer's level turns into what it makes of the tensor itself once dead
    wrappers are taken off, which for a tensor that is not a wrapper is the
    tensor. *)
Theorem wrap_unwrap_round_trip (w : World) (top : DynamicLayer) :
  registry_wf w →
  level_tracks_liveness (flags w) →
  (is_Some (kDynMetaDataSingleton w !! layerId_ top) →
   ∀ t, ∃ t', wrap (layerId_ top) t w = (Returned t', w) ∧
              unwrap (layerId_ top) t' w = (Returned t, w)) ∧
  (last (dynamicLayerStack w) = Some top → key_ top = Autograd →
   ∀ t t' w',
     maybeTransformGradWrappers t w = (Returned t', w') →
     unwrap (layerId_ top) t' w =
       unwrap (layerId_ top) (unwrapped_if_dead (flags w) t) w ∧
     (maybeGetTensorWrapper (unwrapped_if_dead (flags w) t) = None →
      unwrap (layerId_ top) t' w = (Returned (unwrapped_if_dead (flags w) t), w))).
Proof.
  intros [Htrue _] Hlvl.
  assert (∀ r h, kDynMetaDataSingleton w !! layerId_ top = Some h →
                 unwrap (layerId_ top) (Wrapped r (layerId_ top) h) w
                 = (Returned r, w)) as Hfresh.
  { intros r h Hh. rewrite unwrap_eq. simpl. rewrite Hlvl.
    unfold is_alive. simpl. rewrite (Htrue _ _ Hh). simpl.
    by rewrite Z.leb_refl, Z.eqb_refl. }
  split.
  - intros [h Hh] t. rewrite wrap_eq, makeTensorWrapper_eq, Hh.
    destruct (negb (defined t)) eqn:Hdef.
    + exists t. split; [done|]. rewrite unwrap_eq. by destruct t.
    + eexists. split; [done|]. by apply Hfresh.
  - intros Htop Hk t t' w'.
    rewrite (maybeTransformGradWrappers_eq t w top) by done. cbv zeta.
    set (r := unwrapped_if_dead (flags w) t).
    destruct (negb (defined r)) eqn:Hdef.
    { intros [= <- <-]. split; [done|]. intros Hn. by rewrite unwrap_eq, Hn. }
    destruct (maybeGetTensorWrapper r) as [wrapper|] eqn:Hr.
    + destruct (wrapper_level (flags w) wrapper) as [l|] eqn:Hl; [|done].
      destruct (l <=? layerId_ top) eqn:Hle; [|done].
      destruct (l =? layerId_ top) eqn:Heq.
      * intros [= <- <-]. split; [done|]. intros Hn. congruence.
      * rewrite makeTensorWrapper_eq.
        destruct (kDynMetaDataSingleton w !! layerId_ top) as [h|] eqn:Hh;
          [|done].
        intros [= <- <-]. split; [|done].
        rewrite (Hfresh r h eq_refl), (unwrap_eq _ r), Hr, Hl, Hle, Heq. done.
    + rewrite makeTensorWrapper_eq.
      destruct (kDynMetaDataSingleton w !! layerId_ top) as [h|] eqn:Hh; [|done].
      intros [= <- <-]. rewrite (Hfresh r h eq_refl). split; [|done].
      by rewrite (unwrap_eq _ r), Hr.
Qed.

End WrapUnwrap.

Lemma front_wrapping_idempotent_witness :
  last (dynamicLayerStack grad_world) = Some grad_layer ∧
  key_ grad_layer = @Autograd example_keys ∧
  registry_wf grad_world ∧
  level_tracks_liveness (H := level_while_alive) (flags grad_world) ∧
  maybeTransformGradWrappers (H := example_keys) (H0 := level_while_alive)
    (Plain 5) grad_world = (Returned (Wrapped (Plain 5) 1 0%nat), grad_world) ∧
  maybeTransformGradWrappers (H := example_keys) (H0 := level_while_alive)
    (Wrapped (Plain 5) 1 0%nat) grad_world =
  (Returned (Wrapped (Plain 5) 1 0%nat), grad_world).
Proof.
  assert (last (dynamicLayerStack grad_world) = Some grad_layer) as H1
    by (vm_compute; reflexivity).
  assert (key_ grad_layer = @Autograd example_keys) as H2 by reflexivity.
  assert (registry_wf initial_world) as H0.
  { split; intros *; simpl; by rewrite lookup_empty. }
  assert (registry_wf grad_world) as H3
    by exact (run_registry_wf (H := example_keys)
                [InitAndPush 62%N None None (Some true) (Some true)]
                initial_world H0).
  assert (level_tracks_liveness (H := level_while_alive) (flags grad_world))
    as H4 by (intros wrapper; reflexivity).
  assert (maybeTransformGradWrappers (H := example_keys)
            (H0 := level_while_alive) (Plain 5) grad_world
          = (Returned (Wrapped (Plain 5) 1 0%nat), grad_world)) as H5
    by (vm_compute; reflexivity).
  repeat (split; [assumption|]).
  exact (proj2 (proj2 (front_wrapping_idempotent (H := example_keys)
                         (H0 := level_while_alive) grad_world grad_world
                         grad_layer (Plain 5) (Wrapped (Plain 5) 1 0%nat)
                         H1 H2 H3 H4 H5))).
Defined.

Lemma wrap_unwrap_round_trip_witness :
  registry_wf grad_world ∧
  level_tracks_liveness (H := level_while_alive) (flags grad_world) ∧
  ∃ t', wrap (layerId_ grad_layer) (Plain 5) grad_world
        = (Returned t', grad_world) ∧
        unwrap (H0 := level_while_alive) (layerId_ grad_layer) t' grad_world
        = (Returned (Plain 5), grad_world).
Proof.
  assert (registry_wf initial_world) as H0.
  { split; intros *; simpl; by rewrite lookup_empty. }
  assert (registry_wf grad_world) as H1
    by exact (run_registry_wf (H := example_keys)
                [InitAndPush 62%N None None (Some true) (Some true)]
                initial_world H0).
  assert (level_tracks_liveness (H := level_while_alive) (flags grad_world))
    as H2 by (intros wrapper; reflexivity).
  split; [exact H1|]. split; [exact H2|].
  apply (proj1 (wrap_unwrap_round_trip (H := example_keys)
                  (H0 := level_while_alive) grad_world grad_layer H1 H2)).
  vm_compute. eauto.
Defined.

(** *** The way back out of the back handler *)

Section BackReturn.
Context `{DispatchKeys} `{TensorWrapperLevel}.

Lemma refresh_loop (w0 : World) pre post :
  ∀ (rest done : list IValue) (rm : list TensorWrapper),
    for_range (length rest) (Z.of_nat (length done))
      (back_refresh_arg (Z.of_nat (length pre)))
      (with_refreshedMetadata rm
         (with_jitStack (pre ++ done ++ rest ++ post) w0)) =
    (Returned tt,
     with_refreshedMetadata (rm ++ refreshed_by rest)
       (with_jitStack (pre ++ done ++ rest ++ post) w0)).
Proof.
  induction rest as [|v rest IH]; intros done rm.
  { simpl. by rewrite app_nil_r. }
  cbn [length for_range]. rewrite bind_eq.
  unfold back_refresh_arg at 1. rewrite get_bind.
  change (jitStack (with_refreshedMetadata rm
            (with_jitStack (pre ++ done ++ (v :: rest) ++ post) w0)))
    with (pre ++ done ++ (v :: rest) ++ post).
  replace (Z.of_nat (length pre) + Z.of_nat (length done))
    with (Z.of_nat (length (pre ++ done))) by (rewrite length_app; lia).
  rewrite at_index_of_nat, (assoc_L (++) pre done), lookup_app_r by done.
  rewrite Nat.sub_diag. simpl.
  pose proof (IH (done ++ [v]) (rm ++ refreshed_by [v])) as Hrest.
  rewrite length_app, Nat2Z.inj_add in Hrest. simpl in Hrest.
  rewrite <- !(assoc_L (++)) in Hrest. simpl in Hrest.
  rewrite <- !(assoc_L (++)).
  destruct v as [t| | |]; simpl in *;
    try (rewrite app_nil_r in Hrest; exact Hrest).
  destruct (maybeGetTensorWrapper t) as [wrapper|] eqn:Ht; simpl in *.
  - exact Hrest.
  - rewrite app_nil_r in Hrest. exact Hrest.
Qed.

Lemma back_wrap_results_and_drop_args_spec schema cur_level w pre args rets :
  jitStack w = pre ++ args ++ rets →
  length args = length (arguments schema) →
  length rets = length (returns schema) →
  match mapM (transform_arg (λ t, fst (wrap cur_level t w))) rets with
  | Some rets' =>
      back_wrap_results_and_drop_args schema cur_level w =
      (Returned tt,
       with_refreshedMetadata (refreshedMetadata w ++ refreshed_by args)
         (with_jitStack (pre ++ rets') w))
  | None =>
      fst (back_wrap_results_and_drop_args schema cur_level w) ≠ Returned tt
  end.
Proof.
  intros Hjs Hargs Hrets. unfold back_wrap_results_and_drop_args.
  rewrite get_bind. cbv zeta. rewrite bind_eq.
  pose proof (foreachTensorInplace_spec (wrap cur_level) w (pre ++ args) rets []
                (wrap_reads_no_args cur_level)) as Hwalk.
  rewrite app_nil_r, <- (assoc_L (++)), <- Hjs, with_jitStack_id in Hwalk.
  replace (Z.of_nat (length (jitStack w)) - Z.of_nat (length (returns schema)))
    with (Z.of_nat (length (pre ++ args)))
    by (rewrite Hjs, !length_app; lia).
  replace (Z.of_nat (length (jitStack w)))
    with (Z.of_nat (length (pre ++ args)) + Z.of_nat (length rets))
    by (rewrite Hjs, !length_app; lia).
  destruct (mapM _ rets) as [rets'|] eqn:Hm.
  - apply length_mapM in Hm. rewrite app_nil_r in Hwalk. rewrite Hwalk.
    rewrite bind_eq.
    replace (Z.of_nat (length (pre ++ args)) + Z.of_nat (length rets)
             - Z.of_nat (length (arguments schema))
             - Z.of_nat (length (returns schema)))
      with (Z.of_nat (length pre)) by (rewrite length_app; lia).
    pose proof (refresh_loop w pre rets' args [] (refreshedMetadata w)) as Hloop.
    simpl in Hloop. rewrite Hargs in Hloop.
    change (with_refreshedMetadata (refreshedMetadata w)
              (with_jitStack (pre ++ args ++ rets') w))
      with (with_jitStack (pre ++ args ++ rets') w) in Hloop.
    change (Z.of_nat 0) with 0 in Hloop.
    rewrite <- (assoc_L (++)), Hloop.
    rewrite get_bind.
    change (jitStack (with_refreshedMetadata _
              (with_jitStack (pre ++ args ++ rets') w)))
      with (pre ++ args ++ rets').
    replace (length (pre ++ args ++ rets')
             <? length (arguments schema) + length (returns schema))%nat
      with false
      by (symmetry; apply Nat.ltb_ge; rewrite !length_app; lia).
    unfold modify. f_equal. unfold with_jitStack, with_refreshedMetadata.
    simpl. f_equal.
    replace (length (pre ++ args ++ rets')
             - (length (arguments schema) + length (returns schema)))%nat
      with (length pre) by (rewrite !length_app; lia).
    replace (length (pre ++ args ++ rets') - length (returns schema))%nat
      with (length (pre ++ args)) by (rewrite !length_app; lia).
    rewrite take_app_length, (assoc_L (++)), drop_app_length. done.
  - destruct Hwalk as [Hwalk _].
    by destruct (foreachTensorInplace _ _ _ w) as [[[]|e|y] w1].
Qed.





(** X13.  Steps 4 to 6 of the back handler.  With the original arguments
    and, above them, the results on the boxed call stack,
    [back_wrap_results_and_drop_args] wraps the results at the level of the
    layer, calls [refreshMetadata] once on every original argument that is a
    wrapped tensor, in the order of the arguments and on no other value, and
    takes the original arguments away, leaving the results where the
    arguments began and everything below them as it was; but for the call
    stack and the record of the [refreshMetadata] calls the world is as
    before.  A defined tensor result becomes a wrapper with the level and the
    life handle the registry has for it, an undefined one stays; and when the
    registry has no entry for the level, a defined tensor among the results
    keeps the step from returning. *)
Theorem back_epilogue
    (schema : FunctionSchema) (cur_level : Z) (w : World)
    (pre args rets : list IValue) :
  jitStack w = pre ++ args ++ rets →
  length args = length (arguments schema) →
  length rets = length (returns schema) →
  match mapM (transform_arg (λ t, fst (wrap cur_level t w))) rets with
  | Some rets' =>
      back_wrap_results_and_drop_args schema cur_level w =
        (Returned tt,
         with_refreshedMetadata (refreshedMetadata w ++ refreshed_by args)
           (with_jitStack (pre ++ rets') w)) ∧
      length rets' = length rets
  | None =>
      fst (back_wrap_results_and_drop_args schema cur_level w) ≠ Returned tt
  end ∧
  (∀ wrapper, wrapper ∈ refreshed_by args ↔
              ∃ t, IVTensor t ∈ args ∧ maybeGetTensorWrapper t = Some wrapper) ∧
  (∀ h t, kDynMetaDataSingleton w !! cur_level = Some h → defined t = true →
          transform_arg (λ t, fst (wrap cur_level t w)) (IVTensor t) =
          Some (IVTensor (Wrapped t cur_level h))) ∧
  transform_arg (λ t, fst (wrap cur_level t w)) (IVTensor UndefinedTensor) =
    Some (IVTensor UndefinedTensor) ∧
  (∀ t, kDynMetaDataSingleton w !! cur_level = None → defined t = true →
        IVTensor t ∈ rets →
        fst (back_wrap_results_and_drop_args schema cur_level w) ≠ Returned tt).
Proof.
  intros Hjs Hargs Hrets.
  pose proof (back_wrap_results_and_drop_args_spec schema cur_level w
                pre args rets Hjs Hargs Hrets) as Hspec.
  split; [|split; [|split; [|split]]].
  - destruct (mapM _ rets) as [rets'|] eqn:Hm; [|done].
    split; [done|]. symmetry. by eapply length_mapM.
  - intros wrapper. unfold refreshed_by. rewrite list_elem_of_omap. split.
    + intros (v & Hv & Hw). destruct v as [t| | |]; try done. eauto.
    + intros (t & Ht & Hw). by exists (IVTensor t).
  - intros h t Hh Hd. simpl. by rewrite wrap_eq, makeTensorWrapper_eq, Hh, Hd.
  - done.
  - intros t Hnone Hd Hin.
    destruct (mapM _ rets) as [rets'|] eqn:Hm; [|done].
    apply mapM_Some_1 in Hm.
    apply list_elem_of_lookup_1 in Hin as [i Hi].
    destruct (Forall2_lookup_l _ _ _ _ _ Hm Hi) as (v' & _ & Hv').
    simpl in Hv'. by rewrite wrap_eq, makeTensorWrapper_eq, Hnone, Hd in Hv'.
Qed.




(** X15.  The world of the re-dispatched call.  When steps 1 and 2 have
    returned, the back handler runs the call in a world that has the
    registry and the flags of the handler's caller and the boxed call stack
    steps 1 and 2 left; gradient mode is off there when the layer is a
    Differentiation layer that was entered with gradient mode off, and is as
    the caller has it otherwise, and the same for forward gradient mode;
    under a layer of another kind nothing but the layer stack and the key
    set differs from the caller's world. *)
Theorem back_call_modes
    (schema : FunctionSchema) (w w1 : World) (top : DynamicLayer) :
  last (dynamicLayerStack w) = Some top →
  key_ top ≠ Undefined →
  (key_ top = Autograd →
   is_Some (prevGradMode_ top) ∨ is_Some (prevFwdGradMode_ top)) →
  (length (arguments schema) ≤ length (jitStack w))%nat →
  (if N.eqb (key_ top) Autograd
   then back_copy_and_unwrap_args schema (layerId_ top)
   else mret tt) w = (Returned tt, w1) →
  (∀ callBoxed,
     dynamicLayerBackFallback callBoxed schema w =
     back_exit top w1
       ((callBoxed;;
         if N.eqb (key_ top) Autograd
         then back_wrap_results_and_drop_args schema (layerId_ top)
         else mret tt) (back_call_world top w1))) ∧
  kDynMetaDataSingleton (back_call_world top w1) = kDynMetaDataSingleton w ∧
  flags (back_call_world top w1) = flags w ∧
  jitStack (back_call_world top w1) = jitStack w1 ∧
  GradMode_enabled (back_call_world top w1) =
    (if N.eqb (key_ top) Autograd && bool_decide (prevGradMode_ top = Some false)
     then false else GradMode_enabled w) ∧
  FwGradMode_enabled (back_call_world top w1) =
    (if N.eqb (key_ top) Autograd
        && bool_decide (prevFwdGradMode_ top = Some false)
     then false else FwGradMode_enabled w) ∧
  (key_ top ≠ Autograd →
   w1 = w ∧
   GradMode_enabled (back_call_world top w1) = GradMode_enabled w ∧
   FwGradMode_enabled (back_call_world top w1) = FwGradMode_enabled w).
Proof.
  intros Htop Hk Hmodes Hlen Hsteps.
  destruct (back_steps_frame schema top w w1 Hlen Hsteps) as [js Hw1].
  assert (dynamicLayerStack w1 = dynamicLayerStack w) as Hst by (by subst w1).
  split.
  { intros callBoxed. by apply back_decompose. }
  assert (∀ w2 : World,
            kDynMetaDataSingleton (back_popped_world w2) = kDynMetaDataSingleton w2 ∧
            flags (back_popped_world w2) = flags w2) as Hpop.
  { intros w2. rewrite back_popped_world_eq.
    by rewrite registry_toggle, flags_toggle. }
  assert (GradMode_enabled (back_call_world top w1) =
          (if grad_override top then false else GradMode_enabled w)) as Hg.
  { unfold back_call_world. cbv zeta. simpl.
    destruct (grad_override top), (fw_grad_override top); simpl;
      rewrite ?GradMode_popped; by subst w1. }
  assert (FwGradMode_enabled (back_call_world top w1) =
          (if fw_grad_override top then false else FwGradMode_enabled w)) as Hfg.
  { unfold back_call_world. cbv zeta. simpl.
    destruct (grad_override top), (fw_grad_override top); simpl;
      rewrite ?FwGradMode_popped; by subst w1. }
  split; [|split; [|split; [|split; [|split]]]].
  - unfold back_call_world. cbv zeta. simpl.
    destruct (grad_override top), (fw_grad_override top); simpl;
      rewrite (proj1 (Hpop w1)); by subst w1.
  - unfold back_call_world. cbv zeta. simpl.
    destruct (grad_override top), (fw_grad_override top); simpl;
      rewrite (proj2 (Hpop w1)); by subst w1.
  - apply jitStack_call_world.
  - exact Hg.
  - exact Hfg.
  - intros Hne. apply N.eqb_neq in Hne. rewrite Hne in Hsteps.
    injection Hsteps as <-. split; [done|].
    rewrite Hg, Hfg. unfold grad_override, fw_grad_override. by rewrite Hne.
Qed.

End BackReturn.

Lemma back_epilogue_witness :
  jitStack (with_jitStack [IVTensor (Wrapped (Plain 5) 1 0%nat);
                           IVTensor (Plain 6); IVTensor (Plain 30)] grad_world) =
    [] ++ [IVTensor (Wrapped (Plain 5) 1 0%nat); IVTensor (Plain 6)]
       ++ [IVTensor (Plain 30)] ∧
  length [IVTensor (Wrapped (Plain 5) 1 0%nat); IVTensor (Plain 6)]
    = length (arguments mul_schema) ∧
  length [IVTensor (Plain 30)] = length (returns mul_schema) ∧
  back_wrap_results_and_drop_args mul_schema 1
    (with_jitStack [IVTensor (Wrapped (Plain 5) 1 0%nat);
                    IVTensor (Plain 6); IVTensor (Plain 30)] grad_world) =
  (Returned tt,
   with_refreshedMetadata
     ([] ++ [{| value := Plain 5; wrapper_level_ := 1;
                wrapper_is_alive_ := 0%nat |}])
     (with_jitStack ([] ++ [IVTensor (Wrapped (Plain 30) 1 0%nat)])
        (with_jitStack [IVTensor (Wrapped (Plain 5) 1 0%nat);
                        IVTensor (Plain 6); IVTensor (Plain 30)] grad_world))).
Proof.
  assert (jitStack (with_jitStack [IVTensor (Wrapped (Plain 5) 1 0%nat);
                                   IVTensor (Plain 6); IVTensor (Plain 30)]
                      grad_world) =
          [] ++ [IVTensor (Wrapped (Plain 5) 1 0%nat); IVTensor (Plain 6)]
             ++ [IVTensor (Plain 30)]) as H1 by reflexivity.
  assert (length [IVTensor (Wrapped (Plain 5) 1 0%nat); IVTensor (Plain 6)]
          = length (arguments mul_schema)) as H2 by reflexivity.
  assert (length [IVTensor (Plain 30)] = length (returns mul_schema)) as H3
    by reflexivity.
  repeat (split; [assumption|]).
  exact (proj1 (proj1 (back_epilogue mul_schema 1 _ []
                         [IVTensor (Wrapped (Plain 5) 1 0%nat);
                          IVTensor (Plain 6)]
                         [IVTensor (Plain 30)] H1 H2 H3))).
Defined.


Lemma back_call_modes_witness :
  last (dynamicLayerStack nested_world) = Some nested_top ∧
  key_ nested_top ≠ Undefined ∧
  (length (arguments mul_schema) ≤ length (jitStack nested_world))%nat ∧
  GradMode_enabled nested_world = true ∧
  GradMode_enabled
    (back_call_world (H := example_keys) nested_top
       (with_jitStack
          [IVTensor (Wrapped (Plain 5) 2 1%nat); IVTensor (Plain 6);
           IVTensor (Plain 5); IVTensor (Plain 6)] nested_world)) = false.
Proof.
  assert (last (dynamicLayerStack nested_world) = Some nested_top) as H1
    by (vm_compute; reflexivity).
  assert (key_ nested_top ≠ Undefined) as H2 by done.
  assert (key_ nested_top = @Autograd example_keys →
          is_Some (prevGradMode_ nested_top)
          ∨ is_Some (prevFwdGradMode_ nested_top)) as H3 by (left; eauto).
  assert (length (arguments mul_schema) ≤ length (jitStack nested_world))%nat
    as H4 by (vm_compute; lia).
  assert ((if N.eqb (key_ nested_top) (@Autograd example_keys)
           then back_copy_and_unwrap_args (H0 := level_while_alive)
                  mul_schema (layerId_ nested_top)
           else mret tt) nested_world =
          (Returned tt,
           with_jitStack
             [IVTensor (Wrapped (Plain 5) 2 1%nat); IVTensor (Plain 6);
              IVTensor (Plain 5); IVTensor (Plain 6)] nested_world)) as H5
    by (vm_compute; reflexivity).
  split; [exact H1|]. split; [exact H2|]. split; [exact H4|].
  split; [reflexivity|].
  exact (proj1 (proj2 (proj2 (proj2 (proj2
           (back_call_modes (H := example_keys) (H0 := level_while_alive)
              mul_schema nested_world _ nested_top H1 H2 H3 H4 H5)))))).
Defined.

Section AutogradFunction.
Context `{DispatchKeys}.

(** X17.  Support for autograd.Function and the layers alive.
    [checkSupportsAutogradFunction] never changes the world.  After any
    sequence of the public push and pop-and-invalidate operations, started
    with an empty stack and an empty registry, it returns 0 exactly when
    level 2 has no registry entry, that is when at most one layer is alive,
    and fails its check otherwise; so with exactly one layer on the stack it
    returns 0 although [areTransformsActive] returns true. *)
Theorem autograd_function_support (ops : list Op) (w0 : World) :
  dynamicLayerStack w0 = [] →
  kDynMetaDataSingleton w0 = ∅ →
  Forall (λ o, is_public_push_or_pop o = true) ops →
  snd (checkSupportsAutogradFunction (run ops w0)) = run ops w0 ∧
  (checkSupportsAutogradFunction (run ops w0) = (Returned 0, run ops w0) ↔
   kDynMetaDataSingleton (run ops w0) !! 2 = None) ∧
  (checkSupportsAutogradFunction (run ops w0) =
     (Thrown (CheckFailed autograd_function_message), run ops w0) ↔
   is_Some (kDynMetaDataSingleton (run ops w0) !! 2)) ∧
  (length (dynamicLayerStack (run ops w0)) = 1%nat →
   checkSupportsAutogradFunction (run ops w0) = (Returned 0, run ops w0) ∧
   areTransformsActive (run ops w0) = (Returned true, run ops w0)).
Proof.
  intros Hs0 Hr0 Hops.
  destruct (run_public_inv ops w0 Hops) as [_ Hreg].
  { split; [rewrite Hs0; apply levels_ok_nil|].
    intros k. rewrite Hr0, Hs0, lookup_empty. simpl. split; [by intros [? ?]|lia]. }
  set (w := run ops w0) in *.
  assert (checkSupportsAutogradFunction w =
          if (length (dynamicLayerStack w) <=? 1)%nat then (Returned 0, w)
          else (Thrown (CheckFailed autograd_function_message), w)) as Hc.
  { unfold checkSupportsAutogradFunction. unfold_monad.
    by destruct (length (dynamicLayerStack w) <=? 1)%nat. }
  pose proof (Hreg 2) as H2.
  rewrite Hc. split; [by destruct (_ <=? _)%nat|]. split; [|split].
  - destruct (Nat.leb_spec (length (dynamicLayerStack w)) 1) as [Hle|Hgt].
    + split; [|done]. intros _. apply eq_None_not_Some. rewrite H2. lia.
    + split; [done|]. intros Hn.
      assert (is_Some (kDynMetaDataSingleton w !! 2)) as [h Hh]
        by (apply H2; lia).
      congruence.
  - destruct (Nat.leb_spec (length (dynamicLayerStack w)) 1) as [Hle|Hgt].
    + split; [done|]. rewrite H2. lia.
    + split; [|done]. intros _. apply H2. lia.
  - intros Hone. rewrite Hone. simpl. split; [done|].
    unfold areTransformsActive. unfold_monad. f_equal. f_equal.
    apply negb_true_iff, bool_decide_eq_false_2. intros Hempty.
    assert (is_Some (kDynMetaDataSingleton w !! 1)) as Hsome
      by (apply Hreg; lia).
    rewrite Hempty, lookup_empty in Hsome. by destruct Hsome.
Qed.

End AutogradFunction.

Lemma autograd_function_support_witness :
  dynamicLayerStack initial_world = [] ∧
  kDynMetaDataSingleton initial_world = ∅ ∧
  Forall (λ o, is_public_push_or_pop o = true)
    [InitAndPush 62%N None None (Some true) (Some true)] ∧
  checkSupportsAutogradFunction
    (run (H := example_keys)
       [InitAndPush 62%N None None (Some true) (Some true)] initial_world) =
  (Returned 0,
   run (H := example_keys)
     [InitAndPush 62%N None None (Some true) (Some true)] initial_world) ∧
  areTransformsActive
    (run (H := example_keys)
       [InitAndPush 62%N None None (Some true) (Some true)] initial_world) =
  (Returned true,
   run (H := example_keys)
     [InitAndPush 62%N None None (Some true) (Some true)] initial_world).
Proof.
  assert (dynamicLayerStack initial_world = []) as H1 by reflexivity.
  assert (kDynMetaDataSingleton initial_world = ∅) as H2 by reflexivity.
  assert (Forall (λ o, is_public_push_or_pop o = true)
            [InitAndPush 62%N None None (Some true) (Some true)]) as H3
    by (repeat constructor).
  split; [exact H1|]. split; [exact H2|]. split; [exact H3|].
  apply (proj2 (proj2 (proj2 (autograd_function_support (H := example_keys)
                                _ initial_world H1 H2 H3)))).
  vm_compute. reflexivity.
Defined.

(** *** The two handlers, one inside the other *)

Section ThroughBothHandlers.
Context `{DispatchKeys} `{TensorWrapperLevel}.






End ThroughBothHandlers.


Section HandlerEdges.
Context `{DispatchKeys} `{TensorWrapperLevel}.

(** X19.  The handlers at the edges.  With no layer on the stack the front
    handler fails its size assertion and changes nothing, and the back
    handler reads the last element of an empty vector.  Under a
    Differentiation layer that has neither previous mode the back handler
    fails its assertion before it touches anything.  With fewer boxed values
    than the schema has arguments, the front handler, for an operation that
    is not in-place, fails the "begin >= 0" assertion of the walker with the
    world unchanged, and the back handler under a Differentiation layer reads
    outside the call stack in step 1.  In none of these cases is the
    operation dispatched: the outcome is the same for every call. *)
Theorem handlers_edge_cases
    (callBoxed : M World unit) (schema : FunctionSchema) (w : World) :
  (dynamicLayerStack w = [] →
   dynamicLayerFrontFallback callBoxed schema w =
     (Thrown (InternalAssert "dynamicLayerStack.size() > 0"), w) ∧
   dynamicLayerBackFallback callBoxed schema w =
     (Aborted undefined_behaviour, w)) ∧
  (∀ top, last (dynamicLayerStack w) = Some top → key_ top = Autograd →
     prevGradMode_ top = None → prevFwdGradMode_ top = None →
     dynamicLayerBackFallback callBoxed schema w =
     (Thrown (InternalAssert
                "prev_grad_mode.has_value() || prev_fwd_grad_mode.has_value()"),
      w)) ∧
  (∀ top, last (dynamicLayerStack w) = Some top →
     (length (jitStack w) < length (arguments schema))%nat →
     isInplaceOp schema = false →
     dynamicLayerFrontFallback callBoxed schema w =
     (Thrown (InternalAssert "begin >= 0"), w)) ∧
  (∀ top, last (dynamicLayerStack w) = Some top → key_ top = Autograd →
     is_Some (prevGradMode_ top) ∨ is_Some (prevFwdGradMode_ top) →
     (length (jitStack w) < length (arguments schema))%nat →
     dynamicLayerBackFallback callBoxed schema w =
     (Aborted undefined_behaviour, w)).
Proof.
  split; [|split; [|split]].
  - intros Hs. unfold dynamicLayerFrontFallback, dynamicLayerBackFallback.
    rewrite !get_bind, Hs. done.
  - intros top Htop Hk Hg Hfg. unfold dynamicLayerBackFallback.
    rewrite get_bind, Htop, Hk, N.eqb_refl, Hg, Hfg. done.
  - intros top Htop Hlen Hin.
    destruct (last_Some (dynamicLayerStack w) top) as [[s Hs] _]; [done|].
    assert ((0 <? Z.of_nat (length (dynamicLayerStack w))) = true) as Hsize
      by (apply Z.ltb_lt; rewrite Hs, length_app; simpl; lia).
    assert (checkForInvalidMutationOnCaptures schema (dynamicLayerStack w) w
            = (Returned tt, w)) as Hcheck.
    { unfold checkForInvalidMutationOnCaptures. rewrite Htop, Hin.
      by destruct (negb _). }
    unfold dynamicLayerFrontFallback.
    rewrite get_bind, Hsize. simpl. rewrite bind_eq. simpl.
    rewrite bind_eq, Hcheck, bind_eq.
    unfold foreachTensorInplace. unfold_monad.
    by replace (0 <=? Z.of_nat (length (jitStack w))
                      - Z.of_nat (length (arguments schema)))
      with false by (symmetry; apply Z.leb_gt; lia).
  - intros top Htop Hk Hmodes Hlen. unfold dynamicLayerBackFallback.
    rewrite get_bind, Htop, Hk, N.eqb_refl.
    replace (bool_decide (is_Some (prevGradMode_ top))
             || bool_decide (is_Some (prevFwdGradMode_ top))) with true
      by (symmetry; apply orb_true_iff;
          destruct Hmodes; [left|right]; by apply bool_decide_eq_true_2).
    simpl. rewrite bind_eq. simpl. rewrite bind_eq.
    unfold back_copy_and_unwrap_args. rewrite get_bind, bind_eq.
    destruct (arguments schema) as [|a l] eqn:Ha; [simpl in Hlen; lia|].
    cbn [length for_range]. rewrite bind_eq.
    unfold back_push_copy at 1. rewrite get_bind. unfold at_index.
    by replace (Z.of_nat (length (jitStack w)) - Z.of_nat (S (length l)) + 0 <? 0)
      with true by (symmetry; apply Z.ltb_lt; simpl in Hlen; lia).
Qed.

End HandlerEdges.
